(** * OSDG tunnel protocol: the packet receiver and the client nonce

    A shallow embedding of [receive_packet], [client_get_nonce], [sendTELL],
    [sendMESG] and friends, from [library/tunnel_protocol.c] (module
    [Tunnel]) and from the older [protocol.c] (module [Legacy]).

    Bytes are integers in [0, 256); a buffer is a list of bytes.  C integers
    are [Z] with the wrap-around written out where the code can reach it.
    Everything the C file calls but does not define (libsodium, protobuf-c,
    the socket layer, the connection object) is an operation of the
    [Externals] interface; the theorems hold for every implementation of
    it.  [Double] is a small executable implementation, used to run the code
    on concrete frames.

    Two small pieces beside the protocol are embedded as well: the
    intrusive queue, [queue_put] and [queue_get] (module [Queue]), and
    [getWord] of the demo's command line (module [Words]). *)

From Stdlib Require Import ZArith List Lia Bool String Ascii Sorted.
Import ListNotations.
Open Scope Z_scope.

Set Implicit Arguments.

(** ** Bytes and byte order *)

Definition byte := Z.
Definition bytes := list byte.

Definition is_byte (b : Z) : Prop := 0 <= b < 256.

Definition byte_at (buf : bytes) (i : nat) : byte := nth i buf 0.

Definition zeros (n : nat) : bytes := repeat 0 n.

(** [slice off len buf] is [buf[off .. off+len)]. *)
Definition slice (off len : nat) (buf : bytes) : bytes :=
  firstn len (skipn off buf).

Definition bytes_of_string (s : string) : bytes :=
  map (fun a => Z.of_nat (nat_of_ascii a)) (list_ascii_of_string s).

Fixpoint le_bytes (n : nat) (v : Z) : bytes :=
  match n with
  | O => []
  | S k => (v mod 256) :: le_bytes k (v / 256)
  end.

Fixpoint le_value (bs : bytes) : Z :=
  match bs with
  | [] => 0
  | b :: r => b + 256 * le_value r
  end.

Definition be_bytes (n : nat) (v : Z) : bytes := rev (le_bytes n v).
Definition be_value (bs : bytes) : Z := le_value (rev bs).

(** The host byte order decides how an integer lies in memory. *)
Inductive endianness := LittleEndian | BigEndian.

Definition store (e : endianness) (n : nat) (v : Z) : bytes :=
  match e with
  | LittleEndian => le_bytes n v
  | BigEndian => be_bytes n v
  end.

Definition load (e : endianness) (bs : bytes) : Z :=
  match e with
  | LittleEndian => le_value bs
  | BigEndian => be_value bs
  end.

Definition bswap (n : nat) (v : Z) : Z := le_value (rev (le_bytes n v)).

(** Modelled from the spec: the macros [SWAP_16] and [SWAP_64] (their header
    is not part of the sources).  The protocol is big-endian and the code
    says "Our protocol wants bigendian data": the macros turn a host integer
    into one whose bytes in memory are in big-endian order, so they reverse
    the bytes on a little-endian host and do nothing on a big-endian one. *)
Definition SWAP_16 (e : endianness) (x : Z) : Z :=
  match e with
  | LittleEndian => bswap 2 x
  | BigEndian => x
  end.

(** Modelled from the spec: [SWAP_64], the 8-byte counterpart of
    [SWAP_16]. *)
Definition SWAP_64 (e : endianness) (x : Z) : Z :=
  match e with
  | LittleEndian => bswap 8 x
  | BigEndian => x
  end.

Definition two64 : Z := 2 ^ 64.

(** The eight bytes a host integer puts on the wire, read as the protocol
    reads them (big-endian). *)
Definition wire_nonce (e : endianness) (v : Z) : Z := be_value (store e 8 v).

(** ** Enumerations of the public header *)

Inductive osdg_result_t :=
| osdg_no_error
| osdg_socket_error
| osdg_crypto_core_error
| osdg_decryption_error
| osdg_encryption_error
| osdg_protocol_error
| osdg_buffer_exceeded
| osdg_server_error
| osdg_peer_timeout
| osdg_system_error.

Inductive connection_mode := mode_none | mode_grid | mode_peer.

Inductive osdg_status :=
| osdg_closed
| osdg_connecting
| osdg_handshaking
| osdg_forwarding
| osdg_connected
| osdg_failed.

Definition result_eqb (a b : osdg_result_t) : bool :=
  match a, b with
  | osdg_no_error, osdg_no_error
  | osdg_socket_error, osdg_socket_error
  | osdg_crypto_core_error, osdg_crypto_core_error
  | osdg_decryption_error, osdg_decryption_error
  | osdg_encryption_error, osdg_encryption_error
  | osdg_protocol_error, osdg_protocol_error
  | osdg_buffer_exceeded, osdg_buffer_exceeded
  | osdg_server_error, osdg_server_error
  | osdg_peer_timeout, osdg_peer_timeout
  | osdg_system_error, osdg_system_error => true
  | _, _ => false
  end.

(** ** The connection object

    The fields of [struct _osdg_connection] that the protocol code reads or
    writes.  [tunnelId] is [None] for the C null pointer. *)

Record connection := mkConnection {
  mode : connection_mode;
  status : osdg_status;
  errorKind : osdg_result_t;
  nonce : Z;
  bufferSize : Z;
  bytesReceived : Z;
  bytesLeft : Z;
  receiveBuffer : bytes;
  serverPubkey : bytes;
  clientPubkey : bytes;
  clientSecret : bytes;
  clientTempPubkey : bytes;
  clientTempSecret : bytes;
  serverCookie : bytes;
  beforenmData : bytes;
  tunnelId : option bytes
}.

Definition set_errorKind (k : osdg_result_t) (c : connection) : connection :=
  mkConnection (mode c) (status c) k (nonce c) (bufferSize c)
    (bytesReceived c) (bytesLeft c) (receiveBuffer c) (serverPubkey c)
    (clientPubkey c) (clientSecret c) (clientTempPubkey c)
    (clientTempSecret c) (serverCookie c) (beforenmData c) (tunnelId c).

Definition set_status (s : osdg_status) (c : connection) : connection :=
  mkConnection (mode c) s (errorKind c) (nonce c) (bufferSize c)
    (bytesReceived c) (bytesLeft c) (receiveBuffer c) (serverPubkey c)
    (clientPubkey c) (clientSecret c) (clientTempPubkey c)
    (clientTempSecret c) (serverCookie c) (beforenmData c) (tunnelId c).

Definition set_nonce (n : Z) (c : connection) : connection :=
  mkConnection (mode c) (status c) (errorKind c) n (bufferSize c)
    (bytesReceived c) (bytesLeft c) (receiveBuffer c) (serverPubkey c)
    (clientPubkey c) (clientSecret c) (clientTempPubkey c)
    (clientTempSecret c) (serverCookie c) (beforenmData c) (tunnelId c).

Definition set_receive_state (received left : Z) (c : connection) : connection :=
  mkConnection (mode c) (status c) (errorKind c) (nonce c) (bufferSize c)
    received left (receiveBuffer c) (serverPubkey c)
    (clientPubkey c) (clientSecret c) (clientTempPubkey c)
    (clientTempSecret c) (serverCookie c) (beforenmData c) (tunnelId c).

Definition set_receiveBuffer (b : bytes) (c : connection) : connection :=
  mkConnection (mode c) (status c) (errorKind c) (nonce c) (bufferSize c)
    (bytesReceived c) (bytesLeft c) b (serverPubkey c)
    (clientPubkey c) (clientSecret c) (clientTempPubkey c)
    (clientTempSecret c) (serverCookie c) (beforenmData c) (tunnelId c).

Definition set_serverPubkey (k : bytes) (c : connection) : connection :=
  mkConnection (mode c) (status c) (errorKind c) (nonce c) (bufferSize c)
    (bytesReceived c) (bytesLeft c) (receiveBuffer c) k
    (clientPubkey c) (clientSecret c) (clientTempPubkey c)
    (clientTempSecret c) (serverCookie c) (beforenmData c) (tunnelId c).

Definition set_clientTemp (pk sk : bytes) (c : connection) : connection :=
  mkConnection (mode c) (status c) (errorKind c) (nonce c) (bufferSize c)
    (bytesReceived c) (bytesLeft c) (receiveBuffer c) (serverPubkey c)
    (clientPubkey c) (clientSecret c) pk sk
    (serverCookie c) (beforenmData c) (tunnelId c).

Definition set_serverCookie (k : bytes) (c : connection) : connection :=
  mkConnection (mode c) (status c) (errorKind c) (nonce c) (bufferSize c)
    (bytesReceived c) (bytesLeft c) (receiveBuffer c) (serverPubkey c)
    (clientPubkey c) (clientSecret c) (clientTempPubkey c)
    (clientTempSecret c) k (beforenmData c) (tunnelId c).

Definition set_beforenmData (k : bytes) (c : connection) : connection :=
  mkConnection (mode c) (status c) (errorKind c) (nonce c) (bufferSize c)
    (bytesReceived c) (bytesLeft c) (receiveBuffer c) (serverPubkey c)
    (clientPubkey c) (clientSecret c) (clientTempPubkey c)
    (clientTempSecret c) (serverCookie c) k (tunnelId c).

(** ** The client nonce

    [unsigned long long nonce = client->nonce++; return SWAP_64(nonce);]
    The counter is an unsigned 64-bit integer: the increment wraps. *)

Definition client_get_nonce (e : endianness) (c : connection) : Z * connection :=
  let n := nonce c in
  (SWAP_64 e n, set_nonce ((n + 1) mod two64) c).

(** The values returned by [k] successive calls. *)
Fixpoint nonces_returned (e : endianness) (k : nat) (c : connection) : list Z :=
  match k with
  | O => []
  | S k' =>
      let '(v, c') := client_get_nonce e c in
      v :: nonces_returned e k' c'
  end.

Definition after_calls (e : endianness) (k : nat) (c : connection) : connection :=
  Nat.iter k (fun c => snd (client_get_nonce e c)) c.

(** ** Constants of the missing headers

    Values the sources use by name only.  The numeric message types are the
    ones the specification lists; the others stay abstract.  The two error
    codes are labels of one C [switch], hence distinct. *)

Class Constants := {
  host : endianness;
  PACKET_MAGIC : Z;
  PROTOCOL_VERSION_MAGIC : Z;
  PROTOCOL_VERSION_MAJOR : Z;
  PROTOCOL_VERSION_MINOR : Z;
  FORWARD_REMOTE_MAGIC : Z;
  FORWARD_REMOTE_SIGNATURE : string;
  FORWARD_SERVER_ERROR : Z;
  FORWARD_PEER_TIMEOUT : Z;
  forward_codes_distinct : FORWARD_SERVER_ERROR <> FORWARD_PEER_TIMEOUT
}.

Definition MSG_PROTOCOL_VERSION : Z := 0x01.
Definition MSG_PEER_REPLY : Z := 0x03.
Definition MSG_FORWARD_HOLD : Z := 0x0F.
Definition MSG_FORWARD_REMOTE : Z := 0x10.
Definition MSG_FORWARD_REPLY : Z := 0x11.
Definition MSG_FORWARD_ERROR : Z := 0x12.

(** libsodium's sizes. *)
Definition crypto_box_ZEROBYTES : nat := 32.
Definition crypto_box_BOXZEROBYTES : nat := 16.
Definition crypto_box_PUBLICKEYBYTES : nat := 32.

(** The 4-character command tags, as they lie in [header->command]. *)
Inductive command :=
| CMD_TELL | CMD_WELC | CMD_HELO | CMD_COOK | CMD_VOCH | CMD_REDY | CMD_MESG.

Definition command_tag (cmd : command) : bytes :=
  bytes_of_string
    match cmd with
    | CMD_TELL => "TELL"
    | CMD_WELC => "WELC"
    | CMD_HELO => "HELO"
    | CMD_COOK => "COOK"
    | CMD_VOCH => "VOCH"
    | CMD_REDY => "REDY"
    | CMD_MESG => "MESG"
    end%string.

Fixpoint bytes_eqb (a b : bytes) : bool :=
  match a, b with
  | [], [] => true
  | x :: a', y :: b' => (x =? y) && bytes_eqb a' b'
  | _, _ => false
  end.

(** Sizes of the packed wire structures (the length prefix is the first
    field of [struct packet_header]). *)
Definition sizeof_unsigned_short : Z := 2.
Definition sizeof_packet_header : Z := 8.
Definition sizeof_packetHELO : Z := 128.
Definition sizeof_curvecp_cookie : Z := 160.
Definition sizeof_curvecp_vouch_inner : Z := 64.
Definition sizeof_certificate_data : Z := 45.
Definition sizeof_curvecp_vouch_outer : Z := 129.
Definition sizeof_packetVOCH : Z := 225.
Definition sizeof_mesg_payload : Z := 34.
Definition sizeof_packetMESG : Z := 34.

Definition two32 : Z := 2 ^ 32.

(** [strcmp]: zero exactly on equal strings. *)
Definition strcmp (a b : string) : Z :=
  match String.compare a b with
  | Eq => 0
  | Lt => -1
  | Gt => 1
  end.

(** [fit n bs]: the contents of a C array of [n] bytes after copying [bs]
    into it. *)
Definition fit (n : nat) (bs : bytes) : bytes := firstn n (bs ++ zeros n).

(** [write_at off data buf]: [memcpy (buf + off, data, length data)]; the
    buffer grows when the write runs past its end. *)
Definition write_at (off : nat) (data buf : bytes) : bytes :=
  firstn off (buf ++ zeros off) ++ data ++ skipn (off + List.length data) buf.

(** ** Messages of the protobuf schema *)

Record ProtocolVersion := mkProtocolVersion {
  pv_magic : Z;
  pv_major : Z;
  pv_minor : Z
}.

Record ForwardRemote := mkForwardRemote {
  fwd_magic : Z;
  fwd_protocolmajor : Z;
  fwd_protocolminor : Z;
  fwd_tunnelid : bytes;
  fwd_signature : string
}.

Record ForwardReply := mkForwardReply { reply_signature : string }.

Record ForwardError := mkForwardError { error_code : Z }.

Record PeerReply := mkPeerReply { reply_id : Z; reply_rest : bytes }.

Inductive pb_message :=
| Pb_ProtocolVersion (v : ProtocolVersion)
| Pb_ForwardRemote (f : ForwardRemote)
| Pb_Packed (body : bytes).

(** ** What the code calls but does not define

    [World] is everything outside the connection object: the socket, the
    random generator, the peers.  A libsodium call that returns non-zero is
    [None]. *)

Class Externals := {
  World : Type;
  (* socket.c *)
  receive_data : connection -> World -> Z * connection * World;
  send_data : bytes -> connection -> World -> osdg_result_t * World;
  (* the socket layer of the older protocol.c, whose send_data returns int *)
  send_data_int : bytes -> connection -> World -> Z * World;
  (* libsodium *)
  crypto_box_keypair : World -> bytes * bytes * World;
  randombytes : nat -> World -> bytes * World;
  crypto_box : bytes -> bytes -> bytes -> bytes -> option bytes;
  crypto_box_open : bytes -> bytes -> bytes -> bytes -> option bytes;
  crypto_box_beforenm : bytes -> bytes -> option bytes;
  crypto_box_afternm : bytes -> bytes -> bytes -> option bytes;
  crypto_box_open_afternm : bytes -> bytes -> bytes -> option bytes;
  (* protobuf-c *)
  protobuf_c_message_pack : pb_message -> bytes;
  forward_reply__unpack : bytes -> option ForwardReply;
  forward_error__unpack : bytes -> option ForwardError;
  protocol_version__unpack : bytes -> option ProtocolVersion;
  peer_reply__unpack : bytes -> option PeerReply;
  (* control_protocol.c, client.c, peer.c *)
  connection_handle_data :
    bytes -> Z -> connection -> World -> osdg_result_t * connection * World;
  (* the int that connection_set_result returns for a result, on a connection *)
  connection_set_result_value : osdg_result_t -> connection -> Z;
  client_find_peer : connection -> World -> Z -> option Z;
  peer_handle_connect_reply :
    Z -> PeerReply -> connection -> World -> Z * connection * World
}.

(** What a run of the code did to the outside, in order. *)
Inductive event :=
| EvReceiveData
| EvSendData (buf : bytes)
| EvKeypair
| EvRandom
| EvBox (m n pk sk : bytes)
| EvBoxOpen (c n pk sk : bytes)
| EvBeforenm (pk sk : bytes)
| EvAfternm (m n k : bytes)
| EvOpenAfternm (c n k : bytes)
| EvHandleData (data : bytes)
| EvPeerConnectReply (peer : Z) (reply : PeerReply).

Definition is_crypto (ev : event) : bool :=
  match ev with
  | EvKeypair | EvRandom | EvBox _ _ _ _ | EvBoxOpen _ _ _ _
  | EvBeforenm _ _ | EvAfternm _ _ _ | EvOpenAfternm _ _ _ => true
  | _ => false
  end.

Definition is_send (ev : event) : bool :=
  match ev with
  | EvSendData _ => true
  | _ => false
  end.

Definition sent_packets (tr : list event) : list bytes :=
  flat_map (fun ev => match ev with EvSendData b => [b] | _ => [] end) tr.

(** ** State and the helpers of the missing headers

    A state of the program: the connection, the world outside it and the
    events so far. *)

Record state_of (W : Type) := mkState {
  conn : connection;
  world : W;
  trace : list event
}.

(** How the first phase of a receiver ends: it has returned, or a complete
    frame of [ret] bytes is in the buffer. *)
Inductive frame_outcome_of (W : Type) :=
| Returned (ret : Z) (st : state_of W)
| Frame (ret : Z) (st : state_of W).

Abbreviation state := (state_of World).
Abbreviation frame_outcome := (frame_outcome_of World).

Section Protocol.

Context {K : Constants} {X : Externals}.

Definition with_conn (c : connection) (st : state) : state :=
  mkState c (world st) (trace st).

Definition on_conn (f : connection -> connection) (st : state) : state :=
  with_conn (f (conn st)) st.

Definition log (ev : event) (st : state) : state :=
  mkState (conn st) (world st) (trace st ++ [ev]).

Definition call_receive_data (st : state) : Z * state :=
  let '(ret, c, w) := receive_data (conn st) (world st) in
  (ret, mkState c w (trace st ++ [EvReceiveData])).

Definition call_send_data (buf : bytes) (st : state) : osdg_result_t * state :=
  let '(res, w) := send_data buf (conn st) (world st) in
  (res, mkState (conn st) w (trace st ++ [EvSendData buf])).

(** Modelled from the spec: [build_header], [PACKET_SIZE], [PAYLOAD_SIZE]
    and [MESG_CIPHERTEXT_SIZE] of tunnel_protocol.h.  A frame is
    [length:u16 | magic:u16 | command:[4]u8 | payload], the length is
    big-endian and excludes itself; MESG and REDY payloads start with the
    8-byte nonce. *)
Definition build_header (cmd : command) (size : Z) : bytes :=
  store host 2 (SWAP_16 host ((size - sizeof_unsigned_short) mod 65536))
  ++ store host 2 PACKET_MAGIC
  ++ command_tag cmd.

(** [SWAP_16 (header->size)]. *)
Definition header_size (pkt : bytes) : Z :=
  SWAP_16 host (load host (slice 0 2 pkt)).

(** Modelled from the spec: [PACKET_SIZE], the length field plus the two
    bytes of the field itself. *)
Definition PACKET_SIZE (pkt : bytes) : Z :=
  header_size pkt + sizeof_unsigned_short.

(** Modelled from the spec: [PAYLOAD_SIZE], what follows the header
    ("payload[length-6]"). *)
Definition PAYLOAD_SIZE (pkt : bytes) : Z :=
  header_size pkt - (sizeof_packet_header - sizeof_unsigned_short).

(** Modelled from the spec: [MESG_CIPHERTEXT_SIZE], the payload without the
    8-byte nonce. *)
Definition MESG_CIPHERTEXT_SIZE (pkt : bytes) : Z :=
  PAYLOAD_SIZE pkt - 8.

Definition header_magic (pkt : bytes) : Z := load host (slice 2 2 pkt).

Definition command_is (pkt : bytes) (cmd : command) : bool :=
  bytes_eqb (slice 4 4 pkt) (command_tag cmd).

(** Modelled from the spec: the nonce builders.  A short-term nonce is a
    16-byte prefix and the 8 bytes of the counter as it lies in memory; a
    long-term nonce is an 8-byte prefix and 16 bytes. *)
Definition build_short_term_nonce (prefix : string) (value : Z) : bytes :=
  fit 16 (bytes_of_string prefix) ++ store host 8 value.

(** Modelled from the spec: [build_long_term_nonce], an 8-byte prefix and
    16 bytes. *)
Definition build_long_term_nonce (prefix : string) (tail : bytes) : bytes :=
  fit 8 (bytes_of_string prefix) ++ fit 16 tail.

(** Modelled from the spec: [connection_set_status] of client.h,
    "set_status(new): status update". *)
Definition connection_set_status (s : osdg_status) (st : state) : state :=
  on_conn (set_status s) st.

(** Modelled from the spec: [connection_set_result], "sets error kind if
    non-zero and transitions to failed".  The code returns the [int] this
    function returns; neither the sources nor the spec say which, so it is
    [connection_set_result_value] of the result and of the connection the
    function is called on, an operation of the environment. *)
Definition connection_set_result (res : osdg_result_t) (st : state) : Z * state :=
  (connection_set_result_value res (conn st),
   if result_eqb res osdg_no_error then st
   else on_conn (fun c => set_status osdg_failed (set_errorKind res c)) st).

(** [send_packet]: the first [PACKET_SIZE (header)] bytes go to [send_data]. *)
Definition send_packet (pkt : bytes) (st : state) : osdg_result_t * state :=
  call_send_data (firstn (Z.to_nat (PACKET_SIZE pkt)) pkt) st.

(** [decryptMESG]: the box is opened in place, over the receive buffer.
    [payload = mesg->mesg_payload - crypto_box_BOXZEROBYTES] is the start of
    the buffer, so [zero_outer_pad] wipes the header and the nonce.  The
    result is whether the returned pointer is non-null. *)
Definition decryptMESG (nonce_prefix : string) (st : state) : bool * state :=
  let buf := receiveBuffer (conn st) in
  let length := MESG_CIPHERTEXT_SIZE buf mod two32 in
  let nonce := build_short_term_nonce nonce_prefix (load host (slice 8 8 buf)) in
  let buf := write_at 0 (zeros crypto_box_BOXZEROBYTES) buf in
  let clen := (length + Z.of_nat crypto_box_BOXZEROBYTES) mod two32 in
  let c := firstn (Z.to_nat clen) buf in
  let key := beforenmData (conn st) in
  let st := log (EvOpenAfternm c nonce key) (on_conn (set_receiveBuffer buf) st) in
  match crypto_box_open_afternm c nonce key with
  | None => (false, on_conn (set_errorKind osdg_decryption_error) st)
  | Some m => (true, on_conn (set_receiveBuffer (write_at 0 m buf)) st)
  end.

(** The COOK packet is [header | nonce[16] | curvecp_cookie[144]]:
    [zero_outer_pad] wipes the nonce, and the box handed to
    [crypto_box_open] starts there. *)
Definition cook_nonce (buf : bytes) : bytes :=
  build_long_term_nonce "CurveCPK" (slice 8 16 buf).

Definition cook_zero_outer_pad (buf : bytes) : bytes :=
  write_at 8 (zeros crypto_box_BOXZEROBYTES) buf.

Definition cook_box (buf : bytes) : bytes :=
  slice 8 (Z.to_nat sizeof_curvecp_cookie) (cook_zero_outer_pad buf).

(** The plaintext of the inner box of VOCH. *)
Definition vouch_inner (c : connection) : bytes :=
  zeros crypto_box_ZEROBYTES ++ fit 32 (clientTempPubkey c).

(** "Data size is bigendian":
    [(client->receiveBuffer[0] << 8) | client->receiveBuffer[1]]. *)
Definition declared_size (buf : bytes) : Z :=
  Z.lor (Z.shiftl (byte_at buf 0) 8) (byte_at buf 1).

(** "Every packet is prefixed with length, read it first". *)
Definition begin_packet (st : state) : state :=
  if bytesLeft (conn st) =? 0
  then on_conn (set_receive_state 0 sizeof_unsigned_short) st
  else st.

(** The first phase of both receivers: the two-step read of the length
    prefix and of the body (the code up to [if (ret <= 0) return ret;]). *)
Definition receive_frame (st : state) : frame_outcome :=
  let st := begin_packet st in
  let '(ret, st) := call_receive_data st in
  let after_length : (Z * state) + (Z * state) :=
    if ret =? sizeof_unsigned_short then
      let size := declared_size (receiveBuffer (conn st)) in
      if size + sizeof_unsigned_short >? bufferSize (conn st) then
        inl (-1, on_conn (set_errorKind osdg_buffer_exceeded) st)
      else
        inr (call_receive_data
               (on_conn (fun c => set_receive_state (bytesReceived c) size c) st))
    else inr (ret, st) in
  match after_length with
  | inl (ret, st) => Returned ret st
  | inr (ret, st) => if ret <=? 0 then Returned ret st else Frame ret st
  end.

(** The state and the byte count with which [receive_frame] ends. *)
Definition frame_state (st : state) : state :=
  match receive_frame st with
  | Returned _ st' => st'
  | Frame _ st' => st'
  end.

Definition frame_ret (st : state) : Z :=
  match receive_frame st with
  | Returned ret _ => ret
  | Frame ret _ => ret
  end.

End Protocol.

(** ** library/tunnel_protocol.c *)

Module Tunnel.

Section Code.

Context {K : Constants} {X : Externals}.

Definition sendTELL (st : state) : Z * state :=
  let tell := build_header CMD_TELL sizeof_packet_header in
  let '(res, st) := send_packet tell st in
  connection_set_result res st.

(** The TELL packet on the wire: the length 6, the magic and the tag,
    nothing else. *)
Definition TELL_packet : bytes :=
  be_bytes 2 6 ++ store host 2 PACKET_MAGIC ++ command_tag CMD_TELL.

(** [get_MESG_packet]: [None] is the null pointer.  The buffer is seen from
    [payload = mesg->mesg_payload - crypto_box_BOXZEROBYTES], which is its
    start: 32 bytes of padding, then [data.size], then [data.data]. *)
Definition get_MESG_packet (dataSize : Z) (st : state) : option bytes * state :=
  let packetSize := sizeof_packetMESG + dataSize in
  if packetSize >? bufferSize (conn st) then
    (None, on_conn (set_errorKind osdg_buffer_exceeded) st)
  else
    (Some (zeros crypto_box_ZEROBYTES
           ++ store host 2 (SWAP_16 host (dataSize mod 65536))), st).

Definition send_MESG_packet (mesg : bytes) (st : state) : osdg_result_t * state :=
  let dataSize := SWAP_16 host (load host (slice 32 2 mesg)) in
  let mesg := write_at 0 (zeros crypto_box_ZEROBYTES) mesg in
  let '(n, c) := client_get_nonce host (conn st) in
  let st := with_conn c st in
  let nonce := build_short_term_nonce "CurveCP-client-M" n in
  let plain := firstn (Z.to_nat (sizeof_mesg_payload + dataSize)) mesg in
  let key := beforenmData (conn st) in
  let st := log (EvAfternm plain nonce key) st in
  match crypto_box_afternm plain nonce key with
  | None => (osdg_crypto_core_error, st)
  | Some box =>
      let pkt :=
        build_header CMD_MESG (sizeof_packetMESG + dataSize)
        ++ slice 16 8 nonce
        ++ skipn crypto_box_BOXZEROBYTES box in
      send_packet pkt st
  end.

Definition sendMESG (dataType : Z) (data : pb_message) (st : state)
  : osdg_result_t * state :=
  let packed := protobuf_c_message_pack data in
  let dataSize := Z.of_nat (List.length packed) + 1 in
  match get_MESG_packet dataSize st with
  | (None, st) => (osdg_buffer_exceeded, st)
  | (Some mesg, st) => send_MESG_packet (mesg ++ [dataType] ++ packed) st
  end.

(** The plaintext and the packet of MESG(MSG_PROTOCOL_VERSION) as they must
    be for the grid: 32 bytes of padding, the big-endian size of type and
    message, the type, the packed [ProtocolVersion] of this client; and the
    header, the big-endian nonce and the box without its 16 leading zero
    bytes, cut to the size in the header. *)
Definition version_message : pb_message :=
  Pb_ProtocolVersion
    (mkProtocolVersion PROTOCOL_VERSION_MAGIC PROTOCOL_VERSION_MAJOR
       PROTOCOL_VERSION_MINOR).

Definition version_dataSize : Z :=
  Z.of_nat (List.length (protobuf_c_message_pack version_message)) + 1.

Definition version_plaintext : bytes :=
  zeros 32 ++ be_bytes 2 version_dataSize ++ [MSG_PROTOCOL_VERSION]
  ++ protobuf_c_message_pack version_message.

Definition version_packet (nonce : Z) (box : bytes) : bytes :=
  firstn (Z.to_nat (sizeof_packetMESG + version_dataSize))
    (build_header CMD_MESG (sizeof_packetMESG + version_dataSize)
     ++ be_bytes 8 nonce ++ skipn 16 box).



(** The unencrypted forwarding envelope: [struct DataPacket] over the
    receive buffer, [data[0]] is the message type. *)
Definition forward_length (buf : bytes) : Z :=
  (SWAP_16 host (load host (slice 0 2 buf)) - 1) mod two32.

Definition forward_body (buf : bytes) : bytes :=
  slice 3 (Z.to_nat (forward_length buf)) buf.

Definition handle_FORWARD_REPLY (st : state) : Z * state :=
  match forward_reply__unpack (forward_body (receiveBuffer (conn st))) with
  | None => (-1, on_conn (set_errorKind osdg_protocol_error) st)
  | Some reply =>
      let ret := strcmp (reply_signature reply) FORWARD_REMOTE_SIGNATURE in
      if negb (ret =? 0) then (-1, st) else sendTELL st
  end.

Definition handle_FORWARD_ERROR (st : state) : Z * state :=
  match forward_error__unpack (forward_body (receiveBuffer (conn st))) with
  | None => (-1, on_conn (set_errorKind osdg_protocol_error) st)
  | Some reply =>
      let kind :=
        if error_code reply =? FORWARD_SERVER_ERROR then osdg_server_error
        else if error_code reply =? FORWARD_PEER_TIMEOUT then osdg_peer_timeout
        else osdg_protocol_error in
      (-1, on_conn (set_errorKind kind) st)
  end.

Definition handle_WELC (st : state) : Z * state :=
  let buf := receiveBuffer (conn st) in
  let st := on_conn (set_serverPubkey (fit 32 (slice 8 32 buf))) st in
  let '(pk, sk, w) := crypto_box_keypair (world st) in
  let st := mkState (set_clientTemp pk sk (conn st)) w (trace st ++ [EvKeypair]) in
  let '(n, c) := client_get_nonce host (conn st) in
  let st := with_conn c st in
  let nonce := build_short_term_nonce "CurveCP-client-H" n in
  let zeroMsg := zeros (80 + crypto_box_BOXZEROBYTES) in
  let header := build_header CMD_HELO sizeof_packetHELO in
  let spk := serverPubkey (conn st) in
  let tsk := clientTempSecret (conn st) in
  let st := log (EvBox zeroMsg nonce spk tsk) st in
  match crypto_box zeroMsg nonce spk tsk with
  | None => (-1, on_conn (set_errorKind osdg_crypto_core_error) st)
  | Some box =>
      let helo :=
        header
        ++ fit 32 (clientTempPubkey (conn st))
        ++ slice 16 8 nonce
        ++ skipn crypto_box_BOXZEROBYTES box in
      let '(result, st) := send_packet helo st in
      connection_set_result result st
  end.

(** The certificate record, written field by field as the code does;
    [strcpy] also writes the terminating zero, over [keyLength], which is
    assigned next. *)
Definition certificate_record : bytes :=
  let cert := zeros (Z.to_nat sizeof_certificate_data) in
  let cert := write_at 0 [11] cert in
  let cert := write_at 1 (bytes_of_string "certificate" ++ [0]) cert in
  let cert := write_at 12 [32] cert in
  write_at 13 (zeros 32) cert.

(** [struct curvecp_vouch_outer] up to [haveCertificate]: the padding, the
    long-term public key, the two halves of the long-term nonce and the
    inner box without its 16 leading zero bytes. *)
Definition vouch_outer_fixed (c : connection) (nonce inner : bytes) : bytes :=
  zeros crypto_box_ZEROBYTES
  ++ fit 32 (clientPubkey c)
  ++ slice 8 16 nonce
  ++ fit (Z.to_nat sizeof_curvecp_vouch_inner - crypto_box_BOXZEROBYTES)
       (skipn crypto_box_BOXZEROBYTES inner).

Definition handle_COOK (st : state) : Z * state :=
  let buf := receiveBuffer (conn st) in
  let nonce := cook_nonce buf in
  let st := on_conn (set_receiveBuffer (cook_zero_outer_pad buf)) st in
  let box := cook_box buf in
  let spk := serverPubkey (conn st) in
  let tsk := clientTempSecret (conn st) in
  let st := log (EvBoxOpen box nonce spk tsk) st in
  match crypto_box_open box nonce spk tsk with
  | None => (-1, on_conn (set_errorKind osdg_decryption_error) st)
  | Some cookie =>
      let serverShortTermPubkey := fit 32 (slice 32 32 cookie) in
      let st := on_conn (set_serverCookie (fit 96 (slice 64 96 cookie))) st in
      let st := log (EvBeforenm serverShortTermPubkey tsk) st in
      match crypto_box_beforenm serverShortTermPubkey tsk with
      | None => (-1, on_conn (set_errorKind osdg_crypto_core_error) st)
      | Some k =>
          let st := on_conn (set_beforenmData k) st in
          let innerData := vouch_inner (conn st) in
          let '(rnd, w) := randombytes 16 (world st) in
          let st := mkState (conn st) w (trace st ++ [EvRandom]) in
          let nonce := build_long_term_nonce "CurveCPV" rnd in
          let csk := clientSecret (conn st) in
          let st := log (EvBox innerData nonce spk csk) st in
          match crypto_box innerData nonce spk csk with
          | None => (-1, on_conn (set_errorKind osdg_crypto_core_error) st)
          | Some inner =>
              let outerFixed := vouch_outer_fixed (conn st) nonce inner in
              let '(outerData, certDataSize) :=
                match mode (conn st) with
                | mode_grid =>
                    (outerFixed ++ [1] ++ certificate_record,
                     sizeof_certificate_data)
                | _ => (outerFixed ++ [0], 0)
                end in
              let header :=
                build_header CMD_VOCH (sizeof_packetVOCH + certDataSize) in
              let '(n, c) := client_get_nonce host (conn st) in
              let st := with_conn c st in
              let nonce := build_short_term_nonce "CurveCP-client-I" n in
              let plain :=
                firstn (Z.to_nat (sizeof_curvecp_vouch_outer + certDataSize))
                  outerData in
              let key := beforenmData (conn st) in
              let st := log (EvAfternm plain nonce key) st in
              match crypto_box_afternm plain nonce key with
              | None => (-1, on_conn (set_errorKind osdg_crypto_core_error) st)
              | Some outerBox =>
                  let voch :=
                    header
                    ++ fit 96 (serverCookie (conn st))
                    ++ slice 16 8 nonce
                    ++ skipn crypto_box_BOXZEROBYTES outerBox in
                  let '(result, st) := send_packet voch st in
                  connection_set_result result st
              end
          end
      end
  end.

Definition handle_REDY (st : state) : Z * state :=
  match decryptMESG "CurveCP-server-R" st with
  | (false, st) => (-1, st)
  | (true, st) =>
      match mode (conn st) with
      | mode_grid =>
          let protocolVer :=
            mkProtocolVersion PROTOCOL_VERSION_MAGIC PROTOCOL_VERSION_MAJOR
              PROTOCOL_VERSION_MINOR in
          let '(result, st) :=
            sendMESG MSG_PROTOCOL_VERSION (Pb_ProtocolVersion protocolVer) st in
          connection_set_result result st
      | mode_peer => (0, connection_set_status osdg_connected st)
      | mode_none => (0, st)
      end
  end.

Definition handle_MESG (st : state) : Z * state :=
  match decryptMESG "CurveCP-server-M" st with
  | (false, st) => (-1, st)
  | (true, st) =>
      let buf := receiveBuffer (conn st) in
      let length := SWAP_16 host (load host (slice 32 2 buf)) in
      let data := skipn 34 buf in
      let '(result, c, w) := connection_handle_data data length (conn st) (world st) in
      let st := mkState c w (trace st ++ [EvHandleData data]) in
      connection_set_result result st
  end.

(** A complete frame of [ret] bytes gets to the handler of [cmd] when it is
    not a forwarding message, is no shorter than a header and carries the
    magic and the tag of [cmd]. *)
Definition is_packet (ret : Z) (buf : bytes) (cmd : command) : bool :=
  negb (byte_at buf 2 =? MSG_FORWARD_HOLD)
  && negb (byte_at buf 2 =? MSG_FORWARD_REPLY)
  && negb (byte_at buf 2 =? MSG_FORWARD_ERROR)
  && negb (ret <? sizeof_packet_header)
  && (header_magic buf =? PACKET_MAGIC)
  && command_is buf cmd.

Definition receive_packet (st : state) : Z * state :=
  match receive_frame st with
  | Returned ret st => (ret, st)
  | Frame ret st =>
      let buf := receiveBuffer (conn st) in
      if byte_at buf 2 =? MSG_FORWARD_HOLD then (0, st)
      else if byte_at buf 2 =? MSG_FORWARD_REPLY then handle_FORWARD_REPLY st
      else if byte_at buf 2 =? MSG_FORWARD_ERROR then handle_FORWARD_ERROR st
      else if ret <? sizeof_packet_header then
        (-1, on_conn (set_errorKind osdg_protocol_error) st)
      else if negb (header_magic buf =? PACKET_MAGIC) then
        (-1, on_conn (set_errorKind osdg_protocol_error) st)
      else if command_is buf CMD_WELC then handle_WELC st
      else if command_is buf CMD_COOK then handle_COOK st
      else if command_is buf CMD_REDY then handle_REDY st
      else if command_is buf CMD_MESG then handle_MESG st
      else (0, st)
  end.

End Code.

End Tunnel.

(** ** The older protocol.c

    The same receiver before forwarding and connection modes were added:
    [struct _osdg_client] has no mode and no status, [send_data] returns an
    [int], and MESG payloads are dispatched here, on
    [payload->dataType]. *)

Module Legacy.

Definition sizeof_curvecp_vouch_outer : Z := 175.
Definition sizeof_packetVOCH : Z := 271.
Definition sizeof_mesg_payload : Z := 35.
Definition sizeof_packetMESG : Z := 35.

Section Code.

Context {K : Constants} {X : Externals}.

Definition send_packet (pkt : bytes) (st : state) : Z * state :=
  let buf := firstn (Z.to_nat (PACKET_SIZE pkt)) pkt in
  let '(res, w) := send_data_int buf (conn st) (world st) in
  (res, mkState (conn st) w (trace st ++ [EvSendData buf])).

Definition sendTELL (st : state) : Z * state :=
  send_packet (build_header CMD_TELL sizeof_packet_header) st.

Definition sendMESG (dataType : Z) (data : pb_message) (st : state) : Z * state :=
  let packed := protobuf_c_message_pack data in
  let dataSize := Z.of_nat (List.length packed) in
  let packetSize := sizeof_packetMESG + dataSize in
  if packetSize >? bufferSize (conn st) then
    (-1, on_conn (set_errorKind osdg_buffer_exceeded) st)
  else
    let payload :=
      zeros crypto_box_ZEROBYTES
      ++ store host 2 (SWAP_16 host ((dataSize + 1) mod 65536))
      ++ [dataType] ++ packed in
    let '(n, c) := client_get_nonce host (conn st) in
    let st := with_conn c st in
    let nonce := build_short_term_nonce "CurveCP-client-M" n in
    let plain := firstn (Z.to_nat (sizeof_mesg_payload + dataSize)) payload in
    let key := beforenmData (conn st) in
    let st := log (EvAfternm plain nonce key) st in
    match crypto_box_afternm plain nonce key with
    | None => (-1, on_conn (set_errorKind osdg_encryption_error) st)
    | Some box =>
        let pkt :=
          build_header CMD_MESG packetSize
          ++ slice 16 8 nonce
          ++ skipn crypto_box_BOXZEROBYTES box in
        send_packet pkt st
    end.

Definition handle_WELC (st : state) : Z * state :=
  let buf := receiveBuffer (conn st) in
  let st := on_conn (set_serverPubkey (fit 32 (slice 8 32 buf))) st in
  let '(pk, sk, w) := crypto_box_keypair (world st) in
  let st := mkState (set_clientTemp pk sk (conn st)) w (trace st ++ [EvKeypair]) in
  let '(n, c) := client_get_nonce host (conn st) in
  let st := with_conn c st in
  let nonce := build_short_term_nonce "CurveCP-client-H" n in
  let zeroMsg := zeros (80 + crypto_box_BOXZEROBYTES) in
  let header := build_header CMD_HELO sizeof_packetHELO in
  let spk := serverPubkey (conn st) in
  let tsk := clientTempSecret (conn st) in
  let st := log (EvBox zeroMsg nonce spk tsk) st in
  match crypto_box zeroMsg nonce spk tsk with
  | None => (-1, on_conn (set_errorKind osdg_encryption_error) st)
  | Some box =>
      send_packet
        (header
         ++ fit 32 (clientTempPubkey (conn st))
         ++ slice 16 8 nonce
         ++ skipn crypto_box_BOXZEROBYTES box) st
  end.

(** The license key-value pair at the end of [outerData]:
    [certStrType], [certStrLength], [certStr], [valueType], [valueLength],
    [license]. *)
Definition certificate_fields : bytes :=
  [1] ++ [11] ++ fit 11 (bytes_of_string "certificate")
  ++ [0] ++ [32] ++ zeros 32.

Definition handle_COOK (st : state) : Z * state :=
  let buf := receiveBuffer (conn st) in
  let nonce := cook_nonce buf in
  let st := on_conn (set_receiveBuffer (cook_zero_outer_pad buf)) st in
  let box := cook_box buf in
  let spk := serverPubkey (conn st) in
  let tsk := clientTempSecret (conn st) in
  let st := log (EvBoxOpen box nonce spk tsk) st in
  match crypto_box_open box nonce spk tsk with
  | None => (-1, on_conn (set_errorKind osdg_decryption_error) st)
  | Some cookie =>
      let serverShortTermPubkey := fit 32 (slice 32 32 cookie) in
      let st := on_conn (set_serverCookie (fit 96 (slice 64 96 cookie))) st in
      let st := log (EvBeforenm serverShortTermPubkey tsk) st in
      match crypto_box_beforenm serverShortTermPubkey tsk with
      | None => (-1, on_conn (set_errorKind osdg_encryption_error) st)
      | Some k =>
          let st := on_conn (set_beforenmData k) st in
          let innerData := vouch_inner (conn st) in
          let '(rnd, w) := randombytes 16 (world st) in
          let st := mkState (conn st) w (trace st ++ [EvRandom]) in
          let nonce := build_long_term_nonce "CurveCPV" rnd in
          let csk := clientSecret (conn st) in
          let st := log (EvBox innerData nonce spk csk) st in
          match crypto_box innerData nonce spk csk with
          | None => (-1, on_conn (set_errorKind osdg_encryption_error) st)
          | Some inner =>
              let outerData :=
                zeros crypto_box_ZEROBYTES
                ++ fit 32 (clientPubkey (conn st))
                ++ slice 8 16 nonce
                ++ fit (Z.to_nat sizeof_curvecp_vouch_inner - crypto_box_BOXZEROBYTES)
                     (skipn crypto_box_BOXZEROBYTES inner)
                ++ certificate_fields in
              let header := build_header CMD_VOCH sizeof_packetVOCH in
              let '(n, c) := client_get_nonce host (conn st) in
              let st := with_conn c st in
              let nonce := build_short_term_nonce "CurveCP-client-I" n in
              let plain :=
                firstn (Z.to_nat sizeof_curvecp_vouch_outer) outerData in
              let key := beforenmData (conn st) in
              let st := log (EvAfternm plain nonce key) st in
              match crypto_box_afternm plain nonce key with
              | None => (-1, on_conn (set_errorKind osdg_encryption_error) st)
              | Some outerBox =>
                  send_packet
                    (header
                     ++ fit 96 (serverCookie (conn st))
                     ++ slice 16 8 nonce
                     ++ skipn crypto_box_BOXZEROBYTES outerBox) st
              end
          end
      end
  end.

Definition handle_REDY (st : state) : Z * state :=
  match decryptMESG "CurveCP-server-R" st with
  | (false, st) => (-1, st)
  | (true, st) =>
      let protocolVer :=
        mkProtocolVersion PROTOCOL_VERSION_MAGIC PROTOCOL_VERSION_MAJOR
          PROTOCOL_VERSION_MINOR in
      sendMESG MSG_PROTOCOL_VERSION (Pb_ProtocolVersion protocolVer) st
  end.

(** [struct mesg_payload] here is 32 bytes of padding, [dataSize],
    [dataType] at offset 34 and [data] from offset 35. *)
Definition mesg_length (buf : bytes) : Z :=
  (SWAP_16 host (load host (slice 32 2 buf)) - 1) mod two32.

Definition mesg_dataType (buf : bytes) : Z := byte_at buf 34.

Definition mesg_data (buf : bytes) : bytes :=
  slice 35 (Z.to_nat (mesg_length buf)) buf.

Definition handle_PROTOCOL_VERSION (ret : Z) (st : state) : Z * state :=
  match protocol_version__unpack (mesg_data (receiveBuffer (conn st))) with
  | None => (-1, on_conn (set_errorKind osdg_protocol_error) st)
  | Some protocolVer =>
      let ret :=
        if negb (pv_magic protocolVer =? PROTOCOL_VERSION_MAGIC) then ret
        else if negb (pv_major protocolVer =? PROTOCOL_VERSION_MAJOR)
                || negb (pv_minor protocolVer =? PROTOCOL_VERSION_MINOR)
        then -1
        else 0 in
      if negb (ret =? 0)
      then (ret, on_conn (set_errorKind osdg_protocol_error) st)
      else (0, st)
  end.

Definition handle_PEER_REPLY (data : bytes) (st : state) : Z * state :=
  match peer_reply__unpack data with
  | None => (0, st)
  | Some reply =>
      match client_find_peer (conn st) (world st) (reply_id reply) with
      | Some peer =>
          let '(_, c, w) :=
            peer_handle_connect_reply peer reply (conn st) (world st) in
          (0, mkState c w (trace st ++ [EvPeerConnectReply peer reply]))
      | None => (0, st)
      end
  end.

(** [else if (payload->dataType = MSG_PEER_REPLY)]: an assignment.  It
    stores [MSG_PEER_REPLY] into the buffer and the condition is the value
    stored. *)
Definition handle_MESG (ret : Z) (st : state) : Z * state :=
  match decryptMESG "CurveCP-server-M" st with
  | (false, st) => (-1, st)
  | (true, st) =>
      let buf := receiveBuffer (conn st) in
      if mesg_dataType buf =? MSG_PROTOCOL_VERSION then
        handle_PROTOCOL_VERSION ret st
      else
        let data := mesg_data buf in
        let st := on_conn (set_receiveBuffer (write_at 34 [MSG_PEER_REPLY] buf)) st in
        if negb (MSG_PEER_REPLY =? 0) then handle_PEER_REPLY data st
        else (0, st)
  end.

Definition is_packet (buf : bytes) (cmd : command) : bool :=
  (header_magic buf =? PACKET_MAGIC) && command_is buf cmd.

Definition receive_packet (st : state) : Z * state :=
  match receive_frame st with
  | Returned ret st => (ret, st)
  | Frame ret st =>
      let buf := receiveBuffer (conn st) in
      if negb (header_magic buf =? PACKET_MAGIC) then
        (-1, on_conn (set_errorKind osdg_protocol_error) st)
      else if command_is buf CMD_WELC then handle_WELC st
      else if command_is buf CMD_COOK then handle_COOK st
      else if command_is buf CMD_REDY then handle_REDY st
      else if command_is buf CMD_MESG then handle_MESG ret st
      else (0, st)
  end.

End Code.

End Legacy.

(** ** An executable implementation of the externals

    A scripted socket, a transparent "cipher" that keeps NaCl's padding
    conventions (32 zero bytes before a plaintext, 16 before a box, a
    16-byte tag), and a fixed-width stand-in for protobuf.  It runs the
    code on concrete frames. *)

Module Double.

Record dworld := mkWorld {
  input : list bytes;
  send_result : osdg_result_t;
  outbox : list bytes;
  peers : list Z;
  answered : list Z
}.

Definition tag : bytes := repeat 0xAA 16.

Definition seal (m : bytes) : option bytes :=
  if (List.length m <? 32)%nat then None
  else Some (zeros 16 ++ tag ++ skipn 32 m).

Definition unseal (c : bytes) : option bytes :=
  if (List.length c <? 32)%nat then None
  else if bytes_eqb (slice 16 16 c) tag then Some (zeros 32 ++ skipn 32 c)
  else None.

Definition string_of_bytes (bs : bytes) : string :=
  string_of_list_ascii (map (fun b => ascii_of_nat (Z.to_nat b)) bs).

Definition pack (m : pb_message) : bytes :=
  match m with
  | Pb_ProtocolVersion v =>
      be_bytes 4 (pv_magic v) ++ be_bytes 4 (pv_major v) ++ be_bytes 4 (pv_minor v)
  | Pb_ForwardRemote f =>
      be_bytes 4 (fwd_magic f) ++ be_bytes 4 (fwd_protocolmajor f)
      ++ be_bytes 4 (fwd_protocolminor f) ++ fwd_tunnelid f
      ++ bytes_of_string (fwd_signature f)
  | Pb_Packed body => body
  end.

Definition unpack_version (bs : bytes) : option ProtocolVersion :=
  if (List.length bs =? 12)%nat then
    Some (mkProtocolVersion (be_value (slice 0 4 bs)) (be_value (slice 4 4 bs))
            (be_value (slice 8 4 bs)))
  else None.

Definition unpack_error (bs : bytes) : option ForwardError :=
  match bs with
  | [code] => Some (mkForwardError code)
  | _ => None
  end.

Definition unpack_peer_reply (bs : bytes) : option PeerReply :=
  match bs with
  | id :: rest => Some (mkPeerReply id rest)
  | [] => None
  end.

(** Modelled from the spec: [receive_data] of socket.c, which "pumps bytes
    into the receive buffer honoring bytesReceived/bytesLeft".  One call is
    one [recv] of at most [bytesLeft] bytes at offset [bytesReceived]; it
    returns the number of bytes received so far once nothing is left, 0
    while more is expected and -1 when the peer has closed the socket. *)
Definition d_receive_data (c : connection) (w : dworld)
  : Z * connection * dworld :=
  match input w with
  | [] => (0, c, w)
  | chunk :: rest =>
      let want := Z.to_nat (bytesLeft c) in
      let got := firstn want chunk in
      let later := skipn want chunk in
      let w' :=
        mkWorld (match later with [] => rest | _ => later :: rest end)
          (send_result w) (outbox w) (peers w) (answered w) in
      match got with
      | [] => (-1, set_errorKind osdg_socket_error c, w')
      | _ =>
          let n := Z.of_nat (List.length got) in
          let c' :=
            set_receive_state (bytesReceived c + n) (bytesLeft c - n)
              (set_receiveBuffer
                 (write_at (Z.to_nat (bytesReceived c)) got (receiveBuffer c)) c) in
          (if bytesLeft c' =? 0 then bytesReceived c' else 0, c', w')
      end
  end.

Definition d_send (buf : bytes) (w : dworld) : dworld :=
  mkWorld (input w) (send_result w) (outbox w ++ [buf]) (peers w) (answered w).

#[export] Instance constants : Constants := {
  host := LittleEndian;
  PACKET_MAGIC := 0x9DF0;
  PROTOCOL_VERSION_MAGIC := 0xF09D8C8D;
  PROTOCOL_VERSION_MAJOR := 1;
  PROTOCOL_VERSION_MINOR := 0;
  FORWARD_REMOTE_MAGIC := 0xF09D8C8E;
  FORWARD_REMOTE_SIGNATURE := "MDG-SIG-PLACEHOLDER";
  FORWARD_SERVER_ERROR := 1;
  FORWARD_PEER_TIMEOUT := 2;
  forward_codes_distinct := ltac:(discriminate)
}.

#[export] Instance externals : Externals := {
  World := dworld;
  receive_data := d_receive_data;
  send_data := fun buf _ w => (send_result w, d_send buf w);
  send_data_int := fun buf _ w =>
    (if result_eqb (send_result w) osdg_no_error then 0 else -1, d_send buf w);
  crypto_box_keypair := fun w => (repeat 5 32, repeat 6 32, w);
  randombytes := fun n w => (repeat 7 n, w);
  crypto_box := fun m _ _ _ => seal m;
  crypto_box_open := fun c _ _ _ => unseal c;
  crypto_box_beforenm := fun _ _ => Some (repeat 8 32);
  crypto_box_afternm := fun m _ _ => seal m;
  crypto_box_open_afternm := fun c _ _ => unseal c;
  protobuf_c_message_pack := pack;
  forward_reply__unpack := fun bs => Some (mkForwardReply (string_of_bytes bs));
  forward_error__unpack := unpack_error;
  protocol_version__unpack := unpack_version;
  peer_reply__unpack := unpack_peer_reply;
  connection_handle_data := fun _ _ c w => (osdg_no_error, c, w);
  (* this double's choice: 0 for osdg_no_error, -1 for an error *)
  connection_set_result_value := fun res _ =>
    if result_eqb res osdg_no_error then 0 else -1;
  client_find_peer := fun _ w id =>
    if existsb (Z.eqb id) (peers w) then Some id else None;
  peer_handle_connect_reply := fun peer _ c w =>
    (0, c, mkWorld (input w) (send_result w) (outbox w) (peers w)
             (peer :: answered w))
}.

(** A fresh connection with 32-byte keys, and a world whose socket will
    deliver the given chunks. *)
Definition fresh (m : connection_mode) (bufSize : Z) : connection :=
  mkConnection m osdg_handshaking osdg_no_error 1 bufSize 0 0
    (zeros (Z.to_nat bufSize)) (repeat 2 32) (repeat 1 32) (repeat 9 32)
    (repeat 5 32) (repeat 6 32) (repeat 4 96) (repeat 8 32) None.

Definition start (c : connection) (chunks : list bytes) : state :=
  mkState c (mkWorld chunks osdg_no_error [] [] []) [].

(** A frame: the big-endian length, then the body. *)
Definition frame (body : bytes) : bytes :=
  be_bytes 2 (Z.of_nat (List.length body)) ++ body.

(** A packet as the server sends it: magic, command, payload. *)
Definition packet (cmd : command) (payload : bytes) : bytes :=
  frame (store host 2 PACKET_MAGIC ++ command_tag cmd ++ payload).

(** The payload of a REDY or MESG packet carrying [body] as plaintext. *)
Definition sealed (server_nonce : Z) (body : bytes) : bytes :=
  be_bytes 8 server_nonce ++ tag ++ body.

(** Concrete runs. *)
Definition oversize_input : state :=
  start (fresh mode_grid 1536) [[0xFF; 0xFF; 1; 2; 3]].

Definition hold_input : state :=
  start (set_status osdg_connected (fresh mode_grid 64)) [frame [MSG_FORWARD_HOLD]].

Definition forward_reply_input (signature : string) : state :=
  start (set_status osdg_forwarding (fresh mode_peer 64))
    [frame (MSG_FORWARD_REPLY :: bytes_of_string signature)].

Definition forward_error_input (code : Z) : state :=
  start (set_status osdg_forwarding (fresh mode_peer 64))
    [frame [MSG_FORWARD_ERROR; code]].

Definition redy_input (m : connection_mode) (bufSize : Z) : state :=
  start (fresh m bufSize) [packet CMD_REDY (sealed 1 [0])].

Definition cook_input (m : connection_mode) : state :=
  start (fresh m 1536)
    [packet CMD_COOK (repeat 3 16 ++ tag ++ repeat 3 32 ++ repeat 4 96)].

Definition version_input (magic major minor : Z) : state :=
  start (fresh mode_grid 64)
    [packet CMD_MESG
       (sealed 1
          (be_bytes 2 13 ++ [MSG_PROTOCOL_VERSION]
           ++ pack (Pb_ProtocolVersion (mkProtocolVersion magic major minor))))].

(** A MESG of type 5, whose one payload byte names the known peer 7. *)
Definition unknown_mesg_input : state :=
  mkState (fresh mode_grid 64)
    (mkWorld [packet CMD_MESG (sealed 1 (be_bytes 2 2 ++ [5] ++ [7]))]
       osdg_no_error [] [7] [])
    [].

End Double.

(** ** Shapes used by the further properties *)

Section Shapes.

Context {K : Constants} {X : Externals}.

(** What the first three tests of [Tunnel.receive_packet] let through. *)
Definition not_forwarding (buf : bytes) : Prop :=
  byte_at buf 2 <> MSG_FORWARD_HOLD
  /\ byte_at buf 2 <> MSG_FORWARD_REPLY
  /\ byte_at buf 2 <> MSG_FORWARD_ERROR.

End Shapes.

Module Shape.

Section Shapes.

Context {K : Constants}.

(** The plaintext [sendMESG] builds in the send buffer: [struct
    mesg_payload] (32 bytes of padding, then the big-endian size of what
    follows), the type, the packed message. *)
Definition mesg_plaintext (dataType : Z) (packed : bytes) : bytes :=
  zeros 32 ++ be_bytes 2 (Z.of_nat (List.length packed) + 1) ++ [dataType] ++ packed.

(** The MESG packet around a box: header, big-endian nonce, the box
    without its 16 leading zero bytes, cut to the size in the header. *)
Definition mesg_packet (dataSize nonce : Z) (box : bytes) : bytes :=
  firstn (Z.to_nat (sizeof_packetMESG + dataSize))
    (build_header CMD_MESG (sizeof_packetMESG + dataSize)
     ++ be_bytes 8 nonce ++ skipn 16 box).


(** What [handle_COOK] appends to the fixed part of the outer data, and
    its [certDataSize]. *)
Definition certificate_part (m : connection_mode) : bytes :=
  match m with
  | mode_grid => [1] ++ [11] ++ bytes_of_string "certificate" ++ [32] ++ zeros 32
  | _ => [0]
  end.

Definition certDataSize (m : connection_mode) : Z :=
  match m with
  | mode_grid => sizeof_certificate_data
  | _ => 0
  end.

(** The VOCH packet around a box: header, the 96 bytes of the cookie,
    big-endian nonce, the box without its 16 leading zero bytes. *)
Definition voch_packet (m : connection_mode) (cookie : bytes) (nonce : Z)
    (box : bytes) : bytes :=
  firstn (Z.to_nat (sizeof_packetVOCH + certDataSize m))
    (build_header CMD_VOCH (sizeof_packetVOCH + certDataSize m)
     ++ fit 96 cookie ++ be_bytes 8 nonce ++ skipn 16 box).


Definition forward_frame (packed : bytes) : bytes :=
  be_bytes 2 (Z.of_nat (List.length packed) + 1) ++ [MSG_FORWARD_REMOTE] ++ packed.

End Shapes.

End Shape.

(** ** The intrusive queue (queue_put, queue_get)

    A [struct queue] holds [head] and [tail]; an element starts with its
    [next] pointer.  [tail] points at the last element, or, when the queue
    is empty, at [head] itself seen as an element: [HeadSlot] is the
    address of [q->head] cast to an element pointer.  The mutex is taken and released
    around each operation and is not part of the state. *)

Module Queue.

Inductive ptr := Null | HeadSlot | Elem (id : nat).

Definition ptr_eqb (a b : ptr) : bool :=
  match a, b with
  | Null, Null => true
  | HeadSlot, HeadSlot => true
  | Elem i, Elem j => Nat.eqb i j
  | _, _ => false
  end.

Record queue := mkQueue {
  head : ptr;
  tail : ptr;
  next : nat -> ptr
}.

(** [p->next], where [HeadSlot->next] is [q->head]. *)
Definition load_next (q : queue) (p : ptr) : ptr :=
  match p with
  | Elem i => next q i
  | HeadSlot => head q
  | Null => Null
  end.

Definition store_next (q : queue) (p v : ptr) : queue :=
  match p with
  | Elem i => mkQueue (head q) (tail q) (fun j => if Nat.eqb j i then v else next q j)
  | HeadSlot => mkQueue v (tail q) (next q)
  | Null => q
  end.

(** [queue_get]: returns the head element, or [Null]. *)
Definition queue_get (q : queue) : ptr * queue :=
  let e := head q in
  let q :=
    match e with
    | Null => q
    | _ => mkQueue (load_next q e) (tail q) (next q)
    end in
  let q :=
    if ptr_eqb (tail q) e then mkQueue (head q) HeadSlot (next q) else q in
  (e, q).

(** Modelled from the spec: [queue_put_nolock] of utils.h, "the tail
    pointer refers to the address of the last next slot":
    [e->next = NULL; q->tail->next = e; q->tail = e]. *)
Definition queue_put_nolock (q : queue) (e : nat) : queue :=
  let q := store_next q (Elem e) Null in
  let q := store_next q (tail q) (Elem e) in
  mkQueue (head q) (Elem e) (next q).

Definition queue_put (q : queue) (e : nat) : queue := queue_put_nolock q e.

(** The elements linked from [p], in order. *)
Fixpoint chain (q : queue) (p : ptr) (l : list nat) : Prop :=
  match l with
  | [] => p = Null
  | x :: r => p = Elem x /\ chain q (next q x) r
  end.

(** [q] holds the elements [l], oldest first. *)
Definition holds (q : queue) (l : list nat) : Prop :=
  chain q (head q) l
  /\ NoDup l
  /\ tail q = match l with
              | [] => HeadSlot
              | x :: r => Elem (last r x)
              end.

Definition empty : queue := mkQueue Null HeadSlot (fun _ => Null).

(** [n] calls of [queue_get]: the pointers returned and the queue left. *)
Fixpoint drain (n : nat) (q : queue) : list ptr * queue :=
  match n with
  | O => ([], q)
  | S k =>
      let '(e, q1) := queue_get q in
      let '(es, q2) := drain k q1 in
      (e :: es, q2)
  end.

End Queue.

(** ** The command line of the demo (getWord)

    [getWord (&p)] cuts the first word off a C string in place: it writes
    a zero over the first white-space character, skips the white space
    that follows, and leaves [*p] there.  The string is the list of its
    characters before the terminating zero; the result is the word
    returned and the string [*p] is left at. *)

Module Words.

Section GetWord.

Variable isspace : ascii -> bool.

Fixpoint skip_spaces (s : list ascii) : list ascii :=
  match s with
  | c :: r => if isspace c then skip_spaces r else s
  | [] => []
  end.

Fixpoint getWord (s : list ascii) : list ascii * list ascii :=
  match s with
  | [] => ([], [])
  | c :: r =>
      if isspace c then ([], skip_spaces r)
      else let '(word, rest) := getWord r in (c :: word, rest)
  end.

Definition starts_with_no_space (s : list ascii) : Prop :=
  match s with
  | c :: _ => isspace c = false
  | [] => True
  end.

End GetWord.

(** [isspace] in the C locale: space, and \t \n \v \f \r. *)
Definition c_isspace (c : ascii) : bool :=
  let n := nat_of_ascii c in
  Nat.eqb n 32 || (Nat.leb 9 n && Nat.leb n 13).

End Words.

(** ** Further inputs for runs *)

Module Samples.

Import Double.

(** A socket with nothing to read, and one that delivers the length of a
    frame and nothing of its body. *)
Definition idle_input : state := start (fresh mode_grid 64) [].

Definition length_only_input : state := start (fresh mode_grid 64) [[0; 5]].

Definition first_read (st : state) : Z * connection * dworld :=
  receive_data (conn (begin_packet st)) (world st).

Definition after_length (st : state) : connection :=
  let c1 := snd (fst (first_read st)) in
  set_receive_state (bytesReceived c1) (declared_size (receiveBuffer c1)) c1.

(** Frames the receivers turn down or pass over. *)
Definition short_input : state := start (fresh mode_grid 64) [frame [9; 9; 9]].

Definition wrong_magic_input : state :=
  start (fresh mode_grid 64) [frame (repeat 9 8)].

Definition helo_input : state := start (fresh mode_grid 64) [packet CMD_HELO []].

Definition bad_forward_error_input : state :=
  start (set_status osdg_forwarding (fresh mode_peer 64))
    [frame [MSG_FORWARD_ERROR; 1; 2]].

(** REDY and COOK whose boxes carry a wrong tag. *)
Definition bad_redy_input : state :=
  start (fresh mode_grid 64)
    [packet CMD_REDY (be_bytes 8 1 ++ repeat 0xBB 16 ++ [0])].

Definition bad_cook_input : state :=
  start (fresh mode_grid 1536)
    [packet CMD_COOK (repeat 3 16 ++ repeat 0xBB 16 ++ repeat 3 32 ++ repeat 4 96)].

(** WELC carrying the server key. *)
Definition welc_input : state :=
  start (fresh mode_grid 1536) [packet CMD_WELC (repeat 2 32)].

(** A MESG of type 5 with the payload [1; 2; 3], and one whose payload
    byte names a peer nobody waits for. *)
Definition data_mesg_input : state :=
  start (fresh mode_grid 64)
    [packet CMD_MESG (sealed 1 (be_bytes 2 4 ++ [5] ++ [1; 2; 3]))].

Definition stray_reply_input : state :=
  start (fresh mode_grid 64)
    [packet CMD_MESG (sealed 1 (be_bytes 2 2 ++ [5] ++ [7]))].


(** The externals of [Double] with a cipher that refuses to seal. *)
Definition broken_cipher : Externals := {|
  World := dworld;
  receive_data := @receive_data externals;
  send_data := @send_data externals;
  send_data_int := @send_data_int externals;
  crypto_box_keypair := @crypto_box_keypair externals;
  randombytes := @randombytes externals;
  crypto_box := fun _ _ _ _ => None;
  crypto_box_open := @crypto_box_open externals;
  crypto_box_beforenm := @crypto_box_beforenm externals;
  crypto_box_afternm := fun _ _ _ => None;
  crypto_box_open_afternm := @crypto_box_open_afternm externals;
  protobuf_c_message_pack := @protobuf_c_message_pack externals;
  forward_reply__unpack := @forward_reply__unpack externals;
  forward_error__unpack := @forward_error__unpack externals;
  protocol_version__unpack := @protocol_version__unpack externals;
  peer_reply__unpack := @peer_reply__unpack externals;
  connection_handle_data := @connection_handle_data externals;
  connection_set_result_value := @connection_set_result_value externals;
  client_find_peer := @client_find_peer externals;
  peer_handle_connect_reply := @peer_handle_connect_reply externals
|}.

(** The state after [decryptMESG] has run on the frame of an input. *)
Definition opened (prefix : string) (st : state) : state :=
  snd (decryptMESG prefix (frame_state st)).

(** A version message that is one byte long. *)
Definition truncated_version_input : state :=
  start (fresh mode_grid 64)
    [packet CMD_MESG (sealed 1 (be_bytes 2 2 ++ [MSG_PROTOCOL_VERSION] ++ [0]))].

(** A queue after three puts, and the line of a command. *)
Definition three_puts : Queue.queue :=
  fold_left Queue.queue_put [3; 1; 2]%nat Queue.empty.

Definition connect_line : list ascii :=
  list_ascii_of_string "connect" ++ [" "; "009"]%char ++ list_ascii_of_string "peer1".


Definition received (X : Externals) (st : state_of (@World X))
  : state_of (@World X) :=
  snd (@Tunnel.receive_packet constants X st).







(** The box the cipher of [Double] makes of a plaintext. *)
Definition box_of (plain : bytes) : bytes := zeros 16 ++ tag ++ skipn 32 plain.

End Samples.

(** * Properties *)

(** ** Byte order *)

Lemma le_bytes_length (n : nat) (v : Z) : List.length (le_bytes n v) = n.
Proof.
  revert v; induction n as [|n IH]; intros v; simpl; [reflexivity|].
  now rewrite IH.
Qed.

Lemma le_bytes_range (n : nat) (v : Z) : Forall is_byte (le_bytes n v).
Proof.
  revert v; induction n as [|n IH]; intros v; simpl; constructor.
  - unfold is_byte. apply Z.mod_pos_bound. lia.
  - apply IH.
Qed.

Lemma le_value_le_bytes (n : nat) (v : Z) :
  le_value (le_bytes n v) = v mod 256 ^ Z.of_nat n.
Proof.
  revert v; induction n as [|n IH]; intros v.
  - simpl. now rewrite Z.mod_1_r.
  - cbn [le_bytes le_value]. rewrite IH.
    rewrite Nat2Z.inj_succ, Z.pow_succ_r by lia.
    rewrite Z.rem_mul_r by lia. lia.
Qed.

Lemma le_bytes_le_value (bs : bytes) :
  Forall is_byte bs -> le_bytes (List.length bs) (le_value bs) = bs.
Proof.
  induction 1 as [|b bs Hb _ IH]; [reflexivity|].
  cbn [List.length le_bytes le_value]. unfold is_byte in Hb.
  replace (b + 256 * le_value bs) with (b + le_value bs * 256) by lia.
  f_equal.
  - rewrite Z.mod_add by lia. now apply Z.mod_small.
  - rewrite Z.div_add by lia. rewrite (Z.div_small b) by lia. exact IH.
Qed.

Lemma rev_range (bs : bytes) : Forall is_byte bs -> Forall is_byte (rev bs).
Proof.
  intros H. apply Forall_forall. intros x Hx.
  apply in_rev in Hx. revert x Hx. now apply Forall_forall.
Qed.

(** The bytes that [SWAP_16] and [SWAP_64] leave in memory are the
    big-endian bytes of the argument, on either host. *)
Lemma store_bswap (n : nat) (v : Z) :
  le_bytes n (bswap n v) = be_bytes n v.
Proof.
  unfold bswap, be_bytes.
  rewrite <- (le_bytes_length n v) at 1.
  rewrite <- length_rev.
  apply le_bytes_le_value, rev_range, le_bytes_range.
Qed.

Lemma store_SWAP_16 (e : endianness) (v : Z) :
  store e 2 (SWAP_16 e v) = be_bytes 2 v.
Proof. destruct e; [apply store_bswap | reflexivity]. Qed.

Lemma store_SWAP_64 (e : endianness) (v : Z) :
  store e 8 (SWAP_64 e v) = be_bytes 8 v.
Proof. destruct e; [apply store_bswap | reflexivity]. Qed.

Lemma be_value_be_bytes (n : nat) (v : Z) :
  be_value (be_bytes n v) = v mod 256 ^ Z.of_nat n.
Proof.
  unfold be_value, be_bytes. rewrite rev_involutive. apply le_value_le_bytes.
Qed.

Lemma wire_nonce_SWAP_64 (e : endianness) (v : Z) :
  0 <= v < two64 -> wire_nonce e (SWAP_64 e v) = v.
Proof.
  intros Hv. unfold wire_nonce. rewrite store_SWAP_64, be_value_be_bytes.
  apply Z.mod_small. exact Hv.
Qed.

Lemma SWAP_16_load (e : endianness) (v : Z) :
  0 <= v < 65536 -> SWAP_16 e (load e (be_bytes 2 v)) = v.
Proof.
  intros Hv. destruct e; cbn [SWAP_16 load].
  - unfold bswap. rewrite <- (le_bytes_length 2 v) at 1.
    unfold be_bytes. rewrite <- length_rev.
    rewrite le_bytes_le_value by apply rev_range, le_bytes_range.
    rewrite rev_involutive, le_value_le_bytes. now apply Z.mod_small.
  - rewrite be_value_be_bytes. now apply Z.mod_small.
Qed.

(** ** The client nonce *)

Lemma nonces_returned_nth (e : endianness) (k : nat) :
  forall (c : connection) (i : nat),
    0 <= nonce c -> nonce c + Z.of_nat k <= two64 -> (i < k)%nat ->
    nth_error (nonces_returned e k c) i = Some (SWAP_64 e (nonce c + Z.of_nat i)).
Proof.
  induction k as [|k IH]; intros c i H0 Hk Hi; [lia|].
  cbn [nonces_returned client_get_nonce].
  destruct i as [|i]; cbn [nth_error].
  - now rewrite Z.add_0_r.
  - rewrite IH; cbn [nonce set_nonce].
    + rewrite Z.mod_small by lia. do 2 f_equal. lia.
    + apply Z.mod_pos_bound. reflexivity.
    + rewrite Z.mod_small by lia. lia.
    + lia.
Qed.

Lemma nonces_returned_wire (e : endianness) (k : nat) :
  forall c : connection,
    0 <= nonce c -> nonce c + Z.of_nat k <= two64 ->
    map (wire_nonce e) (nonces_returned e k c)
    = map (fun i => nonce c + Z.of_nat i) (seq 0 k).
Proof.
  induction k as [|k IH]; intros c H0 Hk; [reflexivity|].
  cbn [nonces_returned client_get_nonce map seq].
  rewrite wire_nonce_SWAP_64 by lia. cbn [Z.of_nat]. rewrite Z.add_0_r. f_equal.
  destruct (Nat.eq_dec k 0) as [->|Hpos]; [reflexivity|].
  rewrite IH; cbn [nonce set_nonce].
  - rewrite <- seq_shift, map_map. apply map_ext. intros i.
    rewrite Z.mod_small by lia. lia.
  - apply Z.mod_pos_bound. reflexivity.
  - rewrite Z.mod_small by lia. lia.
Qed.

Lemma counters_sorted (n : Z) (k s : nat) :
  StronglySorted Z.lt (map (fun i => n + Z.of_nat i) (seq s k)).
Proof.
  revert s; induction k as [|k IH]; intros s; cbn [seq map]; constructor.
  - apply IH.
  - apply Forall_forall. intros x Hx. apply in_map_iff in Hx.
    destruct Hx as [i [<- Hi]]. apply in_seq in Hi. lia.
Qed.

Lemma sorted_NoDup (l : list Z) : StronglySorted Z.lt l -> NoDup l.
Proof.
  induction 1 as [|x l _ IH Hx]; constructor; [|exact IH].
  intros Hin. rewrite Forall_forall in Hx. specialize (Hx x Hin). lia.
Qed.

Lemma NoDup_of_map {A B : Type} (f : A -> B) (l : list A) :
  NoDup (map f l) -> NoDup l.
Proof.
  induction l as [|a l IH]; intros H; [constructor|].
  cbn [map] in H. inversion H as [|? ? Hn Hd]; subst. constructor.
  - intros Hin. apply Hn. now apply in_map.
  - now apply IH.
Qed.

Lemma after_calls_nonce (e : endianness) (k : nat) (c : connection) :
  0 <= nonce c < two64 ->
  nonce (after_calls e k c) = (nonce c + Z.of_nat k) mod two64.
Proof.
  intros Hc. induction k as [|k IH].
  - cbn [after_calls Nat.iter Z.of_nat]. rewrite Z.add_0_r.
    symmetry. now apply Z.mod_small.
  - change (after_calls e (S k) c)
      with (snd (client_get_nonce e (after_calls e k c))).
    unfold client_get_nonce. cbn [snd nonce set_nonce].
    rewrite IH, Nat2Z.inj_succ, Zplus_mod_idemp_l. f_equal. lia.
Qed.

Lemma nonce_after_wrap (e : endianness) (c : connection) :
  0 <= nonce c < two64 ->
  fst (client_get_nonce e (after_calls e (Z.to_nat two64) c))
  = fst (client_get_nonce e c).
Proof.
  intros Hc.
  assert (E : nonce (after_calls e (Z.to_nat two64) c) = nonce c).
  { rewrite after_calls_nonce by assumption.
    rewrite Z2Nat.id by (unfold two64; apply Z.pow_nonneg; lia).
    rewrite <- (Z.mul_1_l two64) at 1.
    rewrite Z.mod_add by (unfold two64; apply Z.pow_nonzero; lia).
    apply Z.mod_small. exact Hc. }
  unfold client_get_nonce. cbn [fst]. rewrite E. reflexivity.
Qed.

(** C1 (as amended).  While the 64-bit counter does not wrap, the [i]-th
    call to [client_get_nonce] returns [SWAP_64] of the counter [nonce + i];
    read as the protocol reads them (the 8 bytes on the wire, big-endian)
    the returned nonces are strictly increasing, and the returned values
    are pairwise distinct. *)
Theorem client_nonces_increase_until_wrap (e : endianness) (c : connection) (k : nat) :
  0 <= nonce c -> nonce c + Z.of_nat k <= two64 ->
  (forall i, (i < k)%nat ->
     nth_error (nonces_returned e k c) i = Some (SWAP_64 e (nonce c + Z.of_nat i)))
  /\ StronglySorted Z.lt (map (wire_nonce e) (nonces_returned e k c))
  /\ NoDup (nonces_returned e k c).
Proof.
  intros H0 Hk.
  assert (Hs : StronglySorted Z.lt (map (wire_nonce e) (nonces_returned e k c))).
  { rewrite nonces_returned_wire by assumption. apply counters_sorted. }
  split; [|split].
  - intros i Hi. now apply nonces_returned_nth.
  - exact Hs.
  - eapply NoDup_of_map, sorted_NoDup, Hs.
Qed.

(** ** The receiver *)

Lemma bytes_eqb_eq (a b : bytes) : bytes_eqb a b = true <-> a = b.
Proof.
  revert b; induction a as [|x a IH]; intros [|y b]; cbn [bytes_eqb];
    try (split; [discriminate | discriminate]); [tauto|].
  rewrite andb_true_iff, Z.eqb_eq, IH. split.
  - now intros [-> ->].
  - intros E. injection E. tauto.
Qed.

Lemma strcmp_zero (a b : string) : strcmp a b = 0 <-> a = b.
Proof.
  unfold strcmp. split.
  - intros H. apply String.compare_eq_iff.
    destruct (String.compare a b); [reflexivity | discriminate H | discriminate H].
  - intros ->. pose proof (String.compare_antisym b b) as H.
    destruct (String.compare b b); [reflexivity | discriminate H | discriminate H].
Qed.

Section Receiver.

Context {K : Constants} {X : Externals}.

Lemma begin_packet_world (st : state) : world (begin_packet st) = world st.
Proof. unfold begin_packet. now destruct (bytesLeft (conn st) =? 0). Qed.

Lemma begin_packet_trace (st : state) : trace (begin_packet st) = trace st.
Proof. unfold begin_packet. now destruct (bytesLeft (conn st) =? 0). Qed.

Lemma receive_frame_oversize (st : state) (c : connection) (w : World) :
  receive_data (conn (begin_packet st)) (world st) = (sizeof_unsigned_short, c, w) ->
  declared_size (receiveBuffer c) + sizeof_unsigned_short > bufferSize c ->
  receive_frame st
  = Returned (-1)
      (mkState (set_errorKind osdg_buffer_exceeded c) w (trace st ++ [EvReceiveData])).
Proof.
  intros Hrecv Hsize. unfold receive_frame, call_receive_data.
  rewrite begin_packet_world, begin_packet_trace, Hrecv.
  cbn [conn]. rewrite Z.eqb_refl.
  apply Z.gt_lt, Z.gtb_lt in Hsize. rewrite Hsize. reflexivity.
Qed.

Lemma receive_frame_positive (st st' : state) (ret : Z) :
  receive_frame st = Frame ret st' -> 0 < ret.
Proof.
  unfold receive_frame.
  destruct (call_receive_data (begin_packet st)) as [r st1].
  destruct (r =? sizeof_unsigned_short).
  - destruct (_ >? _); [discriminate|].
    destruct (call_receive_data _) as [r2 st2].
    destruct (r2 <=? 0) eqn:E; [discriminate|].
    intros H; injection H as <- _. now apply Z.leb_gt.
  - destruct (r <=? 0) eqn:E; [discriminate|].
    intros H; injection H as <- _. now apply Z.leb_gt.
Qed.

(** C2.  When the call of [receive_data] that completes the two length
    bytes leaves a declared size with [size + 2 > bufferSize], both
    receivers return -1 with the error kind [osdg_buffer_exceeded], in the
    state that call left: [receive_data] is not called again (no body byte
    is read), and no cryptographic operation is performed. *)
Theorem oversize_frame_rejected (st : state) (c : connection) (w : World) :
  receive_data (conn (begin_packet st)) (world st) = (sizeof_unsigned_short, c, w) ->
  declared_size (receiveBuffer c) + 2 > bufferSize c ->
  let st' :=
    mkState (set_errorKind osdg_buffer_exceeded c) w (trace st ++ [EvReceiveData]) in
  Tunnel.receive_packet st = (-1, st')
  /\ Legacy.receive_packet st = (-1, st')
  /\ errorKind (conn st') = osdg_buffer_exceeded
  /\ receiveBuffer (conn st') = receiveBuffer c
  /\ existsb is_crypto (trace st') = existsb is_crypto (trace st).
Proof.
  intros Hrecv Hsize st'.
  pose proof (receive_frame_oversize st Hrecv Hsize) as Hframe.
  unfold Tunnel.receive_packet, Legacy.receive_packet. rewrite Hframe.
  repeat split.
  subst st'. cbn [trace]. rewrite existsb_app. cbn. now rewrite orb_false_r.
Qed.

(** C10.  A complete frame whose byte at offset 2 is [MSG_FORWARD_HOLD] is
    dropped: [receive_packet] returns 0 in the state the frame was read
    in, whatever the mode and the status, and before the magic is looked
    at. *)
Theorem forward_hold_dropped (st st1 : state) (ret : Z) :
  receive_frame st = Frame ret st1 ->
  byte_at (receiveBuffer (conn st1)) 2 = MSG_FORWARD_HOLD ->
  Tunnel.receive_packet st = (0, st1).
Proof.
  intros Hframe Hhold. unfold Tunnel.receive_packet.
  rewrite Hframe, Hhold. reflexivity.
Qed.

Lemma tunnel_dispatch (st st1 : state) (ret : Z) (cmd : command) :
  receive_frame st = Frame ret st1 ->
  Tunnel.is_packet ret (receiveBuffer (conn st1)) cmd = true ->
  Tunnel.receive_packet st
  = match cmd with
    | CMD_WELC => Tunnel.handle_WELC st1
    | CMD_COOK => Tunnel.handle_COOK st1
    | CMD_REDY => Tunnel.handle_REDY st1
    | CMD_MESG => Tunnel.handle_MESG st1
    | _ => (0, st1)
    end.
Proof.
  intros Hframe Hpkt. unfold Tunnel.receive_packet. rewrite Hframe.
  unfold Tunnel.is_packet in Hpkt.
  repeat (apply andb_true_iff in Hpkt; destruct Hpkt as [Hpkt ?]).
  repeat match goal with
         | H : negb _ = true |- _ => apply negb_true_iff in H; rewrite H
         end.
  match goal with H : (header_magic _ =? _) = true |- _ => rewrite H end.
  cbn [negb].
  match goal with H : command_is _ _ = true |- _ =>
    unfold command_is in *; apply bytes_eqb_eq in H; rewrite H end.
  destruct cmd; reflexivity.
Qed.

Lemma legacy_dispatch (st st1 : state) (ret : Z) (cmd : command) :
  receive_frame st = Frame ret st1 ->
  Legacy.is_packet (receiveBuffer (conn st1)) cmd = true ->
  Legacy.receive_packet st
  = match cmd with
    | CMD_WELC => Legacy.handle_WELC st1
    | CMD_COOK => Legacy.handle_COOK st1
    | CMD_REDY => Legacy.handle_REDY st1
    | CMD_MESG => Legacy.handle_MESG ret st1
    | _ => (0, st1)
    end.
Proof.
  intros Hframe Hpkt. unfold Legacy.receive_packet. rewrite Hframe.
  unfold Legacy.is_packet in Hpkt.
  apply andb_true_iff in Hpkt. destruct Hpkt as [Hmagic Hcmd].
  rewrite Hmagic. cbn [negb].
  unfold command_is in *. apply bytes_eqb_eq in Hcmd. rewrite Hcmd.
  destruct cmd; reflexivity.
Qed.

End Receiver.

(** ** Headers *)

Section Headers.

Context {K : Constants}.

Lemma store_length (n : nat) (v : Z) : List.length (store host n v) = n.
Proof.
  unfold store, be_bytes. destruct host; [|rewrite length_rev]; apply le_bytes_length.
Qed.

Lemma command_tag_length (cmd : command) : List.length (command_tag cmd) = 4%nat.
Proof. destruct cmd; reflexivity. Qed.

Lemma build_header_length (cmd : command) (size : Z) :
  List.length (build_header cmd size) = 8%nat.
Proof.
  unfold build_header. now rewrite !length_app, !store_length, command_tag_length.
Qed.

Lemma build_header_bytes (cmd : command) (size : Z) :
  2 <= size < 65538 ->
  build_header cmd size
  = be_bytes 2 (size - 2) ++ store host 2 PACKET_MAGIC ++ command_tag cmd.
Proof.
  intros Hsize. unfold build_header, sizeof_unsigned_short.
  rewrite store_SWAP_16. now rewrite Z.mod_small by lia.
Qed.

Lemma be_bytes_length (n : nat) (v : Z) : List.length (be_bytes n v) = n.
Proof. unfold be_bytes. rewrite length_rev. apply le_bytes_length. Qed.

Lemma slice_prefix (n : nat) (a b : bytes) :
  List.length a = n -> slice 0 n (a ++ b) = a.
Proof.
  intros <-. unfold slice. cbn [skipn].
  rewrite firstn_app, Nat.sub_diag, firstn_all. cbn [firstn]. apply app_nil_r.
Qed.

Lemma header_size_build_header (cmd : command) (size : Z) (rest : bytes) :
  2 <= size < 65538 ->
  header_size (build_header cmd size ++ rest) = size - 2.
Proof.
  intros Hsize. unfold header_size.
  rewrite build_header_bytes by assumption. rewrite <- app_assoc.
  rewrite slice_prefix by apply be_bytes_length.
  apply SWAP_16_load. lia.
Qed.

Lemma PACKET_SIZE_build_header (cmd : command) (size : Z) (rest : bytes) :
  2 <= size < 65538 ->
  PACKET_SIZE (build_header cmd size ++ rest) = size.
Proof.
  intros Hsize. unfold PACKET_SIZE, sizeof_unsigned_short.
  rewrite header_size_build_header by assumption. lia.
Qed.

End Headers.

(** ** The forwarding envelope *)

Section Forwarding.

Context {K : Constants} {X : Externals}.

Lemma sendTELL_sends (st : state) :
  Tunnel.sendTELL st
  = let '(res, w) := send_data Tunnel.TELL_packet (conn st) (world st) in
    connection_set_result res
      (mkState (conn st) w (trace st ++ [EvSendData Tunnel.TELL_packet])).
Proof.
  unfold Tunnel.sendTELL, send_packet, call_send_data.
  pose proof (PACKET_SIZE_build_header CMD_TELL (size := sizeof_packet_header) [])
    as Hsize.
  rewrite app_nil_r in Hsize. rewrite Hsize by (unfold sizeof_packet_header; lia).
  rewrite firstn_all2
    by (rewrite build_header_length; unfold sizeof_packet_header; cbn; lia).
  rewrite build_header_bytes by (unfold sizeof_packet_header; lia).
  change (be_bytes 2 (sizeof_packet_header - 2) ++ store host 2 PACKET_MAGIC
          ++ command_tag CMD_TELL) with Tunnel.TELL_packet.
  now destruct (send_data Tunnel.TELL_packet (conn st) (world st)).
Qed.

(** C3.  A complete [MSG_FORWARD_ERROR] frame that decodes makes
    [receive_packet] return -1 with the error kind [osdg_server_error] for
    [FORWARD_SERVER_ERROR], [osdg_peer_timeout] for [FORWARD_PEER_TIMEOUT],
    and [osdg_protocol_error] for any other code; nothing else changes. *)
Theorem forward_error_sets_kind (st st1 : state) (ret : Z) (reply : ForwardError) :
  receive_frame st = Frame ret st1 ->
  byte_at (receiveBuffer (conn st1)) 2 = MSG_FORWARD_ERROR ->
  forward_error__unpack (Tunnel.forward_body (receiveBuffer (conn st1))) = Some reply ->
  exists kind,
    Tunnel.receive_packet st = (-1, on_conn (set_errorKind kind) st1)
    /\ (error_code reply = FORWARD_SERVER_ERROR -> kind = osdg_server_error)
    /\ (error_code reply = FORWARD_PEER_TIMEOUT -> kind = osdg_peer_timeout)
    /\ (error_code reply <> FORWARD_SERVER_ERROR ->
        error_code reply <> FORWARD_PEER_TIMEOUT -> kind = osdg_protocol_error).
Proof.
  intros Hframe Htype Hunpack.
  unfold Tunnel.receive_packet. rewrite Hframe, Htype.
  cbn [Z.eqb MSG_FORWARD_ERROR MSG_FORWARD_HOLD MSG_FORWARD_REPLY Pos.eqb].
  unfold Tunnel.handle_FORWARD_ERROR. rewrite Hunpack.
  eexists. split; [reflexivity|].
  pose proof forward_codes_distinct as Hdistinct.
  destruct (Z.eqb_spec (error_code reply) FORWARD_SERVER_ERROR) as [E1|E1];
    destruct (Z.eqb_spec (error_code reply) FORWARD_PEER_TIMEOUT) as [E2|E2];
    repeat split; intros; congruence.
Qed.

(** C4 (what the code does).  A complete [MSG_FORWARD_REPLY] frame whose
    signature is not [FORWARD_REMOTE_SIGNATURE] makes [receive_packet]
    return -1 and leaves the connection as it was when the frame was read:
    the error kind is not set. *)
Theorem forward_reply_wrong_signature (st st1 : state) (ret : Z) (reply : ForwardReply) :
  receive_frame st = Frame ret st1 ->
  byte_at (receiveBuffer (conn st1)) 2 = MSG_FORWARD_REPLY ->
  forward_reply__unpack (Tunnel.forward_body (receiveBuffer (conn st1))) = Some reply ->
  reply_signature reply <> FORWARD_REMOTE_SIGNATURE ->
  Tunnel.receive_packet st = (-1, st1).
Proof.
  intros Hframe Htype Hunpack Hsig.
  unfold Tunnel.receive_packet. rewrite Hframe, Htype.
  cbn [Z.eqb MSG_FORWARD_HOLD MSG_FORWARD_REPLY Pos.eqb].
  unfold Tunnel.handle_FORWARD_REPLY. rewrite Hunpack.
  destruct (Z.eqb_spec (strcmp (reply_signature reply) FORWARD_REMOTE_SIGNATURE) 0)
    as [E|E]; [|reflexivity].
  apply strcmp_zero in E. contradiction.
Qed.

(** C5.  A complete [MSG_FORWARD_REPLY] frame whose signature is
    [FORWARD_REMOTE_SIGNATURE] makes [receive_packet] hand the 8 bytes of a
    TELL packet (the header alone) to [send_data], once, and return what
    [connection_set_result] makes of the result. *)
Theorem forward_reply_sends_TELL (st st1 : state) (ret : Z) (reply : ForwardReply) :
  receive_frame st = Frame ret st1 ->
  byte_at (receiveBuffer (conn st1)) 2 = MSG_FORWARD_REPLY ->
  forward_reply__unpack (Tunnel.forward_body (receiveBuffer (conn st1))) = Some reply ->
  reply_signature reply = FORWARD_REMOTE_SIGNATURE ->
  List.length Tunnel.TELL_packet = Z.to_nat sizeof_packet_header
  /\ Tunnel.TELL_packet = build_header CMD_TELL sizeof_packet_header
  /\ trace (snd (Tunnel.receive_packet st)) = trace st1 ++ [EvSendData Tunnel.TELL_packet]
  /\ Tunnel.receive_packet st
     = connection_set_result
         (fst (send_data Tunnel.TELL_packet (conn st1) (world st1)))
         (mkState (conn st1)
            (snd (send_data Tunnel.TELL_packet (conn st1) (world st1)))
            (trace st1 ++ [EvSendData Tunnel.TELL_packet])).
Proof.
  intros Hframe Htype Hunpack Hsig.
  assert (Hrun : Tunnel.receive_packet st = Tunnel.sendTELL st1).
  { unfold Tunnel.receive_packet. rewrite Hframe, Htype.
    cbn [Z.eqb MSG_FORWARD_HOLD MSG_FORWARD_REPLY Pos.eqb].
    unfold Tunnel.handle_FORWARD_REPLY. rewrite Hunpack.
    apply strcmp_zero in Hsig. rewrite Hsig. reflexivity. }
  rewrite Hrun, sendTELL_sends.
  destruct (send_data Tunnel.TELL_packet (conn st1) (world st1)) as [res w].
  cbn [fst snd]. repeat split.
  - unfold Tunnel.TELL_packet.
    now rewrite !length_app, be_bytes_length, store_length, command_tag_length.
  - unfold Tunnel.TELL_packet. now rewrite build_header_bytes by (unfold sizeof_packet_header; lia).
  - unfold connection_set_result. now destruct (result_eqb res osdg_no_error).
Qed.

End Forwarding.

(** ** Buffers *)

Lemma zeros_length (n : nat) : List.length (zeros n) = n.
Proof. apply repeat_length. Qed.

Lemma fit_length (n : nat) (bs : bytes) : List.length (fit n bs) = n.
Proof.
  unfold fit. rewrite length_firstn, length_app, zeros_length. lia.
Qed.

Lemma slice_middle (a b c : bytes) (n : nat) :
  List.length b = n -> slice (List.length a) n (a ++ b ++ c) = b.
Proof.
  intros <-. unfold slice.
  rewrite skipn_app, Nat.sub_diag, skipn_all. cbn [skipn app].
  rewrite firstn_app, Nat.sub_diag, firstn_all. cbn [firstn]. apply app_nil_r.
Qed.

Lemma slice_end (a b : bytes) (n : nat) :
  List.length b = n -> slice (List.length a) n (a ++ b) = b.
Proof.
  intros Hb. rewrite <- (app_nil_r b) at 1. rewrite (slice_middle a b [] Hb).
  reflexivity.
Qed.

Lemma write_at_start (a a' r : bytes) :
  List.length a = List.length a' -> write_at 0 a (a' ++ r) = a ++ r.
Proof.
  intros Hlen. unfold write_at. cbn [firstn app Nat.add].
  rewrite Hlen, skipn_app, Nat.sub_diag, skipn_all. reflexivity.
Qed.

(** ** REDY *)

Section Ready.

Context {K : Constants} {X : Externals}.

(** A successful [decryptMESG] touches the receive buffer only, and logs
    the one call to [crypto_box_open_afternm]. *)
Lemma decryptMESG_opened (prefix : string) (st st2 : state) :
  decryptMESG prefix st = (true, st2) ->
  exists buf c n,
    st2 = mkState (set_receiveBuffer buf (conn st)) (world st)
            (trace st ++ [EvOpenAfternm c n (beforenmData (conn st))]).
Proof.
  unfold decryptMESG.
  destruct (crypto_box_open_afternm _ _ _); [|discriminate].
  intros H. injection H as <-. do 3 eexists. reflexivity.
Qed.

Lemma short_nonce_tail (prefix : string) (n : Z) :
  slice 16 8 (build_short_term_nonce prefix (SWAP_64 host n)) = be_bytes 8 n.
Proof.
  unfold build_short_term_nonce. rewrite store_SWAP_64.
  pose proof (slice_end (fit 16 (bytes_of_string prefix)) (be_bytes 8 n)
                (be_bytes_length 8 n)) as H.
  now rewrite fit_length in H.
Qed.

(** [sendMESG] on the version message that fits the buffer and a frame:
    the nonce is taken, the plaintext is handed to [crypto_box_afternm],
    and the packet goes out if that made a box. *)
Lemma sendMESG_version_sealing (st : state) :
  let c := conn st in
  let nonceM := build_short_term_nonce "CurveCP-client-M" (SWAP_64 host (nonce c)) in
  sizeof_packetMESG + Tunnel.version_dataSize <= bufferSize c ->
  sizeof_packetMESG + Tunnel.version_dataSize < 65538 ->
  Tunnel.sendMESG MSG_PROTOCOL_VERSION Tunnel.version_message st
  = match crypto_box_afternm Tunnel.version_plaintext nonceM (beforenmData c) with
    | None =>
        (osdg_crypto_core_error,
         log (EvAfternm Tunnel.version_plaintext nonceM (beforenmData c))
           (on_conn (set_nonce ((nonce c + 1) mod two64)) st))
    | Some box =>
        call_send_data (Tunnel.version_packet (nonce c) box)
          (log (EvAfternm Tunnel.version_plaintext nonceM (beforenmData c))
             (on_conn (set_nonce ((nonce c + 1) mod two64)) st))
    end.
Proof.
  intros c nonceM Hfit Hsmall.
  assert (Hpos : 1 <= Tunnel.version_dataSize)
    by (unfold Tunnel.version_dataSize; lia).
  unfold sizeof_packetMESG in Hsmall.
  unfold Tunnel.sendMESG, Tunnel.get_MESG_packet.
  fold Tunnel.version_dataSize. fold c.
  destruct (Z.gtb_spec (sizeof_packetMESG + Tunnel.version_dataSize) (bufferSize c));
    [lia|].
  rewrite Z.mod_small by lia. rewrite store_SWAP_16.
  unfold Tunnel.send_MESG_packet.
  set (mesg := (zeros crypto_box_ZEROBYTES ++ be_bytes 2 Tunnel.version_dataSize)
               ++ [MSG_PROTOCOL_VERSION]
               ++ protobuf_c_message_pack Tunnel.version_message).
  assert (Hmesg : mesg = Tunnel.version_plaintext).
  { unfold mesg, Tunnel.version_plaintext. now rewrite <- app_assoc. }
  assert (Hsize : SWAP_16 host (load host (slice 32 2 mesg)) = Tunnel.version_dataSize).
  { rewrite Hmesg. unfold Tunnel.version_plaintext.
    pose proof (slice_middle (zeros 32) (be_bytes 2 Tunnel.version_dataSize)
                  ([MSG_PROTOCOL_VERSION]
                   ++ protobuf_c_message_pack Tunnel.version_message)
                  (be_bytes_length 2 _)) as Hs.
    rewrite zeros_length in Hs. rewrite Hs. apply SWAP_16_load. lia. }
  rewrite Hsize.
  assert (Hpad : write_at 0 (zeros crypto_box_ZEROBYTES) mesg = mesg).
  { unfold mesg. rewrite <- app_assoc.
    apply write_at_start. reflexivity. }
  rewrite Hpad.
  unfold client_get_nonce. cbn [fst snd]. fold c.
  assert (Hplain :
    firstn (Z.to_nat (sizeof_mesg_payload + Tunnel.version_dataSize)) mesg
    = Tunnel.version_plaintext).
  { rewrite <- Hmesg. apply firstn_all2. unfold mesg.
    rewrite !length_app, zeros_length, be_bytes_length. cbn [List.length].
    unfold Tunnel.version_dataSize, sizeof_mesg_payload, crypto_box_ZEROBYTES.
    unfold bytes, byte in *. lia. }
  rewrite Hplain.
  cbn [with_conn conn log beforenmData set_nonce]. fold c. fold nonceM.
  destruct (crypto_box_afternm Tunnel.version_plaintext nonceM (beforenmData c))
    as [box|]; [|reflexivity].
  unfold send_packet.
  rewrite PACKET_SIZE_build_header by (unfold sizeof_packetMESG; lia).
  unfold nonceM at 1 2. rewrite short_nonce_tail.
  reflexivity.
Qed.

(** [sendMESG] on its normal path: the message fits the buffer and the box
    is sealed. *)
Lemma sendMESG_version (st : state) (box : bytes) :
  let c := conn st in
  let nonceM := build_short_term_nonce "CurveCP-client-M" (SWAP_64 host (nonce c)) in
  sizeof_packetMESG + Tunnel.version_dataSize <= bufferSize c ->
  sizeof_packetMESG + Tunnel.version_dataSize < 65538 ->
  crypto_box_afternm Tunnel.version_plaintext nonceM (beforenmData c) = Some box ->
  Tunnel.sendMESG MSG_PROTOCOL_VERSION Tunnel.version_message st
  = call_send_data (Tunnel.version_packet (nonce c) box)
      (log (EvAfternm Tunnel.version_plaintext nonceM (beforenmData c))
         (on_conn (set_nonce ((nonce c + 1) mod two64)) st)).
Proof.
  intros c nonceM Hfit Hsmall Hbox.
  rewrite sendMESG_version_sealing by assumption.
  fold c. fold nonceM. now rewrite Hbox.
Qed.


Lemma sent_packets_app (tr tr' : list event) :
  sent_packets (tr ++ tr') = sent_packets tr ++ sent_packets tr'.
Proof. unfold sent_packets. apply flat_map_app. Qed.



End Ready.

(** ** MESG in the older receiver *)

Section LegacyMESG.

Context {K : Constants} {X : Externals}.

(** C7.  On a decrypted MESG of type [MSG_PROTOCOL_VERSION] that decodes:
    when magic, major and minor are the client's, [receive_packet] returns
    0 and sets no error; when major or minor differs it sets
    [osdg_protocol_error] and returns a non-zero value. *)
Theorem protocol_version_answer (st st1 st2 : state) (ret : Z) (v : ProtocolVersion) :
  receive_frame st = Frame ret st1 ->
  Legacy.is_packet (receiveBuffer (conn st1)) CMD_MESG = true ->
  decryptMESG "CurveCP-server-M" st1 = (true, st2) ->
  Legacy.mesg_dataType (receiveBuffer (conn st2)) = MSG_PROTOCOL_VERSION ->
  protocol_version__unpack (Legacy.mesg_data (receiveBuffer (conn st2))) = Some v ->
  (pv_magic v = PROTOCOL_VERSION_MAGIC ->
   pv_major v = PROTOCOL_VERSION_MAJOR ->
   pv_minor v = PROTOCOL_VERSION_MINOR ->
     Legacy.receive_packet st = (0, st2)
     /\ errorKind (conn st2) = errorKind (conn st1))
  /\ (pv_major v <> PROTOCOL_VERSION_MAJOR \/ pv_minor v <> PROTOCOL_VERSION_MINOR ->
      exists r,
        r <> 0
        /\ Legacy.receive_packet st
           = (r, on_conn (set_errorKind osdg_protocol_error) st2)).
Proof.
  intros Hframe Hpkt Hdec Htype Hunpack.
  pose proof (receive_frame_positive _ Hframe) as Hret.
  rewrite (@legacy_dispatch K X st st1 ret CMD_MESG Hframe Hpkt).
  unfold Legacy.handle_MESG. rewrite Hdec, Htype.
  cbn [Z.eqb MSG_PROTOCOL_VERSION Pos.eqb].
  unfold Legacy.handle_PROTOCOL_VERSION. rewrite Hunpack.
  split.
  - intros -> -> ->. rewrite !Z.eqb_refl. cbn. split; [reflexivity|].
    destruct (decryptMESG_opened _ _ Hdec) as (buf & c & n & ->). reflexivity.
  - intros Hdiff.
    destruct (Z.eqb_spec (pv_magic v) PROTOCOL_VERSION_MAGIC) as [_|_]; cbn [negb].
    + assert (E : negb (pv_major v =? PROTOCOL_VERSION_MAJOR)
                  || negb (pv_minor v =? PROTOCOL_VERSION_MINOR) = true).
      { apply orb_true_iff. destruct Hdiff as [H|H]; [left|right];
          apply negb_true_iff, Z.eqb_neq; exact H. }
      rewrite E. exists (-1). split; [discriminate | reflexivity].
    + exists ret. split; [lia|].
      destruct (Z.eqb_spec ret 0) as [E|_]; [lia | reflexivity].
Qed.

(** C8 (what the code does).  A decrypted MESG of any type other than
    [MSG_PROTOCOL_VERSION] is handled as a peer reply: the condition
    [payload->dataType = MSG_PEER_REPLY] assigns, so the type in the buffer
    becomes [MSG_PEER_REPLY] and the branch is always taken; when the
    payload decodes as a [PeerReply] of a known peer,
    [peer_handle_connect_reply] runs on it. *)
Theorem any_mesg_taken_for_peer_reply (st st1 st2 : state) (ret : Z) :
  receive_frame st = Frame ret st1 ->
  Legacy.is_packet (receiveBuffer (conn st1)) CMD_MESG = true ->
  decryptMESG "CurveCP-server-M" st1 = (true, st2) ->
  Legacy.mesg_dataType (receiveBuffer (conn st2)) <> MSG_PROTOCOL_VERSION ->
  let buf := receiveBuffer (conn st2) in
  let st3 := on_conn (set_receiveBuffer (write_at 34 [MSG_PEER_REPLY] buf)) st2 in
  Legacy.receive_packet st = Legacy.handle_PEER_REPLY (Legacy.mesg_data buf) st3
  /\ forall (reply : PeerReply) (peer : Z),
       peer_reply__unpack (Legacy.mesg_data buf) = Some reply ->
       client_find_peer (conn st3) (world st3) (reply_id reply) = Some peer ->
       Legacy.receive_packet st
       = (0, mkState
               (snd (fst (peer_handle_connect_reply peer reply (conn st3) (world st3))))
               (snd (peer_handle_connect_reply peer reply (conn st3) (world st3)))
               (trace st3 ++ [EvPeerConnectReply peer reply])).
Proof.
  intros Hframe Hpkt Hdec Htype buf st3.
  rewrite (@legacy_dispatch K X st st1 ret CMD_MESG Hframe Hpkt).
  unfold Legacy.handle_MESG. rewrite Hdec.
  apply Z.eqb_neq in Htype. rewrite Htype.
  cbn [Z.eqb MSG_PEER_REPLY negb]. fold buf. fold st3.
  split; [reflexivity|].
  intros reply peer Hunpack Hfind.
  unfold Legacy.handle_PEER_REPLY. rewrite Hunpack, Hfind.
  now destruct (peer_handle_connect_reply peer reply (conn st3) (world st3))
    as [[r c] w].
Qed.

End LegacyMESG.

(** ** VOCH *)

Section Vouch.

Context {K : Constants} {X : Externals}.



Lemma long_nonce_length (prefix : string) (tail : bytes) :
  List.length (build_long_term_nonce prefix tail) = 24%nat.
Proof.
  unfold build_long_term_nonce. now rewrite length_app, !fit_length.
Qed.

Lemma vouch_outer_fixed_length (c : connection) (prefix : string) (tail inner : bytes) :
  List.length (Tunnel.vouch_outer_fixed c (build_long_term_nonce prefix tail) inner)
  = 128%nat.
Proof.
  unfold Tunnel.vouch_outer_fixed.
  rewrite !length_app, zeros_length, !fit_length.
  unfold build_long_term_nonce.
  pose proof (slice_end (fit 8 (bytes_of_string prefix)) (fit 16 tail)
                (fit_length 16 tail)) as Hs.
  rewrite fit_length in Hs. rewrite Hs, fit_length. reflexivity.
Qed.


End Vouch.

(** * Runs on concrete frames *)

Module Runs.

Import Double.

(** C1, a run: three calls on a fresh connection. *)
Lemma client_nonces_run :
  (forall i, (i < 3)%nat ->
     nth_error (nonces_returned LittleEndian 3 (fresh mode_grid 1536)) i
     = Some (SWAP_64 LittleEndian (nonce (fresh mode_grid 1536) + Z.of_nat i)))
  /\ StronglySorted Z.lt
       (map (wire_nonce LittleEndian)
          (nonces_returned LittleEndian 3 (fresh mode_grid 1536)))
  /\ NoDup (nonces_returned LittleEndian 3 (fresh mode_grid 1536)).
Proof.
  apply (client_nonces_increase_until_wrap LittleEndian (fresh mode_grid 1536) 3).
  - simpl. lia.
  - unfold two64. simpl. lia.
Defined.

(** C1, the claim as stated fails.  On a little-endian host the 256th
    value returned on a fresh connection (counter 256) is smaller than the
    first (counter 1); on either host the value returned after the counter
    has reached [2^64 - 1] is 0; and the call that follows [2^64] calls
    returns the first value again. *)
Lemma client_nonce_not_increasing :
  (nth 255 (nonces_returned LittleEndian 256 (fresh mode_grid 1536)) 0
   < nth 0 (nonces_returned LittleEndian 256 (fresh mode_grid 1536)) 0)
  /\ nonces_returned LittleEndian 2 (set_nonce (two64 - 1) (fresh mode_grid 1536))
     = [two64 - 1; 0]
  /\ nonces_returned BigEndian 2 (set_nonce (two64 - 1) (fresh mode_grid 1536))
     = [two64 - 1; 0]
  /\ fst (client_get_nonce LittleEndian
            (after_calls LittleEndian (Z.to_nat two64) (fresh mode_grid 1536)))
     = fst (client_get_nonce LittleEndian (fresh mode_grid 1536)).
Proof.
  split; [|split; [|split]].
  - vm_compute. reflexivity.
  - vm_compute. reflexivity.
  - vm_compute. reflexivity.
  - apply nonce_after_wrap. unfold two64. simpl. lia.
Qed.

(** C2, a run: the length prefix [0xFFFF] against a buffer of 1536 bytes;
    the three bytes that follow stay in the socket. *)
Lemma oversize_frame_run :
  exists (c : connection) (w : dworld),
    Tunnel.receive_packet oversize_input
    = (-1, mkState (set_errorKind osdg_buffer_exceeded c) w [EvReceiveData])
    /\ Legacy.receive_packet oversize_input
       = (-1, mkState (set_errorKind osdg_buffer_exceeded c) w [EvReceiveData])
    /\ input w = [[1; 2; 3]].
Proof.
  eexists. eexists.
  destruct (@oversize_frame_rejected constants externals oversize_input
              (snd (fst (receive_data (conn (begin_packet oversize_input))
                           (world oversize_input))))
              (snd (receive_data (conn (begin_packet oversize_input))
                      (world oversize_input))))
    as [Ht [Hl _]].
  - vm_compute. reflexivity.
  - vm_compute. reflexivity.
  - split; [exact Ht|]. split; [exact Hl|]. vm_compute. reflexivity.
Defined.

(** C10, a run: a three-byte frame carrying [MSG_FORWARD_HOLD], received by
    a connected grid connection. *)
Lemma forward_hold_run :
  Tunnel.receive_packet hold_input = (0, frame_state hold_input)
  /\ status (conn (frame_state hold_input)) = osdg_connected.
Proof.
  split; [|reflexivity].
  apply (@forward_hold_dropped constants externals hold_input
           (frame_state hold_input) (frame_ret hold_input)).
  - vm_compute. reflexivity.
  - vm_compute. reflexivity.
Defined.

(** C3, a run: [MSG_FORWARD_ERROR] with the code [FORWARD_PEER_TIMEOUT]. *)
Lemma forward_error_run :
  Tunnel.receive_packet (forward_error_input FORWARD_PEER_TIMEOUT)
  = (-1, on_conn (set_errorKind osdg_peer_timeout)
           (frame_state (forward_error_input FORWARD_PEER_TIMEOUT))).
Proof.
  destruct (@forward_error_sets_kind constants externals
              (forward_error_input FORWARD_PEER_TIMEOUT)
              (frame_state (forward_error_input FORWARD_PEER_TIMEOUT))
              (frame_ret (forward_error_input FORWARD_PEER_TIMEOUT))
              (mkForwardError FORWARD_PEER_TIMEOUT))
    as [kind [Hrun [_ [Hkind _]]]].
  - vm_compute. reflexivity.
  - vm_compute. reflexivity.
  - vm_compute. reflexivity.
  - rewrite Hrun, (Hkind eq_refl). reflexivity.
Defined.

(** C4, the failing run: [MSG_FORWARD_REPLY] with the signature "BAD" on a
    forwarding peer connection.  The code returns -1 and the error kind is
    still [osdg_no_error]. *)
Lemma forward_reply_wrong_signature_run :
  Tunnel.receive_packet (forward_reply_input "BAD")
  = (-1, frame_state (forward_reply_input "BAD"))
  /\ errorKind (conn (frame_state (forward_reply_input "BAD"))) = osdg_no_error
  /\ status (conn (frame_state (forward_reply_input "BAD"))) = osdg_forwarding.
Proof.
  split; [|split; reflexivity].
  apply (@forward_reply_wrong_signature constants externals
           (forward_reply_input "BAD") (frame_state (forward_reply_input "BAD"))
           (frame_ret (forward_reply_input "BAD")) (mkForwardReply "BAD")).
  - vm_compute. reflexivity.
  - vm_compute. reflexivity.
  - vm_compute. reflexivity.
  - simpl. discriminate.
Defined.

(** C5, a run: the right signature; the 8 bytes sent are the TELL header. *)
Lemma forward_reply_run :
  trace (snd (Tunnel.receive_packet (forward_reply_input FORWARD_REMOTE_SIGNATURE)))
  = [EvReceiveData; EvReceiveData; EvSendData [0; 6; 0xF0; 0x9D; 84; 69; 76; 76]].
Proof.
  destruct (@forward_reply_sends_TELL constants externals
              (forward_reply_input FORWARD_REMOTE_SIGNATURE)
              (frame_state (forward_reply_input FORWARD_REMOTE_SIGNATURE))
              (frame_ret (forward_reply_input FORWARD_REMOTE_SIGNATURE))
              (mkForwardReply FORWARD_REMOTE_SIGNATURE))
    as [_ [_ [Htrace _]]].
  - vm_compute. reflexivity.
  - vm_compute. reflexivity.
  - vm_compute. reflexivity.
  - reflexivity.
  - rewrite Htrace. vm_compute. reflexivity.
Defined.



(** C7, two runs of the older receiver: the server answers with the
    client's version, then with major 2. *)
Lemma protocol_version_run :
  (Legacy.receive_packet (version_input PROTOCOL_VERSION_MAGIC 1 0)
   = (0, snd (decryptMESG "CurveCP-server-M"
                (frame_state (version_input PROTOCOL_VERSION_MAGIC 1 0))))
   /\ errorKind
        (conn (snd (decryptMESG "CurveCP-server-M"
                      (frame_state (version_input PROTOCOL_VERSION_MAGIC 1 0)))))
      = errorKind (conn (frame_state (version_input PROTOCOL_VERSION_MAGIC 1 0))))
  /\ (exists r,
        r <> 0
        /\ Legacy.receive_packet (version_input PROTOCOL_VERSION_MAGIC 2 0)
           = (r, on_conn (set_errorKind osdg_protocol_error)
                   (snd (decryptMESG "CurveCP-server-M"
                           (frame_state (version_input PROTOCOL_VERSION_MAGIC 2 0))))))
  /\ errorKind (conn (snd (Legacy.receive_packet
                             (version_input PROTOCOL_VERSION_MAGIC 1 0))))
     = osdg_no_error
  /\ Legacy.receive_packet (version_input PROTOCOL_VERSION_MAGIC 2 0)
     = (-1, on_conn (set_errorKind osdg_protocol_error)
              (snd (decryptMESG "CurveCP-server-M"
                      (frame_state (version_input PROTOCOL_VERSION_MAGIC 2 0))))).
Proof.
  split; [|split; [|split]].
  - refine (proj1 (@protocol_version_answer constants externals
              (version_input PROTOCOL_VERSION_MAGIC 1 0)
              (frame_state (version_input PROTOCOL_VERSION_MAGIC 1 0))
              (snd (decryptMESG "CurveCP-server-M"
                      (frame_state (version_input PROTOCOL_VERSION_MAGIC 1 0))))
              (frame_ret (version_input PROTOCOL_VERSION_MAGIC 1 0))
              (mkProtocolVersion PROTOCOL_VERSION_MAGIC 1 0) _ _ _ _ _)
              eq_refl eq_refl eq_refl);
      vm_compute; reflexivity.
  - refine (proj2 (@protocol_version_answer constants externals
              (version_input PROTOCOL_VERSION_MAGIC 2 0)
              (frame_state (version_input PROTOCOL_VERSION_MAGIC 2 0))
              (snd (decryptMESG "CurveCP-server-M"
                      (frame_state (version_input PROTOCOL_VERSION_MAGIC 2 0))))
              (frame_ret (version_input PROTOCOL_VERSION_MAGIC 2 0))
              (mkProtocolVersion PROTOCOL_VERSION_MAGIC 2 0) _ _ _ _ _) _);
      [vm_compute; reflexivity .. | left; simpl; discriminate].
  - vm_compute. reflexivity.
  - vm_compute. reflexivity.
Defined.

(** C8, the failing run: a MESG of type 5 (neither
    [MSG_PROTOCOL_VERSION] nor [MSG_PEER_REPLY]) whose payload byte is the
    id of the outstanding peer 7.  The code rewrites the type to
    [MSG_PEER_REPLY] and runs [peer_handle_connect_reply] on peer 7. *)
Lemma unknown_mesg_run :
  Legacy.mesg_dataType
    (receiveBuffer
       (conn (snd (decryptMESG "CurveCP-server-M" (frame_state unknown_mesg_input)))))
  = 5
  /\ fst (Legacy.receive_packet unknown_mesg_input) = 0
  /\ Legacy.mesg_dataType
       (receiveBuffer (conn (snd (Legacy.receive_packet unknown_mesg_input))))
     = MSG_PEER_REPLY
  /\ answered (world (snd (Legacy.receive_packet unknown_mesg_input))) = [7]
  /\ In (EvPeerConnectReply 7 (mkPeerReply 7 []))
       (trace (snd (Legacy.receive_packet unknown_mesg_input))).
Proof.
  destruct (@any_mesg_taken_for_peer_reply constants externals
              unknown_mesg_input (frame_state unknown_mesg_input)
              (snd (decryptMESG "CurveCP-server-M" (frame_state unknown_mesg_input)))
              (frame_ret unknown_mesg_input))
    as [_ Hreply].
  - vm_compute. reflexivity.
  - vm_compute. reflexivity.
  - vm_compute. reflexivity.
  - vm_compute. discriminate.
  - rewrite (Hreply (mkPeerReply 7 []) 7);
      [|vm_compute; reflexivity|vm_compute; reflexivity].
    repeat split; try (vm_compute; reflexivity).
    cbn [snd trace]. apply in_or_app. right. now left.
Defined.


End Runs.

(** * Further properties of the receivers *)

(** ** Frames that do not reach a handler *)

Section Framing.

Context {K : Constants} {X : Externals}.

Lemma receive_frame_pending (st : state) (r : Z) (c : connection) (w : World) :
  receive_data (conn (begin_packet st)) (world st) = (r, c, w) ->
  r <= 0 ->
  receive_frame st = Returned r (mkState c w (trace st ++ [EvReceiveData])).
Proof.
  intros Hrecv Hr. unfold receive_frame, call_receive_data.
  rewrite begin_packet_world, begin_packet_trace, Hrecv.
  destruct (Z.eqb_spec r sizeof_unsigned_short) as [E|_];
    [unfold sizeof_unsigned_short in E; lia|].
  destruct (Z.leb_spec r 0); [reflexivity | lia].
Qed.

(** X1.  While nothing is complete ([receive_data] returns 0, or a negative
    error), both receivers hand its result back in the state it left:
    [receive_data] was called once, nothing was decrypted or sent. *)
Theorem pending_read_returned (st : state) (r : Z) (c : connection) (w : World) :
  receive_data (conn (begin_packet st)) (world st) = (r, c, w) ->
  r <= 0 ->
  Tunnel.receive_packet st = (r, mkState c w (trace st ++ [EvReceiveData]))
  /\ Legacy.receive_packet st = (r, mkState c w (trace st ++ [EvReceiveData])).
Proof.
  intros Hrecv Hr. unfold Tunnel.receive_packet, Legacy.receive_packet.
  rewrite (receive_frame_pending st Hrecv Hr). split; reflexivity.
Qed.

Lemma receive_frame_body (st : state) (c1 c2 : connection) (w1 w2 : World) (r : Z) :
  receive_data (conn (begin_packet st)) (world st) = (sizeof_unsigned_short, c1, w1) ->
  declared_size (receiveBuffer c1) + sizeof_unsigned_short <= bufferSize c1 ->
  receive_data
    (set_receive_state (bytesReceived c1) (declared_size (receiveBuffer c1)) c1) w1
  = (r, c2, w2) ->
  receive_frame st
  = (if r <=? 0 then @Returned World else @Frame World) r
      (mkState c2 w2 (trace st ++ [EvReceiveData; EvReceiveData])).
Proof.
  intros Hlen Hsize Hbody. unfold receive_frame, call_receive_data.
  rewrite begin_packet_world, begin_packet_trace, Hlen.
  cbn [conn world trace on_conn with_conn]. rewrite Z.eqb_refl.
  destruct (Z.gtb_spec (declared_size (receiveBuffer c1) + sizeof_unsigned_short)
              (bufferSize c1)) as [Hgt|_]; [lia|].
  rewrite Hbody. rewrite <- app_assoc. cbn [app].
  destruct (r <=? 0); reflexivity.
Qed.

(** X2.  When the length prefix is complete and acceptable, the body is asked
    for with [bytesLeft] set to the declared size (and [bytesReceived]
    untouched); while the body is incomplete both receivers return what
    that second [receive_data] returned. *)
Theorem pending_body_returned (st : state) (c1 c2 : connection) (w1 w2 : World)
    (r : Z) :
  receive_data (conn (begin_packet st)) (world st) = (sizeof_unsigned_short, c1, w1) ->
  declared_size (receiveBuffer c1) + sizeof_unsigned_short <= bufferSize c1 ->
  receive_data
    (set_receive_state (bytesReceived c1) (declared_size (receiveBuffer c1)) c1) w1
  = (r, c2, w2) ->
  r <= 0 ->
  Tunnel.receive_packet st
  = (r, mkState c2 w2 (trace st ++ [EvReceiveData; EvReceiveData]))
  /\ Legacy.receive_packet st
     = (r, mkState c2 w2 (trace st ++ [EvReceiveData; EvReceiveData])).
Proof.
  intros Hlen Hsize Hbody Hr. unfold Tunnel.receive_packet, Legacy.receive_packet.
  rewrite (receive_frame_body st Hlen Hsize Hbody).
  destruct (Z.leb_spec r 0); [split; reflexivity | lia].
Qed.

Lemma tunnel_after_forwarding (st st1 : state) (ret : Z) :
  receive_frame st = Frame ret st1 ->
  not_forwarding (receiveBuffer (conn st1)) ->
  Tunnel.receive_packet st
  = let buf := receiveBuffer (conn st1) in
    if ret <? sizeof_packet_header then
      (-1, on_conn (set_errorKind osdg_protocol_error) st1)
    else if negb (header_magic buf =? PACKET_MAGIC) then
      (-1, on_conn (set_errorKind osdg_protocol_error) st1)
    else if command_is buf CMD_WELC then Tunnel.handle_WELC st1
    else if command_is buf CMD_COOK then Tunnel.handle_COOK st1
    else if command_is buf CMD_REDY then Tunnel.handle_REDY st1
    else if command_is buf CMD_MESG then Tunnel.handle_MESG st1
    else (0, st1).
Proof.
  intros Hframe (Hhold & Hreply & Herror). unfold Tunnel.receive_packet.
  rewrite Hframe. cbv zeta.
  apply Z.eqb_neq in Hhold, Hreply, Herror.
  now rewrite Hhold, Hreply, Herror.
Qed.

(** X3.  A complete frame shorter than a packet header that is not a forwarding
    message is a protocol error, whatever its bytes: the length is tested
    before the magic. *)
Theorem short_frame_rejected (st st1 : state) (ret : Z) :
  receive_frame st = Frame ret st1 ->
  not_forwarding (receiveBuffer (conn st1)) ->
  ret < sizeof_packet_header ->
  Tunnel.receive_packet st = (-1, on_conn (set_errorKind osdg_protocol_error) st1).
Proof.
  intros Hframe Hfwd Hshort. rewrite (tunnel_after_forwarding st Hframe Hfwd).
  cbv zeta. apply Z.ltb_lt in Hshort. now rewrite Hshort.
Qed.

(** X4.  A frame with the wrong magic is a protocol error: in the older
    receiver always, in the tunnel receiver once the frame is neither a
    forwarding message nor too short.  Nothing but the error kind
    changes. *)
Theorem wrong_magic_rejected (st st1 : state) (ret : Z) :
  receive_frame st = Frame ret st1 ->
  header_magic (receiveBuffer (conn st1)) <> PACKET_MAGIC ->
  Legacy.receive_packet st = (-1, on_conn (set_errorKind osdg_protocol_error) st1)
  /\ (not_forwarding (receiveBuffer (conn st1)) ->
      sizeof_packet_header <= ret ->
      Tunnel.receive_packet st
      = (-1, on_conn (set_errorKind osdg_protocol_error) st1)).
Proof.
  intros Hframe Hmagic. apply Z.eqb_neq in Hmagic. split.
  - unfold Legacy.receive_packet. now rewrite Hframe, Hmagic.
  - intros Hfwd Hlong. rewrite (tunnel_after_forwarding st Hframe Hfwd).
    cbv zeta. destruct (Z.ltb_spec ret sizeof_packet_header); [lia|].
    now rewrite Hmagic.
Qed.

(** X5.  A packet with the right magic whose command is none of WELC, COOK,
    REDY and MESG (TELL, HELO and VOCH included) is ignored: both
    receivers return 0 and change nothing. *)
Theorem unknown_command_ignored (st st1 : state) (ret : Z) :
  receive_frame st = Frame ret st1 ->
  header_magic (receiveBuffer (conn st1)) = PACKET_MAGIC ->
  (forall cmd, command_is (receiveBuffer (conn st1)) cmd = true ->
               cmd = CMD_TELL \/ cmd = CMD_HELO \/ cmd = CMD_VOCH) ->
  Legacy.receive_packet st = (0, st1)
  /\ (not_forwarding (receiveBuffer (conn st1)) ->
      sizeof_packet_header <= ret ->
      Tunnel.receive_packet st = (0, st1)).
Proof.
  intros Hframe Hmagic Hcmd. apply Z.eqb_eq in Hmagic.
  assert (Hno : forall cmd,
             cmd = CMD_WELC \/ cmd = CMD_COOK \/ cmd = CMD_REDY \/ cmd = CMD_MESG ->
             command_is (receiveBuffer (conn st1)) cmd = false).
  { intros cmd Hin.
    destruct (command_is (receiveBuffer (conn st1)) cmd) eqn:E; [|reflexivity].
    destruct (Hcmd cmd E) as [->|[->| ->]];
      destruct Hin as [H|[H|[H|H]]]; discriminate H. }
  split.
  - unfold Legacy.receive_packet. rewrite Hframe, Hmagic. cbn [negb].
    now rewrite !Hno by tauto.
  - intros Hfwd Hlong. rewrite (tunnel_after_forwarding st Hframe Hfwd).
    cbv zeta. destruct (Z.ltb_spec ret sizeof_packet_header); [lia|].
    rewrite Hmagic. cbn [negb]. now rewrite !Hno by tauto.
Qed.

(** X6.  A forwarding reply or error that protobuf cannot decode is a protocol
    error, and nothing is sent. *)
Theorem forward_decode_failure (st st1 : state) (ret : Z) :
  receive_frame st = Frame ret st1 ->
  let buf := receiveBuffer (conn st1) in
  (byte_at buf 2 = MSG_FORWARD_REPLY
   /\ forward_reply__unpack (Tunnel.forward_body buf) = None)
  \/ (byte_at buf 2 = MSG_FORWARD_ERROR
      /\ forward_error__unpack (Tunnel.forward_body buf) = None) ->
  Tunnel.receive_packet st = (-1, on_conn (set_errorKind osdg_protocol_error) st1).
Proof.
  intros Hframe buf [[Htype Hunpack]|[Htype Hunpack]];
    unfold Tunnel.receive_packet; rewrite Hframe; fold buf; rewrite Htype;
    cbn [Z.eqb MSG_FORWARD_ERROR MSG_FORWARD_HOLD MSG_FORWARD_REPLY Pos.eqb].
  - unfold Tunnel.handle_FORWARD_REPLY. fold buf. now rewrite Hunpack.
  - unfold Tunnel.handle_FORWARD_ERROR. fold buf. now rewrite Hunpack.
Qed.

End Framing.

(** ** decryptMESG *)

Section Decrypt.

Context {K : Constants} {X : Externals}.

Lemma decryptMESG_failed (prefix : string) (st st2 : state) :
  decryptMESG prefix st = (false, st2) ->
  exists buf c n,
    st2 = mkState
            (set_errorKind osdg_decryption_error (set_receiveBuffer buf (conn st)))
            (world st)
            (trace st ++ [EvOpenAfternm c n (beforenmData (conn st))]).
Proof.
  unfold decryptMESG.
  destruct (crypto_box_open_afternm _ _ _); [discriminate|].
  intros H. injection H as <-. do 3 eexists. reflexivity.
Qed.

(** X7.  A REDY or MESG packet whose box does not open makes the tunnel
    receiver return -1 with [osdg_decryption_error]; the status, the mode
    and the nonce counter stay as they were, and the attempt to open the
    box is the only thing that happened: nothing is sent and the payload
    is not handed on. *)
Theorem undecryptable_packet_rejected (st st1 st2 : state) (ret : Z)
    (cmd : command) (prefix : string) :
  receive_frame st = Frame ret st1 ->
  Tunnel.is_packet ret (receiveBuffer (conn st1)) cmd = true ->
  (cmd = CMD_REDY /\ prefix = "CurveCP-server-R"%string)
  \/ (cmd = CMD_MESG /\ prefix = "CurveCP-server-M"%string) ->
  decryptMESG prefix st1 = (false, st2) ->
  Tunnel.receive_packet st = (-1, st2)
  /\ errorKind (conn st2) = osdg_decryption_error
  /\ status (conn st2) = status (conn st1)
  /\ mode (conn st2) = mode (conn st1)
  /\ nonce (conn st2) = nonce (conn st1)
  /\ world st2 = world st1
  /\ exists c n,
       trace st2 = trace st1 ++ [EvOpenAfternm c n (beforenmData (conn st1))].
Proof.
  intros Hframe Hpkt Hcmd Hdec.
  rewrite (@tunnel_dispatch K X st st1 ret cmd Hframe Hpkt).
  destruct (decryptMESG_failed _ _ Hdec) as (buf & c & n & Hst2).
  split.
  - destruct Hcmd as [[-> ->]|[-> ->]];
      [unfold Tunnel.handle_REDY | unfold Tunnel.handle_MESG];
      now rewrite Hdec.
  - subst st2. cbn [conn world trace errorKind status mode nonce set_errorKind
                    set_receiveBuffer].
    repeat split. now exists c, n.
Qed.

End Decrypt.

(** ** What decryptMESG hands to libsodium *)

Section DecryptLayout.

Context {K : Constants} {X : Externals}.

Lemma store_load (e : endianness) (bs : bytes) :
  Forall is_byte bs -> store e (List.length bs) (load e bs) = bs.
Proof.
  intros Hbs. destruct e; cbn [store load].
  - now apply le_bytes_le_value.
  - unfold be_bytes, be_value. rewrite <- (length_rev bs).
    rewrite le_bytes_le_value by now apply rev_range.
    apply rev_involutive.
Qed.

Lemma decryptMESG_trace (prefix : string) (st : state) :
  let buf := receiveBuffer (conn st) in
  trace (snd (decryptMESG prefix st))
  = trace st
    ++ [EvOpenAfternm
          (firstn (Z.to_nat ((MESG_CIPHERTEXT_SIZE buf mod two32 + 16) mod two32))
             (write_at 0 (zeros 16) buf))
          (build_short_term_nonce prefix (load host (slice 8 8 buf)))
          (beforenmData (conn st))].
Proof.
  intros buf. unfold decryptMESG. fold buf.
  now destruct (crypto_box_open_afternm _ _ _).
Qed.

Lemma firstn_zeros (n m : nat) : firstn n (zeros m) = zeros (Nat.min n m).
Proof.
  revert m; induction n as [|n IH]; intros [|m]; cbn; try reflexivity.
  unfold zeros in *. now rewrite IH.
Qed.

Lemma zeroed_start (buf : bytes) :
  write_at 0 (zeros 16) buf = zeros 16 ++ skipn 16 buf.
Proof. reflexivity. Qed.

(** X8.  For a packet long enough to hold a nonce ([14 <= size]),
    [decryptMESG] opens the box made of 16 zero bytes and the [size - 14]
    bytes that follow the nonce, with the nonce made of the prefix and the
    packet's 8 nonce bytes exactly as received, on either host byte
    order. *)
Theorem decryptMESG_opens_frame_box (prefix : string) (st : state) (size : Z) :
  let buf := receiveBuffer (conn st) in
  header_size buf = size ->
  14 <= size < 65536 ->
  List.length (slice 8 8 buf) = 8%nat ->
  Forall is_byte (slice 8 8 buf) ->
  trace (snd (decryptMESG prefix st))
  = trace st
    ++ [EvOpenAfternm
          (zeros 16 ++ slice 16 (Z.to_nat (size - 14)) buf)
          (fit 16 (bytes_of_string prefix) ++ slice 8 8 buf)
          (beforenmData (conn st))].
Proof.
  intros buf Hsize Hrange Hlen Hbytes.
  pose proof (decryptMESG_trace prefix st) as Htrace. cbv zeta in Htrace.
  fold buf in Htrace. rewrite Htrace. do 3 f_equal.
  - unfold MESG_CIPHERTEXT_SIZE, PAYLOAD_SIZE. rewrite Hsize.
    unfold sizeof_packet_header, sizeof_unsigned_short, two32.
    rewrite (Z.mod_small (size - (8 - 2) - 8)) by lia.
    rewrite Z.mod_small by lia.
    rewrite zeroed_start.
    replace (Z.to_nat (size - (8 - 2) - 8 + 16))
      with (16 + Z.to_nat (size - 14))%nat by lia.
    rewrite firstn_app, zeros_length.
    rewrite firstn_all2 by (rewrite zeros_length; lia).
    replace (16 + Z.to_nat (size - 14) - 16)%nat with (Z.to_nat (size - 14)) by lia.
    reflexivity.
  - unfold build_short_term_nonce. f_equal.
    rewrite <- Hlen at 1. now apply store_load.
Qed.

End DecryptLayout.

(** ** sendMESG *)

Section SendMESG.

Context {K : Constants} {X : Externals}.

Lemma slice_8_8_packet (h n r : bytes) (k : nat) :
  List.length h = 8%nat -> List.length n = 8%nat -> (16 <= k)%nat ->
  slice 8 8 (firstn k (h ++ n ++ r)) = n.
Proof.
  intros Hh Hn Hk. unfold slice.
  rewrite skipn_firstn_comm, firstn_firstn.
  replace (Nat.min 8 (k - 8)) with 8%nat by lia.
  rewrite skipn_app, Hh, Nat.sub_diag, skipn_all2 by lia. cbn [skipn app].
  rewrite firstn_app, Hn, Nat.sub_diag, firstn_all2 by lia.
  cbn [firstn]. apply app_nil_r.
Qed.

Lemma header_size_firstn (pkt : bytes) (k : nat) :
  (2 <= k)%nat -> header_size (firstn k pkt) = header_size pkt.
Proof.
  intros Hk. unfold header_size, slice. cbn [skipn].
  rewrite firstn_firstn. now replace (Nat.min 2 k) with 2%nat by lia.
Qed.

(** [sendMESG] on its normal path, for any type and message. *)
Lemma sendMESG_sends (dataType : Z) (data : pb_message) (st : state) (box : bytes) :
  let c := conn st in
  let packed := protobuf_c_message_pack data in
  let dataSize := Z.of_nat (List.length packed) + 1 in
  let nonceM := build_short_term_nonce "CurveCP-client-M" (SWAP_64 host (nonce c)) in
  let plain := Shape.mesg_plaintext dataType packed in
  sizeof_packetMESG + dataSize <= bufferSize c ->
  sizeof_packetMESG + dataSize < 65538 ->
  crypto_box_afternm plain nonceM (beforenmData c) = Some box ->
  Tunnel.sendMESG dataType data st
  = call_send_data (Shape.mesg_packet dataSize (nonce c) box)
      (log (EvAfternm plain nonceM (beforenmData c))
         (on_conn (set_nonce ((nonce c + 1) mod two64)) st)).
Proof.
  intros c packed dataSize nonceM plain Hfit Hsmall Hbox.
  assert (Hpos : 1 <= dataSize) by (unfold dataSize; lia).
  unfold sizeof_packetMESG in Hsmall.
  unfold Tunnel.sendMESG, Tunnel.get_MESG_packet.
  fold packed. fold dataSize. fold c.
  destruct (Z.gtb_spec (sizeof_packetMESG + dataSize) (bufferSize c)); [lia|].
  rewrite Z.mod_small by lia. rewrite store_SWAP_16.
  unfold Tunnel.send_MESG_packet.
  set (mesg := (zeros crypto_box_ZEROBYTES ++ be_bytes 2 dataSize)
               ++ [dataType] ++ packed).
  assert (Hmesg : mesg = plain).
  { unfold mesg, plain, Shape.mesg_plaintext. fold dataSize.
    now rewrite <- app_assoc. }
  assert (Hsize : SWAP_16 host (load host (slice 32 2 mesg)) = dataSize).
  { rewrite Hmesg. unfold plain, Shape.mesg_plaintext. fold dataSize.
    pose proof (slice_middle (zeros 32) (be_bytes 2 dataSize)
                  ([dataType] ++ packed) (be_bytes_length 2 _)) as Hs.
    rewrite zeros_length in Hs. rewrite Hs. apply SWAP_16_load. lia. }
  rewrite Hsize.
  assert (Hpad : write_at 0 (zeros crypto_box_ZEROBYTES) mesg = mesg).
  { unfold mesg. rewrite <- app_assoc. apply write_at_start. reflexivity. }
  rewrite Hpad.
  unfold client_get_nonce. cbn [fst snd]. fold c.
  assert (Hplain : firstn (Z.to_nat (sizeof_mesg_payload + dataSize)) mesg = plain).
  { rewrite <- Hmesg. apply firstn_all2. unfold mesg.
    rewrite !length_app, zeros_length, be_bytes_length. cbn [List.length].
    unfold dataSize, sizeof_mesg_payload, crypto_box_ZEROBYTES.
    unfold bytes, byte in *. lia. }
  rewrite Hplain.
  cbn [with_conn conn log beforenmData set_nonce]. fold c. fold nonceM.
  rewrite Hbox.
  unfold send_packet.
  rewrite PACKET_SIZE_build_header by (unfold sizeof_packetMESG; lia).
  unfold nonceM at 1 2. rewrite short_nonce_tail.
  reflexivity.
Qed.

(** X9.  A message that fits the buffer and a frame and that libsodium seals
    is sent in one packet: the plaintext sealed is the padding, the
    big-endian size, the type and the packed message; the 8 nonce bytes of
    the packet are the big-endian counter, the same that end the nonce the
    box was sealed with; the length field is the packet size less 2; the
    counter moves on by one; and the result is [send_data]'s. *)
Theorem sendMESG_seals_and_sends (dataType : Z) (data : pb_message) (st : state)
    (box : bytes) :
  let c := conn st in
  let packed := protobuf_c_message_pack data in
  let dataSize := Z.of_nat (List.length packed) + 1 in
  let nonceM := build_short_term_nonce "CurveCP-client-M" (SWAP_64 host (nonce c)) in
  let plain := Shape.mesg_plaintext dataType packed in
  let pkt := Shape.mesg_packet dataSize (nonce c) box in
  let out := Tunnel.sendMESG dataType data st in
  sizeof_packetMESG + dataSize <= bufferSize c ->
  sizeof_packetMESG + dataSize < 65538 ->
  crypto_box_afternm plain nonceM (beforenmData c) = Some box ->
  trace (snd out) = trace st ++ [EvAfternm plain nonceM (beforenmData c); EvSendData pkt]
  /\ fst out = fst (send_data pkt (set_nonce ((nonce c + 1) mod two64) c) (world st))
  /\ nonce (conn (snd out)) = (nonce c + 1) mod two64
  /\ errorKind (conn (snd out)) = errorKind c
  /\ slice 8 8 pkt = be_bytes 8 (nonce c)
  /\ slice 16 8 nonceM = be_bytes 8 (nonce c)
  /\ header_size pkt = sizeof_packetMESG + dataSize - 2.
Proof.
  intros c packed dataSize nonceM plain pkt out Hfit Hsmall Hbox.
  assert (Hpos : 1 <= dataSize) by (unfold dataSize; lia).
  unfold out. rewrite (sendMESG_sends dataType data st (box := box)) by assumption.
  fold c packed dataSize nonceM plain pkt.
  unfold call_send_data.
  cbn [conn world trace log on_conn with_conn].
  destruct (send_data pkt (set_nonce ((nonce c + 1) mod two64) (conn st)) (world st))
    as [res w] eqn:Esend.
  fold c in Esend. rewrite Esend.
  cbn [fst snd conn trace nonce set_nonce errorKind].
  repeat split.
  - now rewrite <- app_assoc.
  - unfold pkt, Shape.mesg_packet.
    apply slice_8_8_packet;
      [apply build_header_length | apply be_bytes_length
       | unfold sizeof_packetMESG; lia].
  - apply short_nonce_tail.
  - unfold pkt, Shape.mesg_packet.
    rewrite header_size_firstn by (unfold sizeof_packetMESG; lia).
    apply header_size_build_header. unfold sizeof_packetMESG in *. lia.
Qed.

(** X10.  A message that does not fit the buffer is not sent: [sendMESG] returns
    [osdg_buffer_exceeded] and records it; no nonce is consumed and
    nothing is sealed. *)
Theorem sendMESG_too_large (dataType : Z) (data : pb_message) (st : state) :
  sizeof_packetMESG + (Z.of_nat (List.length (protobuf_c_message_pack data)) + 1)
  > bufferSize (conn st) ->
  Tunnel.sendMESG dataType data st
  = (osdg_buffer_exceeded, on_conn (set_errorKind osdg_buffer_exceeded) st)
  /\ nonce (conn (snd (Tunnel.sendMESG dataType data st))) = nonce (conn st)
  /\ trace (snd (Tunnel.sendMESG dataType data st)) = trace st.
Proof.
  intros Hbig. unfold Tunnel.sendMESG, Tunnel.get_MESG_packet.
  apply Z.gt_lt, Z.gtb_lt in Hbig. rewrite Hbig. repeat split.
Qed.

(** X11.  When libsodium refuses to seal, [sendMESG] returns
    [osdg_crypto_core_error] and sends nothing, but the nonce is spent:
    the counter has moved on by one. *)
Theorem sendMESG_seal_failure (dataType : Z) (data : pb_message) (st : state) :
  let c := conn st in
  let packed := protobuf_c_message_pack data in
  let dataSize := Z.of_nat (List.length packed) + 1 in
  let nonceM := build_short_term_nonce "CurveCP-client-M" (SWAP_64 host (nonce c)) in
  let plain := Shape.mesg_plaintext dataType packed in
  let out := Tunnel.sendMESG dataType data st in
  sizeof_packetMESG + dataSize <= bufferSize c ->
  sizeof_packetMESG + dataSize < 65538 ->
  crypto_box_afternm plain nonceM (beforenmData c) = None ->
  fst out = osdg_crypto_core_error
  /\ nonce (conn (snd out)) = (nonce c + 1) mod two64
  /\ trace (snd out) = trace st ++ [EvAfternm plain nonceM (beforenmData c)]
  /\ world (snd out) = world st.
Proof.
  intros c packed dataSize nonceM plain out Hfit Hsmall Hbox.
  assert (Hpos : 1 <= dataSize) by (unfold dataSize; lia).
  unfold sizeof_packetMESG in Hsmall.
  unfold out, Tunnel.sendMESG, Tunnel.get_MESG_packet.
  fold packed. fold dataSize. fold c.
  destruct (Z.gtb_spec (sizeof_packetMESG + dataSize) (bufferSize c)); [lia|].
  rewrite Z.mod_small by lia. rewrite store_SWAP_16.
  unfold Tunnel.send_MESG_packet.
  set (mesg := (zeros crypto_box_ZEROBYTES ++ be_bytes 2 dataSize)
               ++ [dataType] ++ packed).
  assert (Hmesg : mesg = plain).
  { unfold mesg, plain, Shape.mesg_plaintext. fold dataSize.
    now rewrite <- app_assoc. }
  assert (Hsize : SWAP_16 host (load host (slice 32 2 mesg)) = dataSize).
  { rewrite Hmesg. unfold plain, Shape.mesg_plaintext. fold dataSize.
    pose proof (slice_middle (zeros 32) (be_bytes 2 dataSize)
                  ([dataType] ++ packed) (be_bytes_length 2 _)) as Hs.
    rewrite zeros_length in Hs. rewrite Hs. apply SWAP_16_load. lia. }
  rewrite Hsize.
  assert (Hpad : write_at 0 (zeros crypto_box_ZEROBYTES) mesg = mesg).
  { unfold mesg. rewrite <- app_assoc. apply write_at_start. reflexivity. }
  rewrite Hpad.
  unfold client_get_nonce. cbn [fst snd]. fold c.
  assert (Hplain : firstn (Z.to_nat (sizeof_mesg_payload + dataSize)) mesg = plain).
  { rewrite <- Hmesg. apply firstn_all2. unfold mesg.
    rewrite !length_app, zeros_length, be_bytes_length. cbn [List.length].
    unfold dataSize, sizeof_mesg_payload, crypto_box_ZEROBYTES.
    unfold bytes, byte in *. lia. }
  rewrite Hplain.
  cbn [with_conn conn log beforenmData set_nonce]. fold c. fold nonceM.
  rewrite Hbox. cbn [fst snd conn trace world nonce set_nonce]. repeat split.
Qed.

(** X12.  Sender and receiver agree on the layout of a MESG plaintext: when the
    box of a received MESG opens to the plaintext [sendMESG] seals for a
    type and a packed message, [connection_handle_data] is called on the
    type followed by the message, with their size as length. *)
Theorem mesg_layout_round_trip (st1 st2 : state) (dataType : Z) (packed rest : bytes) :
  let dataSize := Z.of_nat (List.length packed) + 1 in
  dataSize < 65536 ->
  decryptMESG "CurveCP-server-M" st1 = (true, st2) ->
  receiveBuffer (conn st2) = Shape.mesg_plaintext dataType packed ++ rest ->
  Tunnel.handle_MESG st1
  = connection_set_result
      (fst (fst (connection_handle_data (dataType :: packed ++ rest) dataSize
                   (conn st2) (world st2))))
      (mkState
         (snd (fst (connection_handle_data (dataType :: packed ++ rest) dataSize
                      (conn st2) (world st2))))
         (snd (connection_handle_data (dataType :: packed ++ rest) dataSize
                 (conn st2) (world st2)))
         (trace st2 ++ [EvHandleData (dataType :: packed ++ rest)])).
Proof.
  intros dataSize Hsmall Hdec Hbuf.
  unfold Tunnel.handle_MESG. rewrite Hdec, Hbuf.
  unfold Shape.mesg_plaintext. fold dataSize.
  assert (Hlen : SWAP_16 host
                   (load host
                      (slice 32 2
                         ((zeros 32 ++ be_bytes 2 dataSize ++ [dataType] ++ packed)
                          ++ rest))) = dataSize).
  { rewrite <- !app_assoc.
    pose proof (slice_middle (zeros 32) (be_bytes 2 dataSize)
                  ([dataType] ++ packed ++ rest) (be_bytes_length 2 _)) as Hs.
    rewrite zeros_length in Hs.
    transitivity (SWAP_16 host (load host (be_bytes 2 dataSize)));
      [do 2 f_equal; exact Hs | apply SWAP_16_load; unfold dataSize; lia]. }
  rewrite Hlen.
  assert (Hdata : skipn 34
                    ((zeros 32 ++ be_bytes 2 dataSize ++ [dataType] ++ packed) ++ rest)
                  = dataType :: packed ++ rest).
  { rewrite <- !app_assoc.
    rewrite (app_assoc (zeros 32)).
    rewrite skipn_app, skipn_all2
      by (rewrite length_app, zeros_length, be_bytes_length; lia).
    rewrite length_app, zeros_length, be_bytes_length. reflexivity. }
  rewrite Hdata.
  now destruct (connection_handle_data _ _ _ _) as [[res c] w].
Qed.

End SendMESG.

(** ** WELC and HELO *)

Section Welcome.

Context {K : Constants} {X : Externals}.

Lemma slice_in_packet (a b r : bytes) (off n k : nat) :
  List.length a = off -> List.length b = n -> (off + n <= k)%nat ->
  slice off n (firstn k (a ++ b ++ r)) = b.
Proof.
  intros Ha Hb Hk. unfold slice.
  rewrite skipn_firstn_comm, firstn_firstn.
  replace (Nat.min n (k - off)) with n by lia.
  rewrite skipn_app, Ha, Nat.sub_diag, skipn_all2 by lia. cbn [skipn app].
  rewrite firstn_app, Hb, Nat.sub_diag, firstn_all2 by lia.
  cbn [firstn]. apply app_nil_r.
Qed.

Lemma send_packet_built (cmd : command) (size : Z) (rest : bytes) (st : state) :
  2 <= size < 65538 ->
  send_packet (build_header cmd size ++ rest) st
  = call_send_data (firstn (Z.to_nat size) (build_header cmd size ++ rest)) st.
Proof.
  intros Hsize. unfold send_packet.
  now rewrite PACKET_SIZE_build_header by assumption.
Qed.


(** X14.  When libsodium refuses to seal the HELO box the receiver returns -1
    with [osdg_crypto_core_error] and sends nothing; the new short-term
    keys are already stored and the nonce is spent. *)
Theorem welc_seal_failure (st st1 : state) (ret : Z) (pk sk : bytes) (w : World) :
  receive_frame st = Frame ret st1 ->
  Tunnel.is_packet ret (receiveBuffer (conn st1)) CMD_WELC = true ->
  let c := conn st1 in
  let spk := fit 32 (slice 8 32 (receiveBuffer c)) in
  let nonceH := build_short_term_nonce "CurveCP-client-H" (SWAP_64 host (nonce c)) in
  let out := Tunnel.receive_packet st in
  crypto_box_keypair (world st1) = (pk, sk, w) ->
  crypto_box (zeros 96) nonceH spk sk = None ->
  fst out = -1
  /\ errorKind (conn (snd out)) = osdg_crypto_core_error
  /\ status (conn (snd out)) = status c
  /\ sent_packets (trace (snd out)) = sent_packets (trace st1)
  /\ clientTempSecret (conn (snd out)) = sk
  /\ nonce (conn (snd out)) = (nonce c + 1) mod two64.
Proof.
  intros Hframe Hpkt c spk nonceH out Hkeys Hbox.
  unfold out. rewrite (@tunnel_dispatch K X st st1 ret CMD_WELC Hframe Hpkt).
  unfold Tunnel.handle_WELC.
  cbn [conn world trace on_conn with_conn]. rewrite Hkeys.
  unfold client_get_nonce.
  cbn [conn world trace log on_conn with_conn nonce set_clientTemp set_serverPubkey
       serverPubkey clientTempSecret clientTempPubkey set_nonce].
  fold c. fold spk. fold nonceH.
  change (zeros (80 + crypto_box_BOXZEROBYTES)) with (zeros 96).
  rewrite Hbox.
  cbn [fst snd conn trace log on_conn with_conn errorKind status clientTempSecret
       nonce set_errorKind set_nonce set_clientTemp set_serverPubkey].
  repeat split. rewrite !sent_packets_app. cbn. now rewrite !app_nil_r.
Qed.

End Welcome.

(** ** COOK and VOCH *)

Section Cookie.

Context {K : Constants} {X : Externals}.

Lemma fit_exact (n : nat) (bs : bytes) : List.length bs = n -> fit n bs = bs.
Proof.
  intros <-. unfold fit. rewrite firstn_app, Nat.sub_diag, firstn_all.
  cbn [firstn]. apply app_nil_r.
Qed.

Lemma certificate_part_record (m : connection_mode) :
  Shape.certificate_part m
  = match m with
    | mode_grid => [1] ++ Tunnel.certificate_record
    | _ => [0]
    end.
Proof. destruct m; reflexivity. Qed.

Lemma vouch_outer_length (c : connection) (rnd inner : bytes) (m : connection_mode) :
  Z.of_nat
    (List.length
       (Tunnel.vouch_outer_fixed c (build_long_term_nonce "CurveCPV" rnd) inner
        ++ Shape.certificate_part m))
  = sizeof_curvecp_vouch_outer + Shape.certDataSize m.
Proof.
  rewrite length_app, vouch_outer_fixed_length. destruct m; reflexivity.
Qed.

(** X15.  On COOK, when the cookie box opens and every libsodium call succeeds,
    the client stores the 96 cookie bytes of the opened box and the new
    session key, and sends VOCH: the cookie echoed, the counter big-endian,
    and the outer box sealed with the new session key under the nonce
    "CurveCP-client-I" and the same counter.  The length field counts the
    certificate record in grid mode only.  The counter moves on by one. *)
Theorem cook_answered_with_voch (st st1 : state) (ret : Z)
    (cookie k rnd inner outerBox : bytes) (w : World) :
  receive_frame st = Frame ret st1 ->
  Tunnel.is_packet ret (receiveBuffer (conn st1)) CMD_COOK = true ->
  let c := conn st1 in
  let buf := receiveBuffer c in
  let nonceV := build_long_term_nonce "CurveCPV" rnd in
  let nonceI := build_short_term_nonce "CurveCP-client-I" (SWAP_64 host (nonce c)) in
  let plain := Tunnel.vouch_outer_fixed c nonceV inner
               ++ Shape.certificate_part (mode c) in
  let echoed := fit 96 (slice 64 96 cookie) in
  let voch := Shape.voch_packet (mode c) echoed (nonce c) outerBox in
  let out := Tunnel.receive_packet st in
  crypto_box_open (cook_box buf) (cook_nonce buf) (serverPubkey c)
    (clientTempSecret c) = Some cookie ->
  crypto_box_beforenm (fit 32 (slice 32 32 cookie)) (clientTempSecret c) = Some k ->
  randombytes 16 (world st1) = (rnd, w) ->
  crypto_box (vouch_inner c) nonceV (serverPubkey c) (clientSecret c) = Some inner ->
  crypto_box_afternm plain nonceI k = Some outerBox ->
  trace (snd out)
  = trace st1
    ++ [EvBoxOpen (cook_box buf) (cook_nonce buf) (serverPubkey c) (clientTempSecret c);
        EvBeforenm (fit 32 (slice 32 32 cookie)) (clientTempSecret c);
        EvRandom;
        EvBox (vouch_inner c) nonceV (serverPubkey c) (clientSecret c);
        EvAfternm plain nonceI k;
        EvSendData voch]
  /\ serverCookie (conn (snd out)) = echoed
  /\ beforenmData (conn (snd out)) = k
  /\ nonce (conn (snd out)) = (nonce c + 1) mod two64
  /\ slice 8 96 voch = echoed
  /\ slice 104 8 voch = be_bytes 8 (nonce c)
  /\ header_size voch = sizeof_packetVOCH + Shape.certDataSize (mode c) - 2.
Proof.
  intros Hframe Hpkt c buf nonceV nonceI plain echoed voch out
         Hopen Hbefore Hrand Hinner Houter.
  assert (Hcert : 0 <= Shape.certDataSize (mode c) <= 45)
    by (destruct (mode c); unfold Shape.certDataSize, sizeof_certificate_data; lia).
  assert (Hshape :
    slice 8 96 voch = echoed
    /\ slice 104 8 voch = be_bytes 8 (nonce c)
    /\ header_size voch = sizeof_packetVOCH + Shape.certDataSize (mode c) - 2).
  { unfold voch, Shape.voch_packet. split; [|split].
    - rewrite <- (fit_exact (n := 96) echoed) at 2 by apply fit_length.
      apply slice_in_packet;
        [apply build_header_length | apply fit_length
        | unfold sizeof_packetVOCH; lia].
    - rewrite (app_assoc (build_header _ _)).
      apply slice_in_packet;
        [rewrite length_app, build_header_length, fit_length; reflexivity
        | apply be_bytes_length
        | unfold sizeof_packetVOCH; lia].
    - rewrite header_size_firstn by (unfold sizeof_packetVOCH; lia).
      apply header_size_build_header. unfold sizeof_packetVOCH. lia. }
  unfold out. rewrite (@tunnel_dispatch K X st st1 ret CMD_COOK Hframe Hpkt).
  unfold Tunnel.handle_COOK.
  cbn [conn world trace log on_conn with_conn set_receiveBuffer serverPubkey
       clientTempSecret].
  fold c. fold buf. rewrite Hopen.
  cbn [conn world trace log on_conn with_conn set_serverCookie set_receiveBuffer
       clientTempSecret].
  rewrite Hbefore.
  cbn [conn world trace log on_conn with_conn set_beforenmData set_serverCookie
       set_receiveBuffer clientTempSecret].
  rewrite Hrand.
  assert (Hin : vouch_inner
                  (set_beforenmData k
                     (set_serverCookie (fit 96 (slice 64 96 cookie))
                        (set_receiveBuffer (cook_zero_outer_pad buf) c)))
                = vouch_inner c) by reflexivity.
  cbn [conn world trace log on_conn with_conn clientSecret set_beforenmData
       set_serverCookie set_receiveBuffer serverPubkey].
  rewrite Hin. fold nonceV. rewrite Hinner.
  change (Tunnel.vouch_outer_fixed
            (set_beforenmData k
               (set_serverCookie (fit 96 (slice 64 96 cookie))
                  (set_receiveBuffer (cook_zero_outer_pad buf) c))) nonceV inner)
    with (Tunnel.vouch_outer_fixed c nonceV inner).
  cbn [conn mode set_beforenmData set_serverCookie set_receiveBuffer].
  assert (Hbranch :
    (match mode c with
     | mode_grid =>
         (Tunnel.vouch_outer_fixed c nonceV inner ++ [1] ++ Tunnel.certificate_record,
          sizeof_certificate_data)
     | _ => (Tunnel.vouch_outer_fixed c nonceV inner ++ [0], 0)
     end) = (plain, Shape.certDataSize (mode c))).
  { unfold plain. rewrite certificate_part_record. now destruct (mode c). }
  rewrite Hbranch.
  unfold client_get_nonce.
  cbn [conn world trace log on_conn with_conn nonce beforenmData serverCookie
       set_nonce set_beforenmData set_serverCookie set_receiveBuffer].
  fold c. fold echoed.
  replace (firstn (Z.to_nat (sizeof_curvecp_vouch_outer + Shape.certDataSize (mode c)))
             plain) with plain.
  2:{ symmetry. apply firstn_all2. unfold plain, nonceV.
      pose proof (vouch_outer_length c rnd inner (mode c)) as Hl. lia. }
  fold nonceI. rewrite Houter.
  rewrite send_packet_built by (unfold sizeof_packetVOCH; lia).
  replace (slice 16 8 nonceI) with (be_bytes 8 (nonce c))
    by (symmetry; apply short_nonce_tail).
  change (firstn (Z.to_nat (sizeof_packetVOCH + Shape.certDataSize (mode c)))
            (build_header CMD_VOCH (sizeof_packetVOCH + Shape.certDataSize (mode c)) ++
             fit 96 echoed ++ be_bytes 8 (nonce c) ++
             skipn crypto_box_BOXZEROBYTES outerBox)) with voch.
  unfold call_send_data. cbn [conn world trace log with_conn].
  destruct (send_data voch _ w) as [res w'].
  unfold connection_set_result.
  destruct (result_eqb res osdg_no_error);
    cbn [snd conn trace on_conn with_conn serverCookie beforenmData nonce
         set_status set_errorKind set_nonce set_beforenmData set_serverCookie];
    rewrite <- !app_assoc; cbn [app]; repeat split; apply Hshape.
Qed.

(** X16.  A COOK packet whose cookie box does not open makes the receiver return
    -1 with [osdg_decryption_error].  The nonce field of the packet has
    been zeroed in the buffer; no nonce is spent, no random bytes are
    drawn, nothing is sent, and cookie and session key stay as they
    were. *)
Theorem cook_open_failure (st st1 : state) (ret : Z) :
  receive_frame st = Frame ret st1 ->
  Tunnel.is_packet ret (receiveBuffer (conn st1)) CMD_COOK = true ->
  let c := conn st1 in
  let buf := receiveBuffer c in
  let out := Tunnel.receive_packet st in
  crypto_box_open (cook_box buf) (cook_nonce buf) (serverPubkey c)
    (clientTempSecret c) = None ->
  fst out = -1
  /\ errorKind (conn (snd out)) = osdg_decryption_error
  /\ trace (snd out)
     = trace st1
       ++ [EvBoxOpen (cook_box buf) (cook_nonce buf) (serverPubkey c)
             (clientTempSecret c)]
  /\ world (snd out) = world st1
  /\ receiveBuffer (conn (snd out)) = cook_zero_outer_pad buf
  /\ nonce (conn (snd out)) = nonce c
  /\ status (conn (snd out)) = status c
  /\ serverCookie (conn (snd out)) = serverCookie c
  /\ beforenmData (conn (snd out)) = beforenmData c.
Proof.
  intros Hframe Hpkt c buf out Hopen.
  unfold out. rewrite (@tunnel_dispatch K X st st1 ret CMD_COOK Hframe Hpkt).
  unfold Tunnel.handle_COOK.
  cbn [conn world trace log on_conn with_conn set_receiveBuffer serverPubkey
       clientTempSecret].
  fold c. fold buf. rewrite Hopen.
  repeat split.
Qed.

End Cookie.

(** ** Starting a connection *)

Section Start.

Context {K : Constants} {X : Externals}.

Lemma lor_shiftl_byte (hi lo : Z) :
  0 <= hi -> 0 <= lo < 256 -> Z.lor (Z.shiftl hi 8) lo = hi * 256 + lo.
Proof.
  intros Hhi Hlo. rewrite Z.shiftl_mul_pow2 by lia.
  change (2 ^ 8) with 256.
  rewrite <- Z.lxor_lor, <- Z.add_nocarry_lxor; try reflexivity.
  all: apply Z.bits_inj'; intros n Hn; rewrite Z.land_spec, Z.bits_0.
  all: destruct (Z.ltb_spec n 8) as [Hlt|Hge].
  all: try (change 256 with (2 ^ 8);
            rewrite Z.mul_pow2_bits_low by lia; reflexivity).
  all: assert (Hbit : Z.testbit lo n = false)
         by (destruct (Z.eq_dec lo 0) as [->|Hnz];
             [apply Z.bits_0
             | apply Z.bits_above_log2; [lia|];
               apply Z.log2_lt_pow2; [lia|];
               apply Z.lt_le_trans with (2 ^ 8); [exact (proj2 Hlo)|];
               apply Z.pow_le_mono_r; lia]).
  all: rewrite Hbit; apply andb_false_r.
Qed.

(** The length prefix written as [SWAP_16 (size)] is read back by the
    receiver's [(buffer[0] << 8) | buffer[1]]. *)
Lemma declared_size_be_bytes (v : Z) (rest : bytes) :
  0 <= v < 65536 -> declared_size (be_bytes 2 v ++ rest) = v.
Proof.
  intros Hv. unfold declared_size, byte_at, be_bytes. cbn [le_bytes rev app nth].
  rewrite lor_shiftl_byte.
  - pose proof (Z.div_mod v 256 ltac:(lia)) as Hdm.
    rewrite (Z.mod_small (v / 256)); [lia|].
    split; [apply Z.div_pos; lia | apply Z.div_lt_upper_bound; lia].
  - apply Z.mod_pos_bound. lia.
  - apply Z.mod_pos_bound. lia.
Qed.


(** X18.  The frame [sendForward] builds reads back through the receiving code:
    the length prefix as the declared size, byte 2 as the message type,
    and the [DataPacket] body as the packed message. *)
Theorem forward_frame_round_trip (packed rest : bytes) :
  let frame := Shape.forward_frame packed ++ rest in
  Z.of_nat (List.length packed) + 1 < 65536 ->
  declared_size frame = Z.of_nat (List.length packed) + 1
  /\ byte_at frame 2 = MSG_FORWARD_REMOTE
  /\ Tunnel.forward_length frame = Z.of_nat (List.length packed)
  /\ Tunnel.forward_body frame = packed.
Proof.
  intros frame Hsmall. unfold frame, Shape.forward_frame.
  rewrite <- !app_assoc.
  assert (Hlen : Tunnel.forward_length
                   (be_bytes 2 (Z.of_nat (List.length packed) + 1)
                    ++ [MSG_FORWARD_REMOTE] ++ packed ++ rest)
                 = Z.of_nat (List.length packed)).
  { unfold Tunnel.forward_length.
    rewrite slice_prefix by apply be_bytes_length.
    rewrite SWAP_16_load by lia. unfold two32. rewrite Z.mod_small by lia. lia. }
  split; [apply declared_size_be_bytes; lia|].
  split; [unfold byte_at, be_bytes; reflexivity|].
  split; [exact Hlen|].
  unfold Tunnel.forward_body.
  replace (Tunnel.forward_length _) with (Z.of_nat (List.length packed))
    by (symmetry; exact Hlen).
  rewrite Nat2Z.id.
  pose proof (slice_middle (be_bytes 2 (Z.of_nat (List.length packed) + 1)
                            ++ [MSG_FORWARD_REMOTE]) packed rest eq_refl) as Hs.
  rewrite length_app, be_bytes_length in Hs. cbn [List.length Nat.add] in Hs.
  rewrite <- app_assoc in Hs. exact Hs.
Qed.

End Start.

(** ** More on the older receiver *)

Section LegacyMore.

Context {K : Constants} {X : Externals}.

(** X19.  In the older receiver a version message with the wrong magic fails the
    connection with [osdg_protocol_error] whatever its major and minor,
    and returns the byte count of the frame, a positive number, not -1;
    one that protobuf cannot decode returns -1. *)
Theorem legacy_version_magic_mismatch (st st1 st2 : state) (ret : Z) :
  receive_frame st = Frame ret st1 ->
  Legacy.is_packet (receiveBuffer (conn st1)) CMD_MESG = true ->
  decryptMESG "CurveCP-server-M" st1 = (true, st2) ->
  Legacy.mesg_dataType (receiveBuffer (conn st2)) = MSG_PROTOCOL_VERSION ->
  (forall v,
     protocol_version__unpack (Legacy.mesg_data (receiveBuffer (conn st2))) = Some v ->
     pv_magic v <> PROTOCOL_VERSION_MAGIC ->
     Legacy.receive_packet st = (ret, on_conn (set_errorKind osdg_protocol_error) st2)
     /\ 0 < ret)
  /\ (protocol_version__unpack (Legacy.mesg_data (receiveBuffer (conn st2))) = None ->
      Legacy.receive_packet st = (-1, on_conn (set_errorKind osdg_protocol_error) st2)).
Proof.
  intros Hframe Hpkt Hdec Htype.
  pose proof (receive_frame_positive _ Hframe) as Hret.
  rewrite (@legacy_dispatch K X st st1 ret CMD_MESG Hframe Hpkt).
  unfold Legacy.handle_MESG. rewrite Hdec, Htype.
  cbn [Z.eqb MSG_PROTOCOL_VERSION Pos.eqb].
  unfold Legacy.handle_PROTOCOL_VERSION. split.
  - intros v Hunpack Hmagic. rewrite Hunpack.
    apply Z.eqb_neq in Hmagic. rewrite Hmagic. cbn [negb].
    destruct (Z.eqb_spec ret 0) as [E|_]; [lia|]. cbn [negb]. now split.
  - intros Hunpack. now rewrite Hunpack.
Qed.

(** X20.  In the older receiver a MESG of another type whose payload is not a
    [PeerReply], or names no known peer, is dropped: the receiver returns
    0, only the type byte in the buffer has become [MSG_PEER_REPLY]. *)
Theorem legacy_peer_reply_ignored (st st1 st2 : state) (ret : Z) :
  receive_frame st = Frame ret st1 ->
  Legacy.is_packet (receiveBuffer (conn st1)) CMD_MESG = true ->
  decryptMESG "CurveCP-server-M" st1 = (true, st2) ->
  Legacy.mesg_dataType (receiveBuffer (conn st2)) <> MSG_PROTOCOL_VERSION ->
  let buf := receiveBuffer (conn st2) in
  let st3 := on_conn (set_receiveBuffer (write_at 34 [MSG_PEER_REPLY] buf)) st2 in
  peer_reply__unpack (Legacy.mesg_data buf) = None
  \/ (exists reply,
        peer_reply__unpack (Legacy.mesg_data buf) = Some reply
        /\ client_find_peer (conn st3) (world st3) (reply_id reply) = None) ->
  Legacy.receive_packet st = (0, st3)
  /\ world st3 = world st2
  /\ trace st3 = trace st2
  /\ errorKind (conn st3) = errorKind (conn st1).
Proof.
  intros Hframe Hpkt Hdec Htype buf st3 Hcase.
  rewrite (@legacy_dispatch K X st st1 ret CMD_MESG Hframe Hpkt).
  unfold Legacy.handle_MESG. rewrite Hdec.
  apply Z.eqb_neq in Htype. rewrite Htype.
  cbn [Z.eqb MSG_PEER_REPLY negb]. fold buf. fold st3.
  unfold Legacy.handle_PEER_REPLY.
  split.
  - destruct Hcase as [Hunpack|[reply [Hunpack Hfind]]]; rewrite Hunpack;
      [reflexivity | now rewrite Hfind].
  - destruct (decryptMESG_opened _ _ Hdec) as (b & c & n & ->).
    repeat split.
Qed.

(** X21.  The older [sendMESG] seals the same plaintext as the newer one, and
    the older receiver reads it back: the type at offset 34, the message
    from offset 35 in the length the size field gives. *)
Theorem legacy_mesg_round_trip (dataType : Z) (data : pb_message) (st : state)
    (rest : bytes) :
  let packed := protobuf_c_message_pack data in
  let plain := Shape.mesg_plaintext dataType packed in
  Legacy.sizeof_packetMESG + Z.of_nat (List.length packed) <= bufferSize (conn st) ->
  Z.of_nat (List.length packed) + 1 < 65536 ->
  In (EvAfternm plain
        (build_short_term_nonce "CurveCP-client-M" (SWAP_64 host (nonce (conn st))))
        (beforenmData (conn st)))
     (trace (snd (Legacy.sendMESG dataType data st)))
  /\ Legacy.mesg_dataType (plain ++ rest) = dataType
  /\ Legacy.mesg_length (plain ++ rest) = Z.of_nat (List.length packed)
  /\ Legacy.mesg_data (plain ++ rest) = packed.
Proof.
  intros packed plain Hfit Hsmall. split.
  - unfold Legacy.sendMESG. fold packed.
    destruct (Z.gtb_spec (Legacy.sizeof_packetMESG + Z.of_nat (List.length packed))
                (bufferSize (conn st))); [lia|].
    rewrite Z.mod_small by lia. rewrite store_SWAP_16.
    unfold client_get_nonce.
    cbn [conn world trace log on_conn with_conn beforenmData set_nonce].
    rewrite firstn_all2.
    2:{ rewrite !length_app, zeros_length, be_bytes_length. cbn [List.length].
        unfold Legacy.sizeof_mesg_payload, crypto_box_ZEROBYTES.
        unfold bytes, byte in *. lia. }
    change (zeros crypto_box_ZEROBYTES
            ++ be_bytes 2 (Z.of_nat (List.length packed) + 1)
            ++ [dataType] ++ packed) with plain.
    destruct (crypto_box_afternm plain _ _).
    + unfold Legacy.send_packet.
      destruct (send_data_int _ _ _) as [res w].
      cbn [snd trace conn world log with_conn]. rewrite !in_app_iff. cbn [In].
      tauto.
    + cbn [snd trace on_conn with_conn conn log]. rewrite !in_app_iff. cbn [In].
      tauto.
  - assert (Hlen : Legacy.mesg_length (plain ++ rest) = Z.of_nat (List.length packed)).
    { unfold Legacy.mesg_length, plain, Shape.mesg_plaintext.
      rewrite <- !app_assoc.
      pose proof (slice_middle (zeros 32)
                    (be_bytes 2 (Z.of_nat (List.length packed) + 1))
                    ([dataType] ++ packed ++ rest) (be_bytes_length 2 _)) as Hs.
      rewrite zeros_length in Hs.
      replace (slice 32 2 _)
        with (be_bytes 2 (Z.of_nat (List.length packed) + 1))
        by (symmetry; exact Hs).
      rewrite SWAP_16_load by lia. unfold two32. rewrite Z.mod_small by lia. lia. }
    split; [|split; [exact Hlen|]].
    + unfold Legacy.mesg_dataType, byte_at, plain, Shape.mesg_plaintext.
      rewrite <- !app_assoc, (app_assoc (zeros 32)).
      rewrite app_nth2 by (rewrite length_app, zeros_length, be_bytes_length; lia).
      rewrite length_app, zeros_length, be_bytes_length. reflexivity.
    + unfold Legacy.mesg_data.
      replace (Legacy.mesg_length _) with (Z.of_nat (List.length packed))
        by (symmetry; exact Hlen).
      rewrite Nat2Z.id. unfold plain, Shape.mesg_plaintext.
      rewrite <- !app_assoc.
      pose proof (slice_middle (zeros 32
                                ++ be_bytes 2 (Z.of_nat (List.length packed) + 1)
                                ++ [dataType]) packed rest eq_refl) as Hs.
      rewrite !length_app, zeros_length, be_bytes_length in Hs.
      cbn [List.length Nat.add] in Hs. rewrite <- !app_assoc in Hs. exact Hs.
Qed.

End LegacyMore.

(** ** What every run of the tunnel receiver keeps *)

Section Invariants.

Context {K : Constants} {X : Externals}.


Ltac unfold_tunnel H :=
  unfold Tunnel.receive_packet, Tunnel.handle_FORWARD_REPLY,
    Tunnel.handle_FORWARD_ERROR, Tunnel.handle_WELC, Tunnel.handle_COOK,
    Tunnel.handle_REDY, Tunnel.handle_MESG, Tunnel.sendTELL, Tunnel.sendMESG,
    Tunnel.get_MESG_packet, Tunnel.send_MESG_packet, send_packet, call_send_data,
    connection_set_status, client_get_nonce
    in H.

Ltac break_run_reducing H :=
  repeat (cbv beta iota in H;
          match type of H with
          | context [match ?x with _ => _ end] =>
              lazymatch x with
              | context [match _ with _ => _ end] => fail
              | _ => destruct x eqn:?
              end
          end).

Ltac open_decrypt :=
  repeat match goal with
         | H : decryptMESG _ _ = (false, _) |- _ =>
             apply decryptMESG_failed in H; destruct H as (? & ? & ? & ->)
         | H : decryptMESG _ _ = (true, _) |- _ =>
             apply decryptMESG_opened in H; destruct H as (? & ? & ? & ->)
         end.





(** X23.  A received packet that is not a MESG makes the client spend at most
    one nonce: the counter is left where it was or moved on by one. *)
Theorem tunnel_nonce_step (st st1 st' : state) (ret r : Z) :
  receive_frame st = Frame ret st1 ->
  command_is (receiveBuffer (conn st1)) CMD_MESG = false ->
  Tunnel.receive_packet st = (r, st') ->
  nonce (conn st') = nonce (conn st1)
  \/ nonce (conn st') = (nonce (conn st1) + 1) mod two64.
Proof.
  intros Hframe Hmesg Hrun.
  unfold Tunnel.receive_packet in Hrun. rewrite Hframe, Hmesg in Hrun.
  unfold_tunnel Hrun. unfold connection_set_result in Hrun.
  break_run_reducing Hrun; injection Hrun as <- <-; open_decrypt;
    cbn [conn on_conn with_conn log nonce set_errorKind set_status set_nonce
         set_receiveBuffer set_serverPubkey set_clientTemp set_serverCookie
         set_beforenmData];
    tauto.
Qed.

End Invariants.

(** * The intrusive queue *)

Module QueueFacts.

Import Queue.

Lemma ptr_eqb_eq (a b : ptr) : ptr_eqb a b = true <-> a = b.
Proof.
  destruct a, b; simpl; split; intro H; try congruence; try discriminate.
  - apply Nat.eqb_eq in H. congruence.
  - inversion H. apply Nat.eqb_refl.
Qed.

Lemma chain_heap (q q' : queue) (p : ptr) (l : list nat) :
  (forall i, In i l -> next q' i = next q i) ->
  chain q p l -> chain q' p l.
Proof.
  revert p. induction l as [|x r IH]; intros p Hn H; simpl in *.
  - exact H.
  - destruct H as [Hp Hc]. split; [exact Hp|].
    rewrite Hn by (left; reflexivity).
    apply IH; [|exact Hc]. intros i Hi. apply Hn. right. exact Hi.
Qed.

Lemma last_in (r : list nat) (x : nat) : r <> [] -> In (last r x) r.
Proof.
  induction r as [|y r IH]; intro H; [congruence|].
  destruct r as [|z r].
  - left. reflexivity.
  - right. apply IH. discriminate.
Qed.

Lemma last_cons (r : list nat) (x y : nat) : last (y :: r) x = last r y.
Proof.
  revert x y. induction r as [|z r IH]; intros x y; [reflexivity|].
  change (last (y :: z :: r) x) with (last (z :: r) x).
  rewrite (IH x z), (IH y z). reflexivity.
Qed.

Lemma last_app_one (l : list nat) (x d : nat) : last (l ++ [x]) d = x.
Proof.
  induction l as [|y l IH]; [reflexivity|].
  simpl. destruct (l ++ [x]) eqn:E.
  - destruct l; discriminate.
  - exact IH.
Qed.

Lemma chain_put (q : queue) (p : ptr) (l : list nat) (x e : nat) :
  NoDup (x :: l) -> ~ In e (x :: l) ->
  chain q p (x :: l) ->
  chain (mkQueue (head q) (Elem e)
           (fun j => if Nat.eqb j (last l x) then Elem e
                     else if Nat.eqb j e then Null else next q j))
        p ((x :: l) ++ [e]).
Proof.
  revert p x. induction l as [|y r IH]; intros p x Hnd Hne [Hp Hc].
  - simpl in *. split; [exact Hp|]. rewrite Nat.eqb_refl. split; [reflexivity|].
    destruct (Nat.eqb e x) eqn:E.
    + apply Nat.eqb_eq in E. exfalso. apply Hne. left. symmetry. exact E.
    + rewrite Nat.eqb_refl. reflexivity.
  - split; [exact Hp|].
    rewrite last_cons.
    cbn [next].
    assert (Hx : Nat.eqb x (last r y) = false).
    { apply Nat.eqb_neq. intro E. inversion Hnd as [|? ? Hnx _]; subst.
      apply Hnx. destruct r as [|z r]; [left; reflexivity|].
      right. apply last_in. discriminate. }
    rewrite Hx.
    assert (Hxe : Nat.eqb x e = false).
    { apply Nat.eqb_neq. intro E. apply Hne. left. exact E. }
    rewrite Hxe.
    inversion Hnd; subst.
    apply (IH (next q x) y); [assumption| |exact Hc].
    intro Hin. apply Hne. right. exact Hin.
Qed.

(** X24.  queue_get on an empty queue returns NULL and leaves the queue as it
    is; on a queue holding [x :: l] it returns [x] and leaves [l]. *)
Theorem queue_get_fifo (q : queue) (l : list nat) :
  holds q l ->
  match l with
  | [] => queue_get q = (Null, q)
  | x :: r => fst (queue_get q) = Elem x /\ holds (snd (queue_get q)) r
  end.
Proof.
  intros [Hc [Hnd Ht]]. destruct l as [|x r].
  - simpl in Hc. unfold queue_get. rewrite Hc, Ht. simpl.
    destruct q; simpl in *. reflexivity.
  - destruct Hc as [Hh Hc]. unfold queue_get. rewrite Hh. cbn [load_next tail head next].
    split; [reflexivity|].
    inversion Hnd as [|? ? Hnx Hnr]; subst.
    destruct r as [|y r].
    + simpl in Ht. rewrite Ht. simpl. rewrite Nat.eqb_refl. simpl in Hc.
      repeat split; simpl; [exact Hc|constructor].
    + rewrite Ht.
      assert (E : ptr_eqb (Elem (last (y :: r) x)) (Elem x) = false).
      { unfold ptr_eqb. apply Nat.eqb_neq. intro E. apply Hnx.
        pose proof (@last_in (y :: r) x) as L. rewrite E in L.
        apply L. discriminate. }
      rewrite E. cbn [snd]. unfold holds. cbn [head tail next].
      split; [|split].
      * apply chain_heap with (q := q); [reflexivity|exact Hc].
      * exact Hnr.
      * f_equal. apply last_cons.
Qed.

(** X25.  queue_put appends: a queue holding [l] holds [l ++ [e]] after an
    element [e] that is not queued is put. *)
Theorem queue_put_appends (q : queue) (l : list nat) (e : nat) :
  holds q l -> ~ In e l ->
  holds (queue_put q e) (l ++ [e]).
Proof.
  intros [Hc [Hnd Ht]] Hne. unfold queue_put, queue_put_nolock.
  assert (Hnd' : NoDup (l ++ [e])).
  { clear - Hnd Hne. induction l as [|x r IH]; simpl.
    - constructor; [intros []|constructor].
    - inversion Hnd; subst. constructor.
      + rewrite in_app_iff. intros [H|[H|[]]]; [contradiction|].
        apply Hne. left. symmetry. exact H.
      + apply IH; [assumption|]. intro H. apply Hne. right. exact H. }
  destruct l as [|x r].
  - simpl in Hc. cbn [store_next head tail next]. rewrite Ht.
    cbn [store_next head tail next].
    repeat split; simpl; [rewrite Nat.eqb_refl; reflexivity|exact Hnd'].
  - cbn [store_next head tail next]. rewrite Ht.
    cbn [store_next head tail next].
    split; [|split; [exact Hnd'|]].
    + pose proof (@chain_put q (head q) r x e Hnd Hne Hc) as H.
      cbn [head]. exact H.
    + cbn [tail]. simpl app.
      cbv beta iota. rewrite last_app_one. reflexivity.
Qed.

Lemma holds_empty : holds empty [].
Proof. repeat split; constructor. Qed.

Lemma puts_hold (q : queue) (l es : list nat) :
  holds q l -> NoDup (l ++ es) ->
  holds (fold_left queue_put es q) (l ++ es).
Proof.
  revert q l. induction es as [|e es IH]; intros q l H Hnd.
  - rewrite app_nil_r. exact H.
  - simpl. replace (l ++ e :: es) with ((l ++ [e]) ++ es)
      by (rewrite <- app_assoc; reflexivity).
    apply IH.
    + apply queue_put_appends; [exact H|].
      intro Hin. apply NoDup_remove_2 in Hnd. apply Hnd.
      apply in_or_app. left. exact Hin.
    + rewrite <- app_assoc. exact Hnd.
Qed.

Lemma drain_holds (q : queue) (l : list nat) :
  holds q l ->
  fst (drain (List.length l) q) = map Elem l
  /\ holds (snd (drain (List.length l) q)) [].
Proof.
  revert q. induction l as [|x r IH]; intros q H.
  - simpl. split; [reflexivity|exact H].
  - pose proof (queue_get_fifo H) as G. cbv beta iota in G.
    destruct G as [G1 G2].
    cbn [drain List.length]. destruct (queue_get q) as [e q1].
    cbn [fst snd] in G1, G2.
    destruct (IH q1 G2) as [D1 D2].
    destruct (drain (List.length r) q1) as [es q2]. cbn [fst snd map] in *.
    split; [congruence|exact D2].
Qed.

(** X26.  Elements put into an empty queue come out of queue_get in the order
    they were put, and one more queue_get returns NULL. *)
Theorem queue_first_in_first_out (es : list nat) :
  NoDup es ->
  let q := fold_left queue_put es empty in
  fst (drain (List.length es) q) = map Elem es
  /\ fst (queue_get (snd (drain (List.length es) q))) = Null.
Proof.
  intros Hnd q.
  assert (H : holds q es).
  { apply (@puts_hold empty [] es holds_empty). exact Hnd. }
  destruct (drain_holds H) as [D1 D2]. split; [exact D1|].
  pose proof (queue_get_fifo D2) as G. cbv beta iota in G. rewrite G. reflexivity.
Qed.

End QueueFacts.

(** * The command line of the demo *)

Module WordFacts.

Import Words.

Section GetWord.

Variable isspace : ascii -> bool.

Lemma skip_spaces_split (s : list ascii) :
  exists sep, s = sep ++ skip_spaces isspace s
              /\ forallb isspace sep = true
              /\ starts_with_no_space isspace (skip_spaces isspace s).
Proof.
  induction s as [|c r IH].
  - exists []. repeat split.
  - simpl. destruct (isspace c) eqn:E.
    + destruct IH as [sep [H1 [H2 H3]]]. exists (c :: sep).
      simpl. rewrite E, H2. repeat split; [f_equal; exact H1|exact H3].
    + exists []. repeat split. simpl. exact E.
Qed.

(** X27.  getWord cuts the line into the word it returns, the white space it
    skips and the rest it leaves the pointer at: the word holds no
    white space, the rest does not start with any, and nothing is left
    when no white space was found. *)
Theorem getWord_splits (s : list ascii) :
  exists sep,
    s = fst (getWord isspace s) ++ sep ++ snd (getWord isspace s)
    /\ forallb (fun c => negb (isspace c)) (fst (getWord isspace s)) = true
    /\ forallb isspace sep = true
    /\ starts_with_no_space isspace (snd (getWord isspace s))
    /\ (sep = [] -> snd (getWord isspace s) = []).
Proof.
  induction s as [|c r IH].
  - exists []. repeat split.
  - simpl. destruct (isspace c) eqn:E.
    + destruct (skip_spaces_split r) as [sep [H1 [H2 H3]]].
      exists (c :: sep). simpl. rewrite E, H2.
      repeat split; [f_equal; exact H1|exact H3|discriminate].
    + destruct IH as [sep [H1 [H2 [H3 [H4 H5]]]]].
      destruct (getWord isspace r) as [word rest]. simpl in *.
      exists sep. rewrite E. simpl.
      repeat split; [f_equal; exact H1|exact H2|exact H3|exact H4|exact H5].
Qed.

Lemma skip_spaces_joined (sep rest : list ascii) :
  forallb isspace sep = true -> starts_with_no_space isspace rest ->
  skip_spaces isspace (sep ++ rest) = rest.
Proof.
  intros Hs Hr. induction sep as [|c sep IH]; simpl in *.
  - destruct rest as [|c r]; [reflexivity|]. simpl in *. rewrite Hr. reflexivity.
  - apply andb_prop in Hs. destruct Hs as [Hc Hs]. rewrite Hc. apply IH. exact Hs.
Qed.

(** X28.  A word without white space, followed by white space and a rest that
    does not start with white space, is given back by getWord as that
    word and that rest. *)
Theorem getWord_of_joined (word sep rest : list ascii) :
  forallb (fun c => negb (isspace c)) word = true ->
  forallb isspace sep = true ->
  sep <> [] ->
  starts_with_no_space isspace rest ->
  getWord isspace (word ++ sep ++ rest) = (word, rest).
Proof.
  intros Hw Hs Hne Hr. induction word as [|c w IH]; simpl in *.
  - destruct sep as [|d sep]; [congruence|]. simpl in *.
    apply andb_prop in Hs. destruct Hs as [Hd Hs]. rewrite Hd.
    rewrite skip_spaces_joined by assumption. reflexivity.
  - apply andb_prop in Hw. destruct Hw as [Hc Hw].
    apply negb_true_iff in Hc. rewrite Hc. rewrite IH by exact Hw. reflexivity.
Qed.

(** X29.  Every call of getWord on a line that is not empty leaves a shorter
    line, so a loop over the words of a line ends. *)
Theorem getWord_consumes (s : list ascii) :
  s <> [] ->
  (List.length (snd (getWord isspace s)) < List.length s)%nat.
Proof.
  intro Hne.
  destruct (getWord_splits s) as [sep [H1 [_ [_ [_ H5]]]]].
  assert (L : List.length s
              = (List.length (fst (getWord isspace s)) + List.length sep
                 + List.length (snd (getWord isspace s)))%nat).
  { rewrite H1 at 1. rewrite !length_app. lia. }
  destruct sep as [|d sep].
  - rewrite (H5 eq_refl) in *. simpl. destruct s; [congruence|simpl; lia].
  - simpl in L. lia.
Qed.

End GetWord.

End WordFacts.

(** * Further runs on concrete frames *)

Module MoreRuns.

Import Double Samples.

Ltac run := vm_compute; first [reflexivity | discriminate].

(** X1, a run: nothing to read on the socket. *)
Lemma pending_read_run :
  Tunnel.receive_packet idle_input
  = (0, mkState (conn (begin_packet idle_input)) (world idle_input)
          (trace idle_input ++ [EvReceiveData]))
  /\ Legacy.receive_packet idle_input
     = (0, mkState (conn (begin_packet idle_input)) (world idle_input)
             (trace idle_input ++ [EvReceiveData])).
Proof.
  refine (@pending_read_returned constants externals idle_input 0
            (conn (begin_packet idle_input)) (world idle_input) _ _);
    [run | lia].
Defined.

(** X2, a run: the length prefix arrives, the body does not. *)
Lemma pending_body_run :
  Tunnel.receive_packet length_only_input
  = (0, mkState (after_length length_only_input)
          (snd (first_read length_only_input))
          (trace length_only_input ++ [EvReceiveData; EvReceiveData]))
  /\ Legacy.receive_packet length_only_input
     = (0, mkState (after_length length_only_input)
             (snd (first_read length_only_input))
             (trace length_only_input ++ [EvReceiveData; EvReceiveData])).
Proof.
  refine (@pending_body_returned constants externals length_only_input
            (snd (fst (first_read length_only_input)))
            (after_length length_only_input)
            (snd (first_read length_only_input))
            (snd (first_read length_only_input)) 0 _ _ _ _);
    [run | run | run | lia].
Defined.

(** X3, a run: a frame of three bytes. *)
Lemma short_frame_run :
  Tunnel.receive_packet short_input
  = (-1, on_conn (set_errorKind osdg_protocol_error) (frame_state short_input)).
Proof.
  refine (@short_frame_rejected constants externals short_input
            (frame_state short_input) (frame_ret short_input) _ _ _);
    [run | vm_compute; repeat split; discriminate | run].
Defined.

(** X4, a run: eight bytes that do not start with the magic. *)
Lemma wrong_magic_run :
  Legacy.receive_packet wrong_magic_input
  = (-1, on_conn (set_errorKind osdg_protocol_error) (frame_state wrong_magic_input))
  /\ Tunnel.receive_packet wrong_magic_input
     = (-1, on_conn (set_errorKind osdg_protocol_error)
              (frame_state wrong_magic_input)).
Proof.
  destruct (@wrong_magic_rejected constants externals wrong_magic_input
              (frame_state wrong_magic_input) (frame_ret wrong_magic_input))
    as [Hl Ht].
  - run.
  - run.
  - split; [exact Hl|]. apply Ht.
    + vm_compute. repeat split; discriminate.
    + run.
Defined.

(** X5, a run: the server sends a HELO. *)
Lemma unknown_command_run :
  Legacy.receive_packet helo_input = (0, frame_state helo_input)
  /\ Tunnel.receive_packet helo_input = (0, frame_state helo_input).
Proof.
  destruct (@unknown_command_ignored constants externals helo_input
              (frame_state helo_input) (frame_ret helo_input))
    as [Hl Ht].
  - run.
  - run.
  - intros cmd. destruct cmd; vm_compute; intro H;
      first [discriminate H | tauto].
  - split; [exact Hl|]. apply Ht.
    + vm_compute. repeat split; discriminate.
    + run.
Defined.

(** X6, a run: a forwarding error of two bytes, which does not decode. *)
Lemma forward_decode_failure_run :
  Tunnel.receive_packet bad_forward_error_input
  = (-1, on_conn (set_errorKind osdg_protocol_error)
           (frame_state bad_forward_error_input)).
Proof.
  refine (@forward_decode_failure constants externals bad_forward_error_input
            (frame_state bad_forward_error_input)
            (frame_ret bad_forward_error_input) _ _).
  - run.
  - right. split; run.
Defined.

(** X7, a run: REDY with a wrong tag. *)
Lemma undecryptable_redy_run :
  Tunnel.receive_packet bad_redy_input
  = (-1, snd (decryptMESG "CurveCP-server-R" (frame_state bad_redy_input)))
  /\ errorKind (conn (snd (decryptMESG "CurveCP-server-R"
                             (frame_state bad_redy_input))))
     = osdg_decryption_error.
Proof.
  destruct (@undecryptable_packet_rejected constants externals bad_redy_input
              (frame_state bad_redy_input)
              (snd (decryptMESG "CurveCP-server-R" (frame_state bad_redy_input)))
              (frame_ret bad_redy_input) CMD_REDY "CurveCP-server-R")
    as [Hrun [Hkind _]].
  - run.
  - run.
  - left. split; reflexivity.
  - run.
  - split; [exact Hrun | exact Hkind].
Defined.

(** X8, a run: the REDY frame of 31 bytes; the box handed to the cipher is 16
    zero bytes and the 17 bytes after the nonce. *)
Lemma decryptMESG_frame_box_run :
  trace (snd (decryptMESG "CurveCP-server-R" (frame_state (redy_input mode_grid 64))))
  = trace (frame_state (redy_input mode_grid 64))
    ++ [EvOpenAfternm
          (zeros 16
           ++ slice 16 (Z.to_nat (31 - 14))
                (receiveBuffer (conn (frame_state (redy_input mode_grid 64)))))
          (fit 16 (bytes_of_string "CurveCP-server-R")
           ++ slice 8 8 (receiveBuffer (conn (frame_state (redy_input mode_grid 64)))))
          (beforenmData (conn (frame_state (redy_input mode_grid 64))))].
Proof.
  refine (@decryptMESG_opens_frame_box constants externals "CurveCP-server-R"
            (frame_state (redy_input mode_grid 64)) 31 _ _ _ _).
  - run.
  - lia.
  - run.
  - vm_compute. repeat constructor; discriminate.
Defined.

(** X9, a run: a message of three bytes and type 5 on a fresh connection. *)
Lemma sendMESG_run :
  nonce (conn (snd (Tunnel.sendMESG 5 (Pb_Packed [1; 2; 3]) idle_input)))
  = (nonce (conn idle_input) + 1) mod two64
  /\ sent_packets (trace (snd (Tunnel.sendMESG 5 (Pb_Packed [1; 2; 3]) idle_input)))
     = [[0; 36; 0xF0; 0x9D; 77; 69; 83; 71; 0; 0; 0; 0; 0; 0; 0; 1]
        ++ tag ++ [0; 4; 5; 1; 2; 3]].
Proof.
  destruct (@sendMESG_seals_and_sends constants externals 5 (Pb_Packed [1; 2; 3])
              idle_input
              (box_of (Shape.mesg_plaintext 5 [1; 2; 3])))
    as [_ [_ [Hnonce _]]].
  - run.
  - run.
  - run.
  - split; [exact Hnonce | run].
Defined.

(** X10, a run: the same message with a buffer of 35 bytes. *)
Lemma sendMESG_too_large_run :
  Tunnel.sendMESG 5 (Pb_Packed [1; 2; 3]) (start (fresh mode_grid 35) [])
  = (osdg_buffer_exceeded,
     on_conn (set_errorKind osdg_buffer_exceeded) (start (fresh mode_grid 35) [])).
Proof.
  refine (proj1 (@sendMESG_too_large constants externals 5 (Pb_Packed [1; 2; 3])
                   (start (fresh mode_grid 35) []) _)).
  run.
Defined.

(** X11, a run: the same message with a cipher that refuses. *)
Lemma sendMESG_seal_failure_run :
  fst (@Tunnel.sendMESG constants broken_cipher 5 (Pb_Packed [1; 2; 3]) idle_input)
  = osdg_crypto_core_error
  /\ nonce (conn (snd (@Tunnel.sendMESG constants broken_cipher 5
                         (Pb_Packed [1; 2; 3]) idle_input)))
     = (nonce (conn idle_input) + 1) mod two64.
Proof.
  destruct (@sendMESG_seal_failure constants broken_cipher 5 (Pb_Packed [1; 2; 3])
              idle_input)
    as [Hres [Hnonce _]].
  - run.
  - run.
  - run.
  - split; [exact Hres | exact Hnonce].
Defined.

(** X12, a run: a MESG of type 5 carrying [1; 2; 3] reaches the data handler
    with its type byte first. *)
Lemma mesg_layout_run :
  Tunnel.handle_MESG (frame_state data_mesg_input)
  = connection_set_result
      (fst (fst (connection_handle_data
                   (5 :: [1; 2; 3]
                    ++ skipn 38 (receiveBuffer
                                   (conn (opened "CurveCP-server-M" data_mesg_input))))
                   (Z.of_nat (List.length [1; 2; 3]) + 1)
                   (conn (opened "CurveCP-server-M" data_mesg_input))
                   (world (opened "CurveCP-server-M" data_mesg_input)))))
      (mkState
         (snd (fst (connection_handle_data
                      (5 :: [1; 2; 3]
                       ++ skipn 38 (receiveBuffer
                                      (conn (opened "CurveCP-server-M"
                                               data_mesg_input))))
                      (Z.of_nat (List.length [1; 2; 3]) + 1)
                      (conn (opened "CurveCP-server-M" data_mesg_input))
                      (world (opened "CurveCP-server-M" data_mesg_input)))))
         (snd (connection_handle_data
                 (5 :: [1; 2; 3]
                  ++ skipn 38 (receiveBuffer
                                 (conn (opened "CurveCP-server-M" data_mesg_input))))
                 (Z.of_nat (List.length [1; 2; 3]) + 1)
                 (conn (opened "CurveCP-server-M" data_mesg_input))
                 (world (opened "CurveCP-server-M" data_mesg_input))))
         (trace (opened "CurveCP-server-M" data_mesg_input)
          ++ [EvHandleData
                (5 :: [1; 2; 3]
                 ++ skipn 38 (receiveBuffer
                                (conn (opened "CurveCP-server-M"
                                         data_mesg_input))))])).
Proof.
  refine (@mesg_layout_round_trip constants externals
            (frame_state data_mesg_input)
            (opened "CurveCP-server-M" data_mesg_input) 5 [1; 2; 3]
            (skipn 38 (receiveBuffer (conn (opened "CurveCP-server-M"
                                              data_mesg_input))))
            _ _ _);
    run.
Defined.


(** X14, a run: WELC when the cipher refuses to seal the HELO box. *)
Lemma welc_seal_failure_run :
  fst (@Tunnel.receive_packet constants broken_cipher welc_input) = -1
  /\ errorKind (conn (snd (@Tunnel.receive_packet constants broken_cipher welc_input)))
     = osdg_crypto_core_error.
Proof.
  destruct (@welc_seal_failure constants broken_cipher welc_input
              (@frame_state broken_cipher welc_input)
              (@frame_ret broken_cipher welc_input)
              (repeat 5 32) (repeat 6 32)
              (world (@frame_state broken_cipher welc_input)))
    as (Hret & Hkind & _).
  - run.
  - run.
  - run.
  - run.
  - split; [exact Hret | exact Hkind].
Defined.

(** X15, a run: COOK on a grid connection. *)
Lemma cook_run :
  serverCookie (conn (snd (Tunnel.receive_packet (cook_input mode_grid))))
  = fit 96 (slice 64 96 (zeros 32 ++ repeat 3 32 ++ repeat 4 96))
  /\ beforenmData (conn (snd (Tunnel.receive_packet (cook_input mode_grid))))
     = repeat 8 32
  /\ nonce (conn (snd (Tunnel.receive_packet (cook_input mode_grid))))
     = (nonce (conn (frame_state (cook_input mode_grid))) + 1) mod two64.
Proof.
  destruct (@cook_answered_with_voch constants externals (cook_input mode_grid)
              (frame_state (cook_input mode_grid))
              (frame_ret (cook_input mode_grid))
              (zeros 32 ++ repeat 3 32 ++ repeat 4 96) (repeat 8 32) (repeat 7 16)
              (zeros 16 ++ tag ++ repeat 5 32)
              (box_of
                 (Tunnel.vouch_outer_fixed (conn (frame_state (cook_input mode_grid)))
                    (build_long_term_nonce "CurveCPV" (repeat 7 16))
                    (zeros 16 ++ tag ++ repeat 5 32)
                  ++ Shape.certificate_part mode_grid))
              (world (frame_state (cook_input mode_grid))))
    as (_ & Hcookie & Hk & Hnonce & _).
  - run.
  - run.
  - run.
  - run.
  - run.
  - run.
  - run.
  - split; [exact Hcookie | split; [exact Hk | exact Hnonce]].
Defined.

(** X16, a run: COOK whose box carries a wrong tag. *)
Lemma cook_open_failure_run :
  fst (Tunnel.receive_packet bad_cook_input) = -1
  /\ errorKind (conn (snd (Tunnel.receive_packet bad_cook_input)))
     = osdg_decryption_error.
Proof.
  destruct (@cook_open_failure constants externals bad_cook_input
              (frame_state bad_cook_input) (frame_ret bad_cook_input))
    as (Hret & Hkind & _).
  - run.
  - run.
  - run.
  - split; [exact Hret | exact Hkind].
Defined.


(** X18, a run: the frame around three packed bytes, followed by one more. *)
Lemma forward_frame_run :
  declared_size (Shape.forward_frame [1; 2; 3] ++ [9])
  = Z.of_nat (List.length [1; 2; 3]) + 1
  /\ byte_at (Shape.forward_frame [1; 2; 3] ++ [9]) 2 = MSG_FORWARD_REMOTE
  /\ Tunnel.forward_length (Shape.forward_frame [1; 2; 3] ++ [9])
     = Z.of_nat (List.length [1; 2; 3])
  /\ Tunnel.forward_body (Shape.forward_frame [1; 2; 3] ++ [9]) = [1; 2; 3].
Proof.
  refine (@forward_frame_round_trip constants [1; 2; 3] [9] _). run.
Defined.

(** X19, two runs of the older receiver: a version message with a foreign
    magic, and one that does not decode. *)
Lemma legacy_version_mismatch_run :
  (Legacy.receive_packet (version_input 0x1234 1 0)
   = (frame_ret (version_input 0x1234 1 0),
      on_conn (set_errorKind osdg_protocol_error)
        (opened "CurveCP-server-M" (version_input 0x1234 1 0)))
   /\ 0 < frame_ret (version_input 0x1234 1 0))
  /\ Legacy.receive_packet truncated_version_input
     = (-1, on_conn (set_errorKind osdg_protocol_error)
              (opened "CurveCP-server-M" truncated_version_input)).
Proof.
  split.
  - refine (proj1 (@legacy_version_magic_mismatch constants externals
                     (version_input 0x1234 1 0)
                     (frame_state (version_input 0x1234 1 0))
                     (opened "CurveCP-server-M" (version_input 0x1234 1 0))
                     (frame_ret (version_input 0x1234 1 0)) _ _ _ _)
                  (mkProtocolVersion 0x1234 1 0) _ _);
      run.
  - refine (proj2 (@legacy_version_magic_mismatch constants externals
                     truncated_version_input
                     (frame_state truncated_version_input)
                     (opened "CurveCP-server-M" truncated_version_input)
                     (frame_ret truncated_version_input) _ _ _ _) _);
      run.
Defined.

(** X20, a run of the older receiver: a reply for the peer 7, which nobody
    waits for. *)
Lemma legacy_peer_reply_ignored_run :
  Legacy.receive_packet stray_reply_input
  = (0, on_conn
          (set_receiveBuffer
             (write_at 34 [MSG_PEER_REPLY]
                (receiveBuffer (conn (opened "CurveCP-server-M" stray_reply_input)))))
          (opened "CurveCP-server-M" stray_reply_input)).
Proof.
  refine (proj1 (@legacy_peer_reply_ignored constants externals stray_reply_input
                   (frame_state stray_reply_input)
                   (opened "CurveCP-server-M" stray_reply_input)
                   (frame_ret stray_reply_input) _ _ _ _ _)).
  - run.
  - run.
  - run.
  - run.
  - right. exists (mkPeerReply 7 []). split; run.
Defined.

(** X21, a run: what the older sendMESG seals is read back by the older
    receiver's accessors. *)
Lemma legacy_mesg_round_trip_run :
  Legacy.mesg_dataType
    (Shape.mesg_plaintext 5 (protobuf_c_message_pack (Pb_Packed [1; 2; 3])) ++ [9; 9])
  = 5
  /\ Legacy.mesg_length
       (Shape.mesg_plaintext 5 (protobuf_c_message_pack (Pb_Packed [1; 2; 3]))
        ++ [9; 9])
     = Z.of_nat (List.length (protobuf_c_message_pack (Pb_Packed [1; 2; 3])))
  /\ Legacy.mesg_data
       (Shape.mesg_plaintext 5 (protobuf_c_message_pack (Pb_Packed [1; 2; 3]))
        ++ [9; 9])
     = protobuf_c_message_pack (Pb_Packed [1; 2; 3]).
Proof.
  refine (proj2 (@legacy_mesg_round_trip constants externals 5 (Pb_Packed [1; 2; 3])
                   idle_input [9; 9] _ _));
    run.
Defined.


(** X23, a run: WELC moves the nonce on by one. *)
Lemma tunnel_nonce_step_run :
  nonce (conn (snd (Tunnel.receive_packet welc_input)))
  = nonce (conn (frame_state welc_input))
  \/ nonce (conn (snd (Tunnel.receive_packet welc_input)))
     = (nonce (conn (frame_state welc_input)) + 1) mod two64.
Proof.
  refine (@tunnel_nonce_step constants externals welc_input
            (frame_state welc_input)
            (snd (Tunnel.receive_packet welc_input))
            (frame_ret welc_input)
            (fst (Tunnel.receive_packet welc_input)) _ _ _);
    run.
Defined.

(** X24, a run: the queue after the puts of 3, 1 and 2. *)
Lemma queue_get_run :
  fst (Queue.queue_get three_puts) = Queue.Elem 3
  /\ Queue.holds (snd (Queue.queue_get three_puts)) [1; 2]%nat.
Proof.
  refine (@QueueFacts.queue_get_fifo three_puts [3; 1; 2]%nat _).
  vm_compute. repeat split; repeat constructor; simpl; intuition discriminate.
Defined.

(** X25, a run: a fourth element is put. *)
Lemma queue_put_run :
  Queue.holds (Queue.queue_put three_puts 7) ([3; 1; 2] ++ [7])%nat.
Proof.
  refine (@QueueFacts.queue_put_appends three_puts [3; 1; 2]%nat 7%nat _ _).
  - vm_compute. repeat split; repeat constructor; simpl; intuition discriminate.
  - simpl. intuition discriminate.
Defined.

(** X26, a run: three elements through the queue. *)
Lemma queue_order_run :
  fst (Queue.drain (List.length [3; 1; 2]%nat)
         (fold_left Queue.queue_put [3; 1; 2]%nat Queue.empty))
  = map Queue.Elem [3; 1; 2]%nat
  /\ fst (Queue.queue_get
            (snd (Queue.drain (List.length [3; 1; 2]%nat)
                    (fold_left Queue.queue_put [3; 1; 2]%nat Queue.empty))))
     = Queue.Null.
Proof.
  refine (@QueueFacts.queue_first_in_first_out [3; 1; 2]%nat _).
  repeat constructor; simpl; intuition discriminate.
Defined.

(** X28, a run: the line "connect", a space, a tab, "peer1". *)
Lemma getWord_run :
  Words.getWord Words.c_isspace connect_line
  = (list_ascii_of_string "connect", list_ascii_of_string "peer1").
Proof.
  refine (@WordFacts.getWord_of_joined Words.c_isspace
            (list_ascii_of_string "connect") [" "; "009"]%char
            (list_ascii_of_string "peer1") _ _ _ _);
    run.
Defined.

(** X29, a run: the line "quit" with its newline. *)
Lemma getWord_consumes_run :
  (List.length (snd (Words.getWord Words.c_isspace
                       (list_ascii_of_string "quit" ++ ["010"%char])))
   < List.length (list_ascii_of_string "quit" ++ ["010"%char]))%nat.
Proof.
  refine (@WordFacts.getWord_consumes Words.c_isspace
            (list_ascii_of_string "quit" ++ ["010"%char]) _).
  run.
Defined.

End MoreRuns.
